(** * Tracer solar charger: Modbus RTU engine and register decoding

    A shallow embedding of the protocol core of the Tracer3210AN tools:

    - [src/communication/modbus_client.py] (class [ModbusRTUClient]) and the
      Home Assistant copy [tracer_solar_charger/modbus_client.py]
      (class [TracerModbusClient]): CRC16, request framing, response parsing,
      the register read and write cycles over the serial line;
    - [tracer_solar_charger/sensor.py] and [const.py]: decoding of raw
      registers into sensor values;
    - [src/models/device_data.py]: parameter readings and snapshots;
    - [src/main.py]: the single-parameter write command.

    Python integers are unbounded, hence [Z]; a [bytes] object is a
    [list byte]; [struct.pack] raises on a field that does not fit, hence
    [option]; Python floats are IEEE 754 binary64, modelled with
    [SpecFloat]. *)

From Stdlib Require Import ZArith List String Ascii Strings.Byte Bool Lia.
From Stdlib Require Import DecimalString.
From Stdlib Require Import SpecFloat.
From stdpp Require Import gmap strings list.
Import ListNotations.

Local Open Scope Z_scope.

(* ===================================================================== *)
(** * Bytes and [struct] packing *)
(* ===================================================================== *)

(** Indexing a [bytes] object yields an [int] in [0, 255]. *)
Definition byte_val (b : byte) : Z := Z.of_N (Byte.to_N b).

(** The byte holding the low eight bits of [z]. *)
Definition byte_of_Z (z : Z) : byte :=
  match Byte.of_N (Z.to_N (Z.land z 0xFF)) with
  | Some b => b
  | None => x00
  end.

Definition in_range (lo hi v : Z) : bool := (lo <=? v) && (v <=? hi).

(** [struct.pack('B', v)]: one unsigned byte; [struct.error] out of range. *)
Definition pack_B (v : Z) : option (list byte) :=
  if in_range 0 255 v then Some [byte_of_Z v] else None.

(** The two bytes of a 16-bit [v], most significant first. *)
Definition be16 (v : Z) : list byte :=
  [byte_of_Z (Z.shiftr v 8); byte_of_Z v].

(** [struct.pack('>H', v)]: unsigned 16 bits, high byte first. *)
Definition pack_H_be (v : Z) : option (list byte) :=
  if in_range 0 65535 v then Some (be16 v) else None.

(** [struct.pack('<H', v)]: unsigned 16 bits, low byte first. *)
Definition pack_H_le (v : Z) : option (list byte) :=
  if in_range 0 65535 v
  then Some [byte_of_Z v; byte_of_Z (Z.shiftr v 8)]
  else None.

(** [struct.unpack('>H', two bytes)[0]]. *)
Definition unpack_H_be (hi lo : byte) : Z :=
  Z.lor (Z.shiftl (byte_val hi) 8) (byte_val lo).

(** Sequencing of packed fields: the whole [struct.pack] call fails as soon
    as one field does. *)
Definition pack_cat (a b : option (list byte)) : option (list byte) :=
  match a, b with
  | Some x, Some y => Some (x ++ y)
  | _, _ => None
  end.

Infix "+++?" := pack_cat (at level 60, right associativity).

(* ===================================================================== *)
(** * CRC16 ([calculate_crc16], identical in both clients) *)
(* ===================================================================== *)

(** One round of the inner loop:
    [if crc & 0x0001: crc >>= 1; crc ^= 0xA001  else: crc >>= 1]. *)
Definition crc16_shift (crc : Z) : Z :=
  if negb (Z.land crc 0x0001 =? 0)
  then Z.lxor (Z.shiftr crc 1) 0xA001
  else Z.shiftr crc 1.

(** The body of [for byte in data]: [crc ^= byte], then eight rounds. *)
Definition crc16_byte (crc : Z) (b : byte) : Z :=
  Nat.iter 8 crc16_shift (Z.lxor crc (byte_val b)).

(** The accumulator after the outer loop, started at [0xFFFF]. *)
Definition crc16_acc (data : list byte) : Z :=
  fold_left crc16_byte data 0xFFFF.

Definition calculate_crc16 (data : list byte) : option (list byte) :=
  pack_H_le (crc16_acc data).

(** ** The table-driven reference

    The second definition of the refinement: the byte-at-a-time Modbus RTU
    CRC16 of the Modbus serial line guide, driven by the usual table of 256
    words for the reflected polynomial [0xA001]. *)
Definition crc16_table : list Z :=
  [ 0x0000; 0xC0C1; 0xC181; 0x0140; 0xC301; 0x03C0; 0x0280; 0xC241;
    0xC601; 0x06C0; 0x0780; 0xC741; 0x0500; 0xC5C1; 0xC481; 0x0440;
    0xCC01; 0x0CC0; 0x0D80; 0xCD41; 0x0F00; 0xCFC1; 0xCE81; 0x0E40;
    0x0A00; 0xCAC1; 0xCB81; 0x0B40; 0xC901; 0x09C0; 0x0880; 0xC841;
    0xD801; 0x18C0; 0x1980; 0xD941; 0x1B00; 0xDBC1; 0xDA81; 0x1A40;
    0x1E00; 0xDEC1; 0xDF81; 0x1F40; 0xDD01; 0x1DC0; 0x1C80; 0xDC41;
    0x1400; 0xD4C1; 0xD581; 0x1540; 0xD701; 0x17C0; 0x1680; 0xD641;
    0xD201; 0x12C0; 0x1380; 0xD341; 0x1100; 0xD1C1; 0xD081; 0x1040;
    0xF001; 0x30C0; 0x3180; 0xF141; 0x3300; 0xF3C1; 0xF281; 0x3240;
    0x3600; 0xF6C1; 0xF781; 0x3740; 0xF501; 0x35C0; 0x3480; 0xF441;
    0x3C00; 0xFCC1; 0xFD81; 0x3D40; 0xFF01; 0x3FC0; 0x3E80; 0xFE41;
    0xFA01; 0x3AC0; 0x3B80; 0xFB41; 0x3900; 0xF9C1; 0xF881; 0x3840;
    0x2800; 0xE8C1; 0xE981; 0x2940; 0xEB01; 0x2BC0; 0x2A80; 0xEA41;
    0xEE01; 0x2EC0; 0x2F80; 0xEF41; 0x2D00; 0xEDC1; 0xEC81; 0x2C40;
    0xE401; 0x24C0; 0x2580; 0xE541; 0x2700; 0xE7C1; 0xE681; 0x2640;
    0x2200; 0xE2C1; 0xE381; 0x2340; 0xE101; 0x21C0; 0x2080; 0xE041;
    0xA001; 0x60C0; 0x6180; 0xA141; 0x6300; 0xA3C1; 0xA281; 0x6240;
    0x6600; 0xA6C1; 0xA781; 0x6740; 0xA501; 0x65C0; 0x6480; 0xA441;
    0x6C00; 0xACC1; 0xAD81; 0x6D40; 0xAF01; 0x6FC0; 0x6E80; 0xAE41;
    0xAA01; 0x6AC0; 0x6B80; 0xAB41; 0x6900; 0xA9C1; 0xA881; 0x6840;
    0x7800; 0xB8C1; 0xB981; 0x7940; 0xBB01; 0x7BC0; 0x7A80; 0xBA41;
    0xBE01; 0x7EC0; 0x7F80; 0xBF41; 0x7D00; 0xBDC1; 0xBC81; 0x7C40;
    0xB401; 0x74C0; 0x7580; 0xB541; 0x7700; 0xB7C1; 0xB681; 0x7640;
    0x7200; 0xB2C1; 0xB381; 0x7340; 0xB101; 0x71C0; 0x7080; 0xB041;
    0x5000; 0x90C1; 0x9181; 0x5140; 0x9301; 0x53C0; 0x5280; 0x9241;
    0x9601; 0x56C0; 0x5780; 0x9741; 0x5500; 0x95C1; 0x9481; 0x5440;
    0x9C01; 0x5CC0; 0x5D80; 0x9D41; 0x5F00; 0x9FC1; 0x9E81; 0x5E40;
    0x5A00; 0x9AC1; 0x9B81; 0x5B40; 0x9901; 0x59C0; 0x5880; 0x9841;
    0x8801; 0x48C0; 0x4980; 0x8941; 0x4B00; 0x8BC1; 0x8A81; 0x4A40;
    0x4E00; 0x8EC1; 0x8F81; 0x4F40; 0x8D01; 0x4DC0; 0x4C80; 0x8C41;
    0x4400; 0x84C1; 0x8581; 0x4540; 0x8701; 0x47C0; 0x4680; 0x8641;
    0x8201; 0x42C0; 0x4380; 0x8341; 0x4100; 0x81C1; 0x8081; 0x4040 ].

(** [crc = (crc >> 8) ^ table[(crc ^ byte) & 0xFF]]. *)
Definition crc16_table_byte (crc : Z) (b : byte) : Z :=
  Z.lxor (Z.shiftr crc 8)
         (nth (Z.to_nat (Z.land (Z.lxor crc (byte_val b)) 0xFF)) crc16_table 0).

Definition crc16_table_acc (data : list byte) : Z :=
  fold_left crc16_table_byte data 0xFFFF.

(** The reference checksum as it goes on the wire: low byte, then high. *)
Definition crc16_reference (data : list byte) : list byte :=
  let crc := crc16_table_acc data in
  [byte_of_Z (Z.land crc 0xFF); byte_of_Z (Z.shiftr crc 8)].

(* ===================================================================== *)
(** * Request frames *)
(* ===================================================================== *)

(** [data + self.calculate_crc16(data)]. *)
Definition with_crc (data : option (list byte)) : option (list byte) :=
  match data with
  | Some d =>
      match calculate_crc16 d with
      | Some crc => Some (d ++ crc)
      | None => None
      end
  | None => None
  end.

(** [struct.pack('>BBHH', a, b, c, d)]. *)
Definition pack_BBHH (a b c d : Z) : option (list byte) :=
  pack_B a +++? pack_B b +++? pack_H_be c +++? pack_H_be d.

(** [create_modbus_command]: the read request (identical in both clients). *)
Definition create_modbus_command
    (slave_id function_code start_addr num_registers : Z) : option (list byte) :=
  with_crc (pack_BBHH slave_id function_code start_addr num_registers).

(** The command built at the head of [write_single_register]. *)
Definition write_single_command (slave_id address value : Z) : option (list byte) :=
  with_crc (pack_BBHH slave_id 0x06 address value).

(** The loop [for value in values: data_bytes += struct.pack('>H', value)]. *)
Fixpoint pack_values (values : list Z) : option (list byte) :=
  match values with
  | [] => Some []
  | v :: rest => pack_H_be v +++? pack_values rest
  end.

(** The command built at the head of [write_multiple_registers]. *)
Definition write_multiple_command
    (slave_id start_addr : Z) (values : list Z) : option (list byte) :=
  let num_registers := Z.of_nat (length values) in
  let byte_count := num_registers * 2 in
  let header :=
    pack_B slave_id +++? pack_B 0x10 +++? pack_H_be start_addr
      +++? pack_H_be num_registers +++? pack_B byte_count in
  with_crc (header +++? pack_values values).

(* ===================================================================== *)
(** * Text helpers *)
(* ===================================================================== *)

(** [str(n)] for a Python [int]. *)
Definition str_of_int (n : Z) : string := NilZero.string_of_int (Z.to_int n).

(** [sep.join(parts)]. *)
Fixpoint join (sep : string) (parts : list string) : string :=
  match parts with
  | [] => EmptyString
  | [p] => p
  | p :: rest => (p ++ sep ++ join sep rest)%string
  end.

(** One lower-case hexadecimal digit. *)
Definition hex_digit (d : Z) : ascii :=
  if d <? 10 then ascii_of_nat (Z.to_nat (48 + d))
  else ascii_of_nat (Z.to_nat (87 + d)).

(** The digits of [n > 0] in base 16, most significant first, by repeated
    division; [fuel] bounds the number of digits. *)
Fixpoint hex_digits (fuel : nat) (n : Z) (acc : string) : string :=
  match fuel with
  | O => acc
  | S fuel' =>
      if n <=? 0 then acc
      else hex_digits fuel' (n / 16) (String (hex_digit (n mod 16)) acc)
  end.

Definition hex_of_nonneg (n : Z) : string :=
  if n =? 0 then "0"%string
  else hex_digits (S (Z.to_nat (Z.log2 n))) n EmptyString.

Fixpoint zeros (n : nat) : string :=
  match n with
  | O => EmptyString
  | S n' => String "0" (zeros n')
  end.

(** [format(n, '04x')]: lower-case hexadecimal, zero-padded to four
    characters, the sign counted in the width. *)
Definition format_04x (n : Z) : string :=
  let sign := if n <? 0 then "-"%string else EmptyString in
  let digits := hex_of_nonneg (Z.abs n) in
  (sign ++ zeros (4 - String.length sign - String.length digits) ++ digits)%string.

(** [s.lower()] on ASCII text. *)
Definition lower_ascii (c : ascii) : ascii :=
  let n := nat_of_ascii c in
  if (65 <=? n)%nat && (n <=? 90)%nat then ascii_of_nat (n + 32) else c.

Fixpoint lower (s : string) : string :=
  match s with
  | EmptyString => EmptyString
  | String c rest => String (lower_ascii c) (lower rest)
  end.

(* ===================================================================== *)
(** * The serial line *)
(* ===================================================================== *)

(** What the program can observe of, and do to, the outside world. Frames
    handed to [serial_conn.write] are appended to [sent]. Each
    [serial_conn.read] after a request returns the head of [replies] (the
    empty [bytes] on a timeout, or once [replies] is exhausted). Each
    [serial.Serial(...)] call succeeds or not as the head of [opens] says.
    Each [input()] call returns the head of [answers]. Delays, and I/O errors
    on an open port, are outside the model. *)
Record world := World
  { sent : list (list byte);
    replies : list (list byte);
    opens : list bool;
    answers : list string }.

Inductive exn := ConnectionError | OverflowError.

Inductive outcome (A : Type) :=
| Return (a : A)
| Raise (e : exn).
Arguments Return {A} a.
Arguments Raise {A} e.

(** Computations over the world that may raise. *)
Definition io (A : Type) : Type := world -> outcome A * world.

Definition ret {A} (a : A) : io A := fun w => (Return a, w).
Definition raise {A} (e : exn) : io A := fun w => (Raise e, w).
Definition bind {A B} (m : io A) (k : A -> io B) : io B :=
  fun w =>
    match m w with
    | (Return a, w') => k a w'
    | (Raise e, w') => (Raise e, w')
    end.

(** [try: m  except Exception: return dflt]. *)
Definition try_except {A} (m : io A) (dflt : A) : io A :=
  fun w =>
    match m w with
    | (Return a, w') => (Return a, w')
    | (Raise _, w') => (Return dflt, w')
    end.

Notation "x <- m ;; k" := (bind m (fun x => k))
  (at level 100, m at next level, right associativity).

(** [reset_input_buffer(); write(cmd); sleep(..); read(in_waiting or n)]. *)
Definition exchange (cmd : list byte) : io (list byte) :=
  fun w =>
    (Return (hd [] (replies w)),
     {| sent := sent w ++ [cmd]; replies := tl (replies w);
        opens := opens w; answers := answers w |}).

(** [serial.Serial(...)]: [true] when the port opened. *)
Definition open_port : io bool :=
  fun w =>
    (Return (hd false (opens w)),
     {| sent := sent w; replies := replies w;
        opens := tl (opens w); answers := answers w |}).

(** [input(prompt)]. *)
Definition input : io string :=
  fun w =>
    (Return (hd EmptyString (answers w)),
     {| sent := sent w; replies := replies w;
        opens := opens w; answers := tl (answers w) |}).

(** The client object: its slave id and whether [serial_conn] is set and
    open. *)
Record client := Client { slave_id : Z; connected : bool }.

(** [{start_addr + i: values[i] for i in range(len(values))}]: the entries
    in the order the comprehension inserts them, and the dictionary they
    build (a later entry for the same key replaces an earlier one). *)
Definition block_items (start_addr : Z) (values : list Z) : list (Z * Z) :=
  imap (fun i v => (start_addr + Z.of_nat i, v)) values.

Definition dict_of_items (items : list (Z * Z)) : gmap Z Z :=
  fold_left (fun d kv => <[kv.1 := kv.2]> d) items ∅.

(** The tail shared by both [read_register_block] methods:
    [if values: return {...}] and [return None] otherwise. *)
Definition block_of_values (start_addr : Z) (values : option (list Z))
  : option (gmap Z Z) :=
  match values with
  | Some (v :: vs) => Some (dict_of_items (block_items start_addr (v :: vs)))
  | Some [] => None
  | None => None
  end.

(* ===================================================================== *)
(** * Response parsing *)
(* ===================================================================== *)

(** The loop over [data] two bytes at a time:
    [for i in range(0, len(data), 2): if i + 1 < len(data): ...]. A last
    byte without a partner is skipped. *)
Fixpoint parse_registers (data : list byte) : list Z :=
  match data with
  | hi :: lo :: rest => unpack_H_be hi lo :: parse_registers rest
  | _ => []
  end.

(** [response[3:3+byte_count]]. *)
Definition register_bytes (byte_count : Z) (response : list byte) : list byte :=
  firstn (Z.to_nat byte_count) (skipn 3 response).

(** [get_error_message]: the table lookup with its default. *)
Definition error_messages : list (Z * string) :=
  [ (1, "Illegal Function"); (2, "Illegal Data Address");
    (3, "Illegal Data Value"); (4, "Slave Device Failure");
    (5, "Acknowledge"); (6, "Slave Device Busy");
    (8, "Memory Parity Error") ]%string.

Fixpoint dict_get {V : Type} (d : list (Z * V)) (k : Z) : option V :=
  match d with
  | [] => None
  | (k', v) :: rest => if k' =? k then Some v else dict_get rest k
  end.

Definition get_error_message (error_code : Z) : string :=
  match dict_get error_messages error_code with
  | Some m => m
  | None => ("Unknown Error (" ++ str_of_int error_code ++ ")")%string
  end.

(* ===================================================================== *)
(** * The command-line client ([src/communication/modbus_client.py]) *)
(* ===================================================================== *)

Module ModbusRTUClient.

(** The dictionaries [parse_modbus_response] can return. *)
Inductive parsed :=
| ErrorResponse (slave_id function_code error_code : Z) (error_message : string)
| ReadResponse (slave_id function_code byte_count : Z) (registers : list Z)
| RawResponse (raw : list byte).

Definition parse_modbus_response (response : list byte) : option parsed :=
  match response with
  | b0 :: b1 :: b2 :: _ :: _ :: _ =>
      let slave_id := byte_val b0 in
      let function_code := byte_val b1 in
      if negb (Z.land function_code 0x80 =? 0) then
        let error_code := byte_val b2 in
        Some (ErrorResponse slave_id (Z.land function_code 0x7F) error_code
                            (get_error_message error_code))
      else if (function_code =? 0x03) || (function_code =? 0x04) then
        let byte_count := byte_val b2 in
        let data := register_bytes byte_count response in
        Some (ReadResponse slave_id function_code byte_count (parse_registers data))
      else Some (RawResponse response)
  | _ => None   (* len(response) < 5 *)
  end.

(** [parsed.get('error')] as a truth value. *)
Definition is_error (p : parsed) : bool :=
  match p with
  | ErrorResponse _ _ _ _ => true
  | _ => false
  end.

(** [parsed.get('registers', [])]. *)
Definition get_registers (p : parsed) : list Z :=
  match p with
  | ReadResponse _ _ _ registers => registers
  | _ => []
  end.

(** [read_registers]: one request and one response, no retry. *)
Definition read_registers (c : client)
    (function_code start_addr num_registers : Z) : io (option (list Z)) :=
  if negb (connected c) then raise ConnectionError
  else
    match create_modbus_command (slave_id c) function_code start_addr num_registers with
    | None => ret None              (* struct.error, caught *)
    | Some cmd =>
        response <- exchange cmd ;;
        match response with
        | [] => ret None
        | _ =>
            match parse_modbus_response response with
            | Some p => if negb (is_error p) then ret (Some (get_registers p))
                        else ret None
            | None => ret None
            end
        end
    end.

Definition read_input_registers c start_addr num_registers :=
  read_registers c 0x04 start_addr num_registers.

Definition read_holding_registers c start_addr num_registers :=
  read_registers c 0x03 start_addr num_registers.

(** [result[0] if result else None]. *)
Definition read_single_register (c : client) (address : Z) (is_holding : bool)
  : io (option Z) :=
  result <- (if is_holding then read_holding_registers c address 1
             else read_input_registers c address 1) ;;
  match result with
  | Some (v :: _) => ret (Some v)
  | _ => ret None
  end.

Definition read_register_block (c : client) (start_addr count : Z)
    (is_holding : bool) : io (option (gmap Z Z)) :=
  values <- (if is_holding then read_holding_registers c start_addr count
             else read_input_registers c start_addr count) ;;
  ret (block_of_values start_addr values).

(** The part of both write methods after the command is built. *)
Definition write_exchange (cmd : option (list byte)) : io bool :=
  match cmd with
  | None => ret false               (* struct.error, caught *)
  | Some cmd =>
      response <- exchange cmd ;;
      match response with
      | [] => ret false
      | _ =>
          match parse_modbus_response response with
          | Some p => ret (negb (is_error p))
          | None => ret false
          end
      end
  end.

Definition write_single_register (c : client) (address value : Z) : io bool :=
  if negb (connected c) then raise ConnectionError
  else write_exchange (write_single_command (slave_id c) address value).

Definition write_multiple_registers (c : client) (start_addr : Z)
    (values : list Z) : io bool :=
  if negb (connected c) then raise ConnectionError
  else write_exchange (write_multiple_command (slave_id c) start_addr values).

(** [test_connection]: any list, even an empty one, counts as an answer;
    every exception is swallowed. *)
Definition test_connection (c : client) : io bool :=
  try_except
    (result <- read_input_registers c 0x3104 1 ;;
     ret (match result with Some _ => true | None => false end))
    false.

(** [connect]: the client afterwards, and whether the port opened. *)
Definition connect (c : client) : io (client * bool) :=
  ok <- open_port ;;
  if ok then ret (Client (slave_id c) true, true) else ret (c, false).

End ModbusRTUClient.

(* ===================================================================== *)
(** * The Home Assistant client ([tracer_solar_charger/modbus_client.py]) *)
(* ===================================================================== *)

Module TracerModbusClient.

(** The Home Assistant client keeps three keys and maps every other
    response, device errors included, to [None]. *)
Record parsed := Parsed
  { p_slave_id : Z; p_function_code : Z; p_registers : list Z }.

Definition parse_modbus_response (response : list byte) : option parsed :=
  match response with
  | b0 :: b1 :: b2 :: _ :: _ :: _ =>
      let slave_id := byte_val b0 in
      let function_code := byte_val b1 in
      if negb (Z.land function_code 0x80 =? 0) then None
      else if (function_code =? 0x03) || (function_code =? 0x04) then
        let byte_count := byte_val b2 in
        let data := register_bytes byte_count response in
        Some (Parsed slave_id function_code (parse_registers data))
      else None
  | _ => None
  end.

Definition read_registers (c : client)
    (function_code start_addr num_registers : Z) : io (option (list Z)) :=
  if negb (connected c) then ret None
  else
    match create_modbus_command (slave_id c) function_code start_addr num_registers with
    | None => ret None
    | Some cmd =>
        response <- exchange cmd ;;
        match response with
        | [] => ret None
        | _ =>
            match parse_modbus_response response with
            | Some p => ret (Some (p_registers p))
            | None => ret None
            end
        end
    end.

Definition read_input_registers c start_addr num_registers :=
  read_registers c 0x04 start_addr num_registers.

Definition read_holding_registers c start_addr num_registers :=
  read_registers c 0x03 start_addr num_registers.

Definition read_register_block (c : client) (start_addr count : Z)
    (is_holding : bool) : io (option (gmap Z Z)) :=
  values <- (if is_holding then read_holding_registers c start_addr count
             else read_input_registers c start_addr count) ;;
  ret (block_of_values start_addr values).

End TracerModbusClient.


(* ===================================================================== *)
(** * Python numbers *)
(* ===================================================================== *)

(** IEEE 754 binary64. *)
Definition prec : Z := 53.
Definition emax : Z := 1024.

(** A Python number as the sensor code meets it: [int] or [float]. *)
Inductive number :=
| Int (z : Z)
| Float (f : spec_float).

(** The conversion [int -> float]: round to nearest, ties to even;
    [OverflowError] when the integer is beyond the largest float. *)
Definition float_of_int (z : Z) : outcome spec_float :=
  match binary_normalize prec emax z 0 false with
  | S754_infinity _ => Raise OverflowError
  | f => Return f
  end.

(** The binary64 nearest to [k / 100]: the value Python reads a literal with
    two decimals as ([0.01] is [float_of_hundredths 1], [-273.15] is
    [float_of_hundredths (-27315)]). *)
Definition float_of_hundredths (k : Z) : spec_float :=
  SFdiv prec emax (binary_normalize prec emax k 0 false)
                  (binary_normalize prec emax 100 0 false).

Definition as_float (n : number) : outcome spec_float :=
  match n with
  | Int z => float_of_int z
  | Float f => Return f
  end.

Definition float_op (op : spec_float -> spec_float -> spec_float)
    (a b : number) : outcome number :=
  match as_float a with
  | Raise e => Raise e
  | Return x =>
      match as_float b with
      | Raise e => Raise e
      | Return y => Return (Float (op x y))
      end
  end.

(** [a * b] and [a + b]: exact on two [int]s, binary64 otherwise. *)
Definition py_mul (a b : number) : outcome number :=
  match a, b with
  | Int x, Int y => Return (Int (x * y))
  | _, _ => float_op (SFmul prec emax) a b
  end.

Definition py_add (a b : number) : outcome number :=
  match a, b with
  | Int x, Int y => Return (Int (x + y))
  | _, _ => float_op (SFadd prec emax) a b
  end.

(** [n / d] rounded to the nearest integer, ties to even ([0 <= n], [0 < d]). *)
Definition div_half_even (n d : Z) : Z :=
  let q := n / d in
  let r := n mod d in
  match 2 * r ?= d with
  | Lt => q
  | Gt => q + 1
  | Eq => if Z.even q then q else q + 1
  end.

(** [round(x, 2)] on a [float]: the exact value of [x] is rounded to a whole
    number of hundredths (ties to even), and the float nearest to that
    decimal is returned; zeros, infinities and NaN round to themselves. *)
Definition round2_float (x : spec_float) : spec_float :=
  match x with
  | S754_finite s m e =>
      let k := if 0 <=? e then Z.pos m * 2 ^ e * 100
               else div_half_even (Z.pos m * 100) (2 ^ (- e)) in
      match k with
      | Z.pos p => SFdiv prec emax (S754_finite s p 0) (S754_finite false 100 0)
      | _ => S754_zero s
      end
  | _ => x
  end.

(** [round(n, 2)]: an [int] is returned as it is. *)
Definition py_round2 (n : number) : number :=
  match n with
  | Int z => Int z
  | Float f => Float (round2_float f)
  end.

(* ===================================================================== *)
(** * Sensor definitions ([const.py]) *)
(* ===================================================================== *)

(** One entry of [SENSOR_TYPES]; a key the entry does not have is [None]
    (or [false] for the flag [combine_registers]). *)
Record sensor_config := SensorConfig
  { cfg_name : string;
    cfg_address : Z;
    cfg_unit : string;
    cfg_scale : option number;
    cfg_offset : option number;
    cfg_device_class : option string;
    cfg_state_class : option string;
    cfg_category : string;
    cfg_icon : string;
    cfg_combine_registers : bool;
    cfg_high_address : option Z;
    cfg_type : option string;
    cfg_enum_values : option (list (Z * string)) }.

Definition scale_001 : option number := Some (Float (float_of_hundredths 1)).
Definition scale_1 : option number := Some (Int 1).
Definition kelvin : option number := Some (Float (float_of_hundredths (-27315))).

(** A plain 16-bit measurement. *)
Definition plain name address unit scale offset device_class state_class category icon :=
  SensorConfig name address unit scale offset device_class state_class
               category icon false None None None.

(** A 32-bit measurement, low word at [address]. *)
Definition wide name address unit scale device_class state_class category icon high :=
  SensorConfig name address unit scale None device_class state_class
               category icon true (Some high) None None.

(** A status register. *)
Definition status name address category icon :=
  SensorConfig name address "" scale_1 None None None category icon
               false None (Some "status"%string) None.

Definition SENSOR_TYPES : list (string * sensor_config) :=
  [ ("pv_voltage", plain "PV Voltage" 0x3100 "V" scale_001 None
       (Some "voltage") (Some "measurement") "pv" "mdi:solar-panel");
    ("pv_current", plain "PV Current" 0x3101 "A" scale_001 None
       (Some "current") (Some "measurement") "pv" "mdi:current-dc");
    ("pv_power", wide "PV Power" 0x3102 "W" scale_001
       (Some "power") (Some "measurement") "pv" "mdi:solar-power" 0x3103);
    ("battery_voltage", plain "Battery Voltage" 0x3104 "V" scale_001 None
       (Some "voltage") (Some "measurement") "battery" "mdi:battery");
    ("battery_current", plain "Battery Current" 0x3105 "A" scale_001 None
       (Some "current") (Some "measurement") "battery" "mdi:current-dc");
    ("battery_power", wide "Battery Power" 0x3106 "W" scale_001
       (Some "power") (Some "measurement") "battery" "mdi:battery-charging" 0x3107);
    ("battery_soc", plain "Battery State of Charge" 0x311A "%" scale_1 None
       (Some "battery") (Some "measurement") "battery" "mdi:battery-50");
    ("battery_temp", plain "Battery Temperature" 0x3110 "°C" scale_001 kelvin
       (Some "temperature") (Some "measurement") "battery" "mdi:thermometer");
    ("load_voltage", plain "Load Voltage" 0x310C "V" scale_001 None
       (Some "voltage") (Some "measurement") "load" "mdi:flash");
    ("load_current", plain "Load Current" 0x310D "A" scale_001 None
       (Some "current") (Some "measurement") "load" "mdi:current-ac");
    ("load_power", wide "Load Power" 0x310A "W" scale_001
       (Some "power") (Some "measurement") "load" "mdi:lightning-bolt" 0x310B);
    ("device_temp", plain "Device Temperature" 0x3111 "°C" scale_001 kelvin
       (Some "temperature") (Some "measurement") "system" "mdi:thermometer");
    ("heat_sink_temp", plain "Heat Sink Temperature" 0x3113 "°C" scale_001 kelvin
       (Some "temperature") (Some "measurement") "system" "mdi:thermometer");
    ("battery_status", status "Battery Status" 0x3200 "status" "mdi:battery-alert");
    ("charging_status", status "Charging Status" 0x3201 "status" "mdi:battery-charging");
    ("load_status", status "Load Status" 0x3202 "status" "mdi:power-plug");
    ("energy_generated_today", wide "Energy Generated Today" 0x3306 "kWh" scale_001
       (Some "energy") (Some "total_increasing") "statistics" "mdi:solar-power" 0x3307);
    ("energy_consumed_today", wide "Energy Consumed Today" 0x3304 "kWh" scale_001
       (Some "energy") (Some "total_increasing") "statistics" "mdi:lightning-bolt" 0x3305);
    ("energy_generated_total", wide "Total Energy Generated" 0x3308 "kWh" scale_001
       (Some "energy") (Some "total_increasing") "statistics" "mdi:counter" 0x3309);
    ("max_battery_voltage_today", plain "Max Battery Voltage Today" 0x3302 "V" scale_001 None
       (Some "voltage") (Some "measurement") "statistics" "mdi:battery-arrow-up");
    ("min_battery_voltage_today", plain "Min Battery Voltage Today" 0x3303 "V" scale_001 None
       (Some "voltage") (Some "measurement") "statistics" "mdi:battery-arrow-down");
    ("battery_full_charges", plain "Battery Full Charges" 0x330C "cycles" scale_1 None
       None (Some "total_increasing") "statistics" "mdi:battery-sync");
    ("operating_days", plain "Operating Days" 0x330A "days" scale_1 None
       None (Some "total_increasing") "statistics" "mdi:calendar-clock");
    ("battery_type",
       SensorConfig "Battery Type" 0x9000 "" scale_1 None None None "config"
         "mdi:battery-outline" false None (Some "enum")
         (Some [ (0, "User Defined"); (1, "Sealed"); (2, "GEL");
                 (3, "Flooded"); (4, "LiFePO4") ]));
    ("battery_capacity", plain "Battery Capacity" 0x9001 "Ah" scale_1 None
       None None "config" "mdi:battery-outline");
    ("float_voltage", plain "Float Voltage Setting" 0x9008 "V" scale_001 None
       (Some "voltage") None "config" "mdi:sine-wave");
    ("low_voltage_disconnect", plain "Low Voltage Disconnect Setting" 0x900D "V" scale_001 None
       (Some "voltage") None "config" "mdi:battery-alert-variant") ]%string.

(** [SENSOR_TYPES[sensor_key]]. *)
Definition sensor_type (sensor_key : string) : option sensor_config :=
  match List.find (fun entry => String.eqb (fst entry) sensor_key) SENSOR_TYPES with
  | Some entry => Some (snd entry)
  | None => None
  end.

(** The status tables, in the order the dictionaries are written. *)
Definition BATTERY_STATUS_BITS : list (Z * string) :=
  [ (0, "Normal"); (1, "Over Temperature"); (2, "Low Temperature");
    (3, "Over Voltage"); (4, "Under Voltage"); (5, "Over Current");
    (6, "Over Discharge"); (7, "Battery Inner Resistance Abnormal");
    (8, "Wrong Identification for Rated Voltage") ]%string.

Definition CHARGING_STATUS_BITS : list (Z * string) :=
  [ (0, "Charging Deactivated"); (1, "Charging Activated");
    (2, "MPPT Charging Mode"); (3, "Equalizing Charging Mode");
    (4, "Boost Charging Mode"); (5, "Floating Charging Mode");
    (6, "Current Limiting") ]%string.

Definition LOAD_STATUS_BITS : list (Z * string) :=
  [ (0, "Load Disconnected"); (1, "Load Connected");
    (2, "Output Over Voltage"); (3, "Boost Over Voltage");
    (4, "High Voltage Side Short Circuit"); (5, "Input Over Voltage");
    (6, "Output Over Current"); (7, "Input Over Current") ]%string.

(* ===================================================================== *)
(** * Sensor values ([sensor.py]) *)
(* ===================================================================== *)

(** What [native_value] hands to Home Assistant. *)
Inductive value :=
| Num (n : number)
| Str (s : string).

(** [value & (1 << bit)] as a truth value (bit positions in the tables are
    not negative). *)
Definition bit_set (value bit : Z) : bool :=
  negb (Z.land value (Z.shiftl 1 bit) =? 0).

(** The loop of [_format_bitfield] over [bit_definitions.items()]. *)
Fixpoint active_bits (value : Z) (bit_definitions : list (Z * string)) : list string :=
  match bit_definitions with
  | [] => []
  | (bit, description) :: rest =>
      if bit_set value bit then description :: active_bits value rest
      else active_bits value rest
  end.

Definition _format_bitfield (value : Z) (bit_definitions : list (Z * string)) : string :=
  match active_bits value bit_definitions with
  | [] => "Normal"%string
  | bits => join ", " bits
  end.

Definition _format_status_value (sensor_key : string) (raw_value : Z) : string :=
  if String.eqb sensor_key "battery_status" then
    _format_bitfield raw_value BATTERY_STATUS_BITS
  else if String.eqb sensor_key "charging_status" then
    _format_bitfield raw_value CHARGING_STATUS_BITS
  else if String.eqb sensor_key "load_status" then
    _format_bitfield raw_value LOAD_STATUS_BITS
  else str_of_int raw_value.

(** [combined_value = (high_value << 16) | raw_value]. *)
Definition combine (high_value raw_value : Z) : Z :=
  Z.lor (Z.shiftl high_value 16) raw_value.

(** The raw value [native_value] goes on with after the block
    [if self._sensor_config.get("combine_registers"): ...]. *)
Definition combined_raw (cfg : sensor_config) (data : gmap Z Z) (raw_value : Z) : Z :=
  if cfg_combine_registers cfg then
    let high_value :=
      match cfg_high_address cfg with
      | Some high_address => default 0 (data !! high_address)
      | None => 0
      end in
    combine high_value raw_value
  else raw_value.

Definition has_type (cfg : sensor_config) (t : string) : bool :=
  match cfg_type cfg with
  | Some t' => String.eqb t' t
  | None => false
  end.

(** The last three statements of [native_value]: scale, offset, round. *)
Definition linear (cfg : sensor_config) (raw_value : Z) : outcome number :=
  match py_mul (Int raw_value) (default (Int 1) (cfg_scale cfg)) with
  | Raise e => Raise e
  | Return scaled_value =>
      match cfg_offset cfg with
      | Some offset =>
          match py_add scaled_value offset with
          | Raise e => Raise e
          | Return shifted => Return (py_round2 shifted)
          end
      | None => Return (py_round2 scaled_value)
      end
  end.

(** The decoding of a raw value once the registers are combined. *)
Definition decode (sensor_key : string) (cfg : sensor_config) (raw_value : Z)
  : outcome value :=
  if has_type cfg "status" then
    Return (Str (_format_status_value sensor_key raw_value))
  else if has_type cfg "enum" then
    Return (Str (match dict_get (default [] (cfg_enum_values cfg)) raw_value with
                 | Some label => label
                 | None => ("Unknown (" ++ str_of_int raw_value ++ ")")%string
                 end))
  else
    match linear cfg raw_value with
    | Raise e => Raise e
    | Return n => Return (Num n)
    end.

(** [native_value]; [data] is [self.coordinator.data]. *)
Definition native_value (sensor_key : string) (cfg : sensor_config)
    (data : option (gmap Z Z)) : outcome (option value) :=
  match data with
  | None => Return None
  | Some d =>
      if decide (d = ∅) then Return None
      else
        match d !! cfg_address cfg with
        | None => Return None
        | Some raw_value =>
            match decode sensor_key cfg (combined_raw cfg d raw_value) with
            | Raise e => Raise e
            | Return v => Return (Some v)
            end
        end
  end.

(** [native_value] of the entity that [async_setup_entry] creates for
    [sensor_key], which pairs the key with its entry of [SENSOR_TYPES]. *)
Definition entity_native_value (sensor_key : string) (data : option (gmap Z Z))
  : option (outcome (option value)) :=
  match sensor_type sensor_key with
  | Some cfg => Some (native_value sensor_key cfg data)
  | None => None
  end.

(* ===================================================================== *)
(** * Parameter readings and snapshots ([device_data.py]) *)
(* ===================================================================== *)

(** A [datetime]: the model only compares them. *)
Definition datetime := Z.

(** What [format_value] of the module [parameter_definitions] returns, as
    [create_parameter_reading] uses it: without the key ['name'] only the
    description is read. *)
Inductive formatted_data (V : Type) :=
| UnknownParameter (description : string)
| KnownParameter (name description : string) (formatted : V)
                 (unit category : string).
Arguments UnknownParameter {V} description.
Arguments KnownParameter {V} name description formatted unit category.

(** The module [parameter_definitions] is not part of the sources at hand;
    its function [format_value] is taken as given. [V] is the type of the
    formatted values it produces. *)
Class ParameterDefinitions (V : Type) :=
  { format_value : Z -> Z -> bool -> formatted_data V }.

(** The field [formatted_value] holds either what [format_value] produced
    or, for an unknown register, the raw integer. *)
Inductive formatted (V : Type) :=
| Formatted (v : V)
| RawValue (raw : Z).
Arguments Formatted {V} v.
Arguments RawValue {V} raw.

Record ParameterReading (V : Type) := MkParameterReading
  { pr_address : Z;
    pr_name : string;
    pr_description : string;
    pr_raw_value : Z;
    pr_formatted_value : formatted V;
    pr_unit : string;
    pr_category : string;
    pr_timestamp : datetime }.
Arguments MkParameterReading {V}.
Arguments pr_address {V}.
Arguments pr_name {V}.
Arguments pr_description {V}.
Arguments pr_raw_value {V}.
Arguments pr_formatted_value {V}.
Arguments pr_unit {V}.
Arguments pr_category {V}.
Arguments pr_timestamp {V}.

Record device_info := DeviceInfo
  { di_model : string; di_protocol : string; di_slave_id : Z; di_baudrate : Z }.

Record DeviceSnapshot (V : Type) := MkDeviceSnapshot
  { ds_timestamp : datetime;
    ds_device_info : device_info;
    ds_parameters : list (ParameterReading V) }.
Arguments MkDeviceSnapshot {V}.
Arguments ds_timestamp {V}.
Arguments ds_device_info {V}.
Arguments ds_parameters {V}.

(** The system clock: [datetime.now()] returns the head of the readings
    still to come. *)
Definition clock := list datetime.
Definition timed (A : Type) : Type := clock -> A * clock.

Definition now : timed datetime :=
  fun c => (hd 0 c, tl c).

Module DeviceDataManager.
Section WithDefinitions.
Context {V : Type} {PD : ParameterDefinitions V}.

(** [self.device_info], set once in [__init__]. *)
Definition the_device_info : device_info :=
  DeviceInfo "Tracer3210AN" "Modbus RTU" 1 115200.

Definition create_parameter_reading (address raw_value : Z) (is_holding : bool)
  : timed (ParameterReading V) :=
  fun c =>
    let (t, c') := now c in
    match format_value address raw_value is_holding with
    | UnknownParameter description =>
        (MkParameterReading address ("unknown_0x" ++ format_04x address)%string
           description raw_value (RawValue raw_value) "" "unknown" t, c')
    | KnownParameter name description formatted unit category =>
        (MkParameterReading address name description raw_value
           (Formatted formatted) unit category t, c')
    end.

(** The two loops [for address, value in ....items()]: one reading per
    entry, in the order of the dictionary. *)
Fixpoint readings (items : list (Z * Z)) (is_holding : bool)
  : timed (list (ParameterReading V)) :=
  fun c =>
    match items with
    | [] => ([], c)
    | (address, value) :: rest =>
        let (param, c1) := create_parameter_reading address value is_holding c in
        let (params, c2) := readings rest is_holding c1 in
        (param :: params, c2)
    end.

(** [create_device_snapshot]; a dictionary is the list of its items in
    insertion order, [holding_data] may be [None]. *)
Definition create_device_snapshot (register_data : list (Z * Z))
    (holding_data : option (list (Z * Z))) : timed (DeviceSnapshot V) :=
  fun c =>
    let (inputs, c1) := readings register_data false c in
    let (holdings, c2) := readings (default [] holding_data) true c1 in
    let (t, c3) := now c2 in
    (MkDeviceSnapshot t the_device_info (inputs ++ holdings), c3).

End WithDefinitions.
End DeviceDataManager.

(** A reading without its timestamp. *)
Definition untimed {V : Type} (p : ParameterReading V)
  : Z * string * string * Z * formatted V * string * string :=
  (pr_address p, pr_name p, pr_description p, pr_raw_value p,
   pr_formatted_value p, pr_unit p, pr_category p).

(** The fields other than the timestamp of the reading made for one entry
    of a register dictionary: they are read off [format_value] alone. *)
Definition reading_fields {V : Type} {PD : ParameterDefinitions V}
    (is_holding : bool) (entry : Z * Z)
  : Z * string * string * Z * formatted V * string * string :=
  untimed (fst (DeviceDataManager.create_parameter_reading
                  (fst entry) (snd entry) is_holding [])).

(** Modelled from the spec: the module [parameter_definitions] is missing.
    A register map for the examples, with one known input register, the
    battery state of charge at [0x311A] (scale 1, unit "%"); every other
    address is unknown and keeps its raw value. *)
Definition sample_definitions : ParameterDefinitions Z :=
  {| format_value address raw_value is_holding :=
       if (address =? 0x311A) && negb is_holding
       then KnownParameter "battery_soc" "Battery State of Charge"
                           raw_value "%" "battery"
       else UnknownParameter "Unknown parameter" |}.

(* ===================================================================== *)
(** * The single-parameter write command ([main.py]) *)
(* ===================================================================== *)

(** A writable parameter of the module [writable_parameters], which is not
    part of the sources at hand: the attributes [cmd_write] reads, and the
    method [validate_value], which returns [(is_valid, error_msg, raw_value)]
    ([raw_value] is meaningful only when [is_valid] holds). The attributes
    [description], [unit], [scale] and [warning_message] are only printed. *)
Record WritableParameter := MkWritableParameter
  { wp_address : Z;
    validate_value : string -> bool * string * Z }.

(** The lookup [get_writable_parameter], taken as given. *)
Class WritableParameters :=
  { get_writable_parameter : string -> option WritableParameter }.

(** The command-line arguments [cmd_write] reads. *)
Record write_args := WriteArgs
  { arg_slave_id : Z;
    arg_parameter : string;
    arg_value : string;
    arg_force : bool;
    arg_dry_run : bool }.

Module SolarChargerCLI.
Section WithParameters.
Context {WP : WritableParameters}.

(** [connect_device]: a fresh client, [connect()], then
    [test_connection()]. Messages printed on the way are not modelled. *)
Definition connect_device (slave_id : Z) : io (client * bool) :=
  r <- ModbusRTUClient.connect (Client slave_id false) ;;
  let (c, opened) := r in
  if opened then
    alive <- ModbusRTUClient.test_connection c ;;
    ret (c, alive)
  else ret (c, false).

(** The body of [with self.client:] in [cmd_write], once [param] is
    known to validate. *)
Definition write_and_verify (c : client) (param : WritableParameter)
    (raw_value : Z) : io Z :=
  current_raw <- ModbusRTUClient.read_single_register c (wp_address param) true ;;
  success <- ModbusRTUClient.write_single_register c (wp_address param) raw_value ;;
  if success then
    verify_raw <- ModbusRTUClient.read_single_register c (wp_address param) true ;;
    ret 0
  else ret 1.

Definition cmd_write_body (c : client) (args : write_args) : io Z :=
  (* __enter__ *)
  r <- ModbusRTUClient.connect c ;;
  let (c, opened) := r in
  if negb opened then raise ConnectionError
  else
    match get_writable_parameter (arg_parameter args) with
    | None => ret 1
    | Some param =>
        let '(is_valid, error_msg, raw_value) :=
          validate_value param (arg_value args) in
        if negb is_valid then ret 1
        else if arg_dry_run args then ret 0
        else if negb (arg_force args) then
          response <- input ;;
          let answer := lower response in
          if negb (String.eqb answer "yes" || String.eqb answer "y")
          then ret 0
          else write_and_verify c param raw_value
        else write_and_verify c param raw_value
    end.

(** [cmd_write]: the exit status. *)
Definition cmd_write (args : write_args) : io Z :=
  r <- connect_device (arg_slave_id args) ;;
  let (c, ok) := r in
  if negb ok then ret 1
  else try_except (cmd_write_body c args) 1.

End WithParameters.
End SolarChargerCLI.

(** Modelled from the spec: the module [writable_parameters] is missing.
    A table for the examples with the one numeric parameter
    [battery_capacity] (holding register [0x9001], scale 1, no bounds):
    its input must parse as a decimal number, and the raw value is that
    number. *)
Fixpoint parse_digits (s : string) (acc : Z) : option Z :=
  match s with
  | EmptyString => Some acc
  | String c rest =>
      let n := Z.of_nat (nat_of_ascii c) in
      if (48 <=? n) && (n <=? 57) then parse_digits rest (acc * 10 + (n - 48))
      else None
  end.

Definition validate_number (s : string) : bool * string * Z :=
  match s with
  | EmptyString => (false, "not a number", 0)%string
  | _ =>
      match parse_digits s 0 with
      | Some n => (true, EmptyString, n)
      | None => (false, "not a number", 0)%string
      end
  end.

Definition sample_parameters : WritableParameters :=
  {| get_writable_parameter name :=
       if String.eqb name "battery_capacity"
       then Some (MkWritableParameter 0x9001 validate_number)
       else None |}.

(** The frames on the wire that ask the device to change a register:
    function codes [0x06] and [0x10] in the second byte. *)
Definition is_write_frame (frame : list byte) : bool :=
  match frame with
  | _ :: fc :: _ => (byte_val fc =? 0x06) || (byte_val fc =? 0x10)
  | _ => false
  end.

(** What [connect_device] puts on the wire: the request with which
    [test_connection] reads the input register [0x3104], or nothing when the
    port does not open or the request cannot be packed. *)
Definition probe (slave_id : Z) (w : world) : list (list byte) :=
  if hd false (opens w) then
    match create_modbus_command slave_id 0x04 0x3104 1 with
    | Some cmd => [cmd]
    | None => []
    end
  else [].

(* ===================================================================== *)
(** * Further code: the Home Assistant coordinator and entity state *)
(* ===================================================================== *)

Module TracerIntegration.

(** [TracerModbusClient.connect], as in the command-line client. *)
Definition connect (c : client) : io (client * bool) :=
  ok <- open_port ;;
  if ok then ret (Client (slave_id c) true, true) else ret (c, false).

(** [TracerModbusClient.test_connection]: a list of registers, even an
    empty one, counts as an answer. *)
Definition test_connection (c : client) : io bool :=
  try_except
    (result <- TracerModbusClient.read_input_registers c 0x3104 1 ;;
     ret (match result with Some _ => true | None => false end))
    false.

(** [validate_input] of [config_flow.py], the inner function
    [test_connection]: a fresh client, [__enter__] (which ignores whether
    [connect()] succeeded), then the client's [test_connection]. *)
Definition validate_connection (slave_id : Z) : io bool :=
  try_except
    (r <- connect (Client slave_id false) ;;
     test_connection (fst r))
    false.

(** The two block lists of [_fetch_data]: start address and count. *)
Definition realtime_blocks : list (Z * Z) :=
  [ (0x3100, 16); (0x3110, 16); (0x3200, 3); (0x3300, 31) ].

Definition config_blocks : list (Z * Z) :=
  [ (0x9000, 8); (0x9008, 8) ].

(** One of the two loops of [_fetch_data]:
    [block_data = read_register_block(...); if block_data: data.update(block_data)]. *)
Fixpoint read_blocks (c : client) (blocks : list (Z * Z)) (is_holding : bool)
    (data : gmap Z Z) : io (gmap Z Z) :=
  match blocks with
  | [] => ret data
  | (start_addr, count) :: rest =>
      block_data <- TracerModbusClient.read_register_block c start_addr count is_holding ;;
      read_blocks c rest is_holding
        (match block_data with
         | Some block => if decide (block = ∅) then data else block ∪ data
         | None => data
         end)
  end.

(** [TracerSolarChargerCoordinator._fetch_data]: [__enter__] connects and
    goes on whatever the outcome; the dictionary of all registers read is
    returned. *)
Definition _fetch_data (c : client) : io (gmap Z Z) :=
  r <- connect c ;;
  data <- read_blocks (fst r) realtime_blocks false ∅ ;;
  read_blocks (fst r) config_blocks true data.

End TracerIntegration.

(** [TracerSolarChargerSensor.available]; [last_update_success] and [data]
    are the coordinator's. *)
Definition available (last_update_success : bool) (cfg : sensor_config)
    (data : option (gmap Z Z)) : bool :=
  last_update_success
  && match data with
     | Some d => bool_decide (is_Some (d !! cfg_address cfg))
     | None => false
     end.

(** The low [n] bits of a status word. *)
Definition low_bits (n raw : Z) : Z := Z.land raw (Z.ones n).

(** A reply the command-line client takes as a success: at least five
    bytes, function code below 128. *)
Definition acknowledged (reply : list byte) : bool :=
  (5 <=? length reply)%nat && (byte_val (nth 1 reply x00) <? 128).

(** A reply the Home Assistant client takes registers from: at least five
    bytes, function code 3 or 4. *)
Definition is_read_reply (reply : list byte) : bool :=
  (5 <=? length reply)%nat
  && ((byte_val (nth 1 reply x00) =? 0x03) || (byte_val (nth 1 reply x00) =? 0x04)).

(** The read requests one poll of [_fetch_data] puts on the wire: one per
    block that packs, input blocks (function code 4) before holding blocks
    (function code 3). *)
Definition fetch_requests (slave_id : Z) : list (list byte) :=
  omap (fun block => create_modbus_command slave_id 0x04 (fst block) (snd block))
       TracerIntegration.realtime_blocks
  ++ omap (fun block => create_modbus_command slave_id 0x03 (fst block) (snd block))
          TracerIntegration.config_blocks.

(** The frames that ask for registers: function code 3 or 4 in the second
    byte. *)
Definition is_read_frame (frame : list byte) : bool :=
  match frame with
  | _ :: fc :: _ => (byte_val fc =? 0x03) || (byte_val fc =? 0x04)
  | _ => false
  end.

(* ===================================================================== *)
(** * Further code: snapshots and the read commands *)
(* ===================================================================== *)

(** A Python dictionary as the list of its items in insertion order.
    [d[k] = v] replaces the value of a key already there, in place, and
    appends a new key at the end; [d.update(items)] does so item by item. *)
Fixpoint od_set {K V : Type} (eqb : K -> K -> bool) (d : list (K * V))
    (k : K) (v : V) : list (K * V) :=
  match d with
  | [] => [(k, v)]
  | (k', v') :: rest =>
      if eqb k' k then (k', v) :: rest else (k', v') :: od_set eqb rest k v
  end.

Definition od_update {K V : Type} (eqb : K -> K -> bool) (d items : list (K * V))
  : list (K * V) :=
  fold_left (fun d kv => od_set eqb d (fst kv) (snd kv)) items d.

(** An entry of the dictionary [get_summary] builds: a value with its unit
    for the key parameters, the bare formatted value for the two status
    entries. *)
Inductive summary_entry (V : Type) :=
| ValueUnit (value : formatted V) (unit : string)
| StatusText (value : formatted V).
Arguments ValueUnit {V} value unit.
Arguments StatusText {V} value.

Module Snapshot.
Section WithValues.
Context {V : Type}.

(** [DeviceSnapshot.get_by_category]. *)
Definition get_by_category (s : DeviceSnapshot V) (category : string)
  : list (ParameterReading V) :=
  List.filter (fun p => String.eqb (pr_category p) category) (ds_parameters s).

(** [DeviceSnapshot.get_by_name]: the first reading of that name. *)
Definition get_by_name (s : DeviceSnapshot V) (name : string)
  : option (ParameterReading V) :=
  List.find (fun p => String.eqb (pr_name p) name) (ds_parameters s).

Definition key_params : list string :=
  [ "pv_voltage"; "pv_current"; "battery_voltage"; "battery_current";
    "load_voltage"; "load_current"; "battery_soc"; "battery_temp" ]%string.

(** [DeviceSnapshot.get_summary]. *)
Definition get_summary (s : DeviceSnapshot V) : list (string * summary_entry V) :=
  let summary :=
    fold_left
      (fun summary param_name =>
         match get_by_name s param_name with
         | Some param =>
             od_set String.eqb summary param_name
                    (ValueUnit (pr_formatted_value param) (pr_unit param))
         | None => summary
         end)
      key_params [] in
  let summary :=
    match get_by_name s "battery_status" with
    | Some battery_status =>
        od_set String.eqb summary "battery_status"%string
               (StatusText (pr_formatted_value battery_status))
    | None => summary
    end in
  match get_by_name s "charging_equipment_status" with
  | Some charging_status =>
      od_set String.eqb summary "charging_status"%string
             (StatusText (pr_formatted_value charging_status))
  | None => summary
  end.

End WithValues.
End Snapshot.

(** What one name contributes to a summary: nothing without a reading of
    that name, else one entry made from the first such reading. *)
Definition summary_key_entry {V : Type} (s : DeviceSnapshot V) (name : string)
  : list (string * summary_entry V) :=
  match Snapshot.get_by_name s name with
  | Some p => [(name, ValueUnit (pr_formatted_value p) (pr_unit p))]
  | None => []
  end.

Definition summary_status_entry {V : Type} (s : DeviceSnapshot V)
    (key name : string) : list (string * summary_entry V) :=
  match Snapshot.get_by_name s name with
  | Some p => [(key, StatusText (pr_formatted_value p))]
  | None => []
  end.

(** One entry of [get_efficient_read_blocks]. *)
Record read_block := ReadBlock
  { rb_function_code : Z;
    rb_start_address : Z;
    rb_count : Z;
    rb_description : string }.

(** [DeviceDataManager.get_efficient_read_blocks], in the order of the
    dictionary. *)
Definition get_efficient_read_blocks : list (string * read_block) :=
  [ ("realtime_core",
     ReadBlock 4 0x3100 16 "Core real-time data (PV, Battery, Load)");
    ("realtime_extended",
     ReadBlock 4 0x3110 16 "Extended real-time data (Temperatures, SOC)");
    ("status", ReadBlock 4 0x3200 3 "System status registers");
    ("statistics_daily", ReadBlock 4 0x3300 16 "Daily statistics (first block)");
    ("statistics_extended", ReadBlock 4 0x3310 15 "Extended statistics");
    ("config_voltages", ReadBlock 3 0x9000 8 "Core voltage configuration");
    ("config_extended", ReadBlock 3 0x9008 8 "Extended configuration") ]%string.

(** Computations that use the serial line and the clock. *)
Definition run (A : Type) : Type := world -> clock -> outcome A * world * clock.

Module ReadAll.
Section WithDefinitions.
Context {V : Type} {PD : ParameterDefinitions V}.

(** [ModbusRTUClient.read_register_block] with its dictionary kept as the
    list of its items, in the order the comprehension inserts them. *)
Definition read_register_block_items (c : client) (start_addr count : Z)
    (is_holding : bool) : io (option (list (Z * Z))) :=
  values <- (if is_holding
             then ModbusRTUClient.read_holding_registers c start_addr count
             else ModbusRTUClient.read_input_registers c start_addr count) ;;
  ret (match values with
       | Some (v :: vs) => Some (block_items start_addr (v :: vs))
       | _ => None
       end).

(** The test at the head of the loop of [_read_all_efficient]: [false] when
    the block is skipped by [continue]. A filter that is [None] or empty
    skips nothing. *)
Definition block_selected (category_filter : option string) (block : read_block)
  : bool :=
  match category_filter with
  | None => true
  | Some EmptyString => true
  | Some filter =>
      if String.eqb filter "config"
      then rb_function_code block =? 3
      else negb (rb_function_code block =? 3)
  end.

(** The loop of [_read_all_efficient] over the blocks, carrying
    [register_data] and [holding_data]. *)
Fixpoint read_all_blocks (c : client) (category_filter : option string)
    (blocks : list (string * read_block))
    (register_data holding_data : list (Z * Z))
  : io (list (Z * Z) * list (Z * Z)) :=
  match blocks with
  | [] => ret (register_data, holding_data)
  | (_, block) :: rest =>
      if negb (block_selected category_filter block)
      then read_all_blocks c category_filter rest register_data holding_data
      else if rb_function_code block =? 4 then
        block_data <- read_register_block_items c (rb_start_address block)
                        (rb_count block) false ;;
        read_all_blocks c category_filter rest
          (match block_data with
           | Some items => od_update Z.eqb register_data items
           | None => register_data
           end)
          holding_data
      else
        block_data <- read_register_block_items c (rb_start_address block)
                        (rb_count block) true ;;
        read_all_blocks c category_filter rest register_data
          (match block_data with
           | Some items => od_update Z.eqb holding_data items
           | None => holding_data
           end)
  end.

(** [SolarChargerCLI._read_all_efficient]. *)
Definition _read_all_efficient (c : client) (category_filter : option string)
  : run (option (DeviceSnapshot V)) :=
  fun w clk =>
    match read_all_blocks c category_filter get_efficient_read_blocks [] [] w with
    | (Raise e, w') => (Raise e, w', clk)
    | (Return (register_data, holding_data), w') =>
        match register_data, holding_data with
        | [], [] => (Return None, w', clk)
        | _, _ =>
            let (snapshot, clk') :=
              DeviceDataManager.create_device_snapshot
                register_data (Some holding_data) clk in
            (Return (Some snapshot), w', clk')
        end
    end.

End WithDefinitions.
End ReadAll.

(** The read requests a run of the loop over [blocks] puts on the wire for
    a filter: one per selected block that packs, in the order of the
    table. *)
Definition block_requests (slave_id : Z) (category_filter : option string)
    (blocks : list (string * read_block)) : list (list byte) :=
  omap (fun entry : string * read_block =>
          let block := snd entry in
          if ReadAll.block_selected category_filter block
          then create_modbus_command slave_id
                 (if rb_function_code block =? 4 then 0x04 else 0x03)
                 (rb_start_address block) (rb_count block)
          else None)
       blocks.

Definition efficient_requests (slave_id : Z) (category_filter : option string)
  : list (list byte) :=
  block_requests slave_id category_filter get_efficient_read_blocks.

(** The function code of a frame. *)
Definition frame_function_code (frame : list byte) : option Z :=
  option_map byte_val (nth_error frame 1).

(** How many of the frames are write requests. *)
Definition count_writes (frames : list (list byte)) : nat :=
  length (List.filter is_write_frame frames).

(* ===================================================================== *)
(** * The batch write commands ([main.py]) *)
(* ===================================================================== *)

Module ConfigCommands.
Section WithParameters.
Context {WP : WritableParameters}.

(** The values [cmd_write_config] validates are not command-line strings
    alone: the numbers of [BATTERY_TYPE_SETTINGS] and whatever a JSON file
    holds are among them. Their type, and [validate_value] on them, are
    taken as given. *)
Context {value : Type}.
Variable validate_config_value : WritableParameter -> value -> bool * string * Z.







End WithParameters.
End ConfigCommands.




(* ===================================================================== *)
(** * Part II: properties *)
(* ===================================================================== *)
(* ---------------------------------------------------------------------- *)
(** ** Bytes *)

Lemma byte_val_range (b : byte) : 0 <= byte_val b < 256.
Proof.
  unfold byte_val. pose proof (Byte.to_N_bounded b) as Hb. lia.
Qed.

Lemma byte_of_Z_val (b : byte) : byte_of_Z (byte_val b) = b.
Proof. destruct b; reflexivity. Qed.

Lemma byte_val_of_Z (z : Z) : byte_val (byte_of_Z z) = Z.land z 0xFF.
Proof.
  unfold byte_of_Z, byte_val.
  assert (Hr : 0 <= Z.land z 0xFF < 256).
  { change 0xFF with (Z.ones 8). rewrite Z.land_ones by lia.
    apply Z.mod_pos_bound. lia. }
  destruct (Byte.of_N (Z.to_N (Z.land z 0xFF))) as [b|] eqn:E.
  - apply Byte.to_of_N in E. rewrite E. lia.
  - apply Byte.of_N_None_iff in E. lia.
Qed.

(* ---------------------------------------------------------------------- *)
(** ** CRC16: the bit loop against the table *)

Lemma land_1_testbit (x : Z) : Z.land x 1 = Z.b2z (Z.testbit x 0).
Proof.
  change 1 with (Z.ones 1). rewrite Z.land_ones by lia.
  symmetry. apply Z.bit0_mod.
Qed.

Lemma crc16_shift_testbit (x : Z) :
  crc16_shift x = Z.lxor (Z.shiftr x 1) (if Z.testbit x 0 then 0xA001 else 0).
Proof.
  unfold crc16_shift. rewrite land_1_testbit.
  destruct (Z.testbit x 0); simpl; [reflexivity | now rewrite Z.lxor_0_r].
Qed.

(** A round distributes over exclusive or. *)
Lemma crc16_shift_lxor (x y : Z) :
  crc16_shift (Z.lxor x y) = Z.lxor (crc16_shift x) (crc16_shift y).
Proof.
  rewrite !crc16_shift_testbit, Z.shiftr_lxor, Z.lxor_spec.
  destruct (Z.testbit x 0), (Z.testbit y 0); simpl;
    apply Z.bits_inj'; intros n Hn; rewrite ?Z.lxor_spec, ?Z.bits_0;
    destruct (Z.testbit (Z.shiftr x 1) n), (Z.testbit (Z.shiftr y 1) n),
             (Z.testbit 40961 n); reflexivity.
Qed.

Lemma crc16_rounds_lxor (n : nat) (x y : Z) :
  Nat.iter n crc16_shift (Z.lxor x y)
  = Z.lxor (Nat.iter n crc16_shift x) (Nat.iter n crc16_shift y).
Proof.
  induction n as [|n IH]; simpl; [reflexivity|].
  now rewrite IH, crc16_shift_lxor.
Qed.

(** With the low [n] bits clear, [n] rounds are [n] plain shifts. *)
Lemma crc16_rounds_high (n : nat) (x : Z) :
  Z.land x (Z.ones (Z.of_nat n)) = 0 ->
  Nat.iter n crc16_shift x = Z.shiftr x (Z.of_nat n).
Proof.
  revert x. induction n as [|n IH]; intros x Hx.
  - simpl. now rewrite Z.shiftr_0_r.
  - rewrite Nat.iter_succ_r.
    assert (Hbits : forall i, 0 <= i < Z.of_nat (S n) -> Z.testbit x i = false).
    { intros i Hi.
      assert (E : Z.testbit (Z.land x (Z.ones (Z.of_nat (S n)))) i = false)
        by (rewrite Hx; apply Z.bits_0).
      rewrite Z.land_spec, Z.ones_spec_low, andb_true_r in E by lia. exact E. }
    rewrite crc16_shift_testbit, (Hbits 0) by lia.
    rewrite Z.lxor_0_r, IH.
    + rewrite Z.shiftr_shiftr by lia. f_equal. lia.
    + apply Z.bits_inj'. intros i Hi. rewrite Z.land_spec, Z.bits_0.
      rewrite Z.shiftr_spec by lia.
      destruct (Z.ltb_spec i (Z.of_nat n)).
      * rewrite Hbits by lia. reflexivity.
      * rewrite Z.ones_spec_high by lia. apply andb_false_r.
Qed.

(** Every table entry is eight rounds on its index. *)
Lemma crc16_table_entry (b : byte) :
  nth (Z.to_nat (byte_val b)) crc16_table 0 = Nat.iter 8 crc16_shift (byte_val b).
Proof. destruct b; vm_compute; reflexivity. Qed.

Lemma crc16_byte_table (crc : Z) (b : byte) :
  crc16_byte crc b = crc16_table_byte crc b.
Proof.
  unfold crc16_byte, crc16_table_byte.
  set (v := Z.lxor crc (byte_val b)).
  assert (Hsplit : v = Z.lxor (Z.ldiff v 0xFF) (Z.land v 0xFF)).
  { apply Z.bits_inj'. intros i Hi.
    rewrite Z.lxor_spec, Z.ldiff_spec, Z.land_spec.
    destruct (Z.testbit v i), (Z.testbit 255 i); reflexivity. }
  rewrite Hsplit at 1. rewrite crc16_rounds_lxor.
  rewrite (crc16_rounds_high 8).
  2:{ apply Z.bits_inj'. intros i Hi.
      rewrite Z.land_spec, Z.ldiff_spec, Z.bits_0.
      change (Z.ones (Z.of_nat 8)) with 255.
      destruct (Z.testbit v i), (Z.testbit 255 i); reflexivity. }
  rewrite <- (byte_val_of_Z v), <- crc16_table_entry.
  f_equal.
  apply Z.bits_inj'. intros i Hi.
  change (Z.of_nat 8) with 8.
  rewrite !Z.shiftr_spec, Z.ldiff_spec by lia.
  unfold v. rewrite Z.lxor_spec.
  assert (Hb : Z.testbit (byte_val b) (i + 8) = false).
  { pose proof (byte_val_range b) as Hr.
    destruct (Z.eq_dec (byte_val b) 0) as [->|Hnz]; [apply Z.bits_0|].
    apply Z.bits_above_log2; [lia|].
    apply Z.lt_le_trans with 8; [|lia].
    apply Z.log2_lt_pow2; lia. }
  rewrite Hb, xorb_false_r.
  replace (Z.testbit 255 (i + 8)) with false; [now rewrite andb_true_r|].
  symmetry. change 255 with (Z.ones 8). apply Z.ones_spec_high. lia.
Qed.

Lemma crc16_acc_table (data : list byte) : crc16_acc data = crc16_table_acc data.
Proof.
  unfold crc16_acc, crc16_table_acc. generalize 0xFFFF.
  induction data as [|b data IH]; intros crc; simpl; [reflexivity|].
  now rewrite crc16_byte_table, IH.
Qed.

(** The accumulator never leaves sixteen bits. *)
Lemma lxor_bound (n a b : Z) :
  0 < n -> 0 <= a < 2 ^ n -> 0 <= b < 2 ^ n -> 0 <= Z.lxor a b < 2 ^ n.
Proof.
  intros Hn Ha Hb.
  assert (H0 : 0 <= Z.lxor a b) by (apply Z.lxor_nonneg; lia).
  split; [exact H0|].
  destruct (Z.eq_dec (Z.lxor a b) 0) as [->|Hnz]; [lia|].
  apply Z.log2_lt_pow2; [lia|].
  eapply Z.le_lt_trans; [apply Z.log2_lxor; lia|].
  apply Z.max_lub_lt.
  - destruct (Z.eq_dec a 0) as [->|]; [simpl; lia|]. apply Z.log2_lt_pow2; lia.
  - destruct (Z.eq_dec b 0) as [->|]; [simpl; lia|]. apply Z.log2_lt_pow2; lia.
Qed.

Lemma crc16_shift_range (x : Z) : 0 <= x < 65536 -> 0 <= crc16_shift x < 65536.
Proof.
  intros Hx. rewrite crc16_shift_testbit.
  apply (lxor_bound 16); [lia| |destruct (Z.testbit x 0); lia].
  rewrite Z.shiftr_div_pow2 by lia. change (2 ^ 1) with 2.
  split; [apply Z.div_pos; lia|]. apply Z.div_lt_upper_bound; lia.
Qed.

Lemma crc16_byte_range (crc : Z) (b : byte) :
  0 <= crc < 65536 -> 0 <= crc16_byte crc b < 65536.
Proof.
  intros Hc. unfold crc16_byte.
  assert (Hv : 0 <= Z.lxor crc (byte_val b) < 65536).
  { pose proof (byte_val_range b). apply (lxor_bound 16); lia. }
  revert Hv. generalize (Z.lxor crc (byte_val b)). intros v Hv.
  do 8 (apply crc16_shift_range in Hv). exact Hv.
Qed.

Lemma crc16_acc_range (data : list byte) : 0 <= crc16_acc data < 65536.
Proof.
  unfold crc16_acc.
  assert (H0 : 0 <= 0xFFFF < 65536) by lia.
  revert H0. generalize 0xFFFF.
  induction data as [|b data IH]; intros crc Hc; simpl; [exact Hc|].
  apply IH, crc16_byte_range, Hc.
Qed.

Lemma pack_H_le_range (v : Z) :
  0 <= v < 65536 -> pack_H_le v = Some [byte_of_Z v; byte_of_Z (Z.shiftr v 8)].
Proof.
  intros Hv. unfold pack_H_le, in_range.
  destruct (Z.leb_spec 0 v); [|lia]. destruct (Z.leb_spec v 65535); [|lia].
  reflexivity.
Qed.

Lemma byte_of_Z_land (v : Z) : byte_of_Z (Z.land v 0xFF) = byte_of_Z v.
Proof.
  unfold byte_of_Z. rewrite <- Z.land_assoc. reflexivity.
Qed.

Lemma calculate_crc16_acc (data : list byte) :
  calculate_crc16 data
  = Some [byte_of_Z (crc16_acc data); byte_of_Z (Z.shiftr (crc16_acc data) 8)].
Proof. unfold calculate_crc16. apply pack_H_le_range, crc16_acc_range. Qed.

Lemma calculate_crc16_reference (data : list byte) :
  calculate_crc16 data = Some (crc16_reference data).
Proof.
  rewrite calculate_crc16_acc. unfold crc16_reference.
  rewrite <- crc16_acc_table, byte_of_Z_land. reflexivity.
Qed.

(** C1. [calculate_crc16] is the Modbus RTU CRC16. On every byte sequence it
    returns two bytes, the low then the high byte of the accumulator that
    starts at [0xFFFF] and takes, per input byte, an exclusive or into its
    low byte followed by eight shift rounds with the polynomial [0xA001];
    the accumulator stays within sixteen bits, and the two bytes are those
    of the table-driven reference CRC16. Being a function of its argument,
    the result is the same on every call. *)
Theorem calculate_crc16_modbus (data : list byte) :
  crc16_acc [] = 0xFFFF
  /\ (forall (b : byte) (rest : list byte),
        crc16_acc (rest ++ [b])
        = Nat.iter 8 crc16_shift (Z.lxor (crc16_acc rest) (byte_val b)))
  /\ (forall crc : Z,
        crc16_shift crc
        = if Z.testbit crc 0 then Z.lxor (Z.shiftr crc 1) 0xA001
          else Z.shiftr crc 1)
  /\ 0 <= crc16_acc data < 65536
  /\ calculate_crc16 data
     = Some [byte_of_Z (Z.land (crc16_acc data) 0xFF);
             byte_of_Z (Z.shiftr (crc16_acc data) 8)]
  /\ calculate_crc16 data = Some (crc16_reference data).
Proof.
  split; [reflexivity|].
  split.
  { intros b rest. unfold crc16_acc. rewrite fold_left_app. reflexivity. }
  split.
  { intros crc. rewrite crc16_shift_testbit.
    destruct (Z.testbit crc 0); [reflexivity | apply Z.lxor_0_r]. }
  split; [apply crc16_acc_range|].
  rewrite calculate_crc16_acc, byte_of_Z_land.
  split; [reflexivity|].
  rewrite <- calculate_crc16_acc. apply calculate_crc16_reference.
Qed.

(** The request [01 03 00 00 00 01] carries the checksum [84 0A]. *)
Example calculate_crc16_read_holding :
  calculate_crc16 [x01; x03; x00; x00; x00; x01] = Some [x84; x0a].
Proof. reflexivity. Qed.

Example calculate_crc16_empty : calculate_crc16 [] = Some [xff; xff].
Proof. reflexivity. Qed.

(* ---------------------------------------------------------------------- *)
(** ** Request frames *)

Lemma with_crc_Some (d : list byte) :
  with_crc (Some d) = Some (d ++ crc16_reference d).
Proof. unfold with_crc. now rewrite calculate_crc16_reference. Qed.

Lemma pack_B_eq (v : Z) :
  pack_B v = if in_range 0 255 v then Some [byte_of_Z v] else None.
Proof. reflexivity. Qed.

Lemma pack_H_be_eq (v : Z) :
  pack_H_be v = if in_range 0 65535 v then Some (be16 v) else None.
Proof. reflexivity. Qed.

Lemma pack_BBHH_eq (a b c d : Z) :
  pack_BBHH a b c d
  = if in_range 0 255 a && in_range 0 255 b
       && in_range 0 65535 c && in_range 0 65535 d
    then Some ([byte_of_Z a; byte_of_Z b] ++ be16 c ++ be16 d)
    else None.
Proof.
  unfold pack_BBHH. rewrite !pack_B_eq, !pack_H_be_eq.
  destruct (in_range 0 255 a), (in_range 0 255 b),
           (in_range 0 65535 c), (in_range 0 65535 d); reflexivity.
Qed.

Lemma pack_values_eq (values : list Z) :
  pack_values values
  = if forallb (in_range 0 65535) values
    then Some (concat (map be16 values)) else None.
Proof.
  induction values as [|v values IH]; simpl; [reflexivity|].
  rewrite IH, pack_H_be_eq.
  destruct (in_range 0 65535 v), (forallb (in_range 0 65535) values); reflexivity.
Qed.

Lemma be16_bytes (v : Z) :
  0 <= v <= 65535 -> map byte_val (be16 v) = [v / 256; v mod 256].
Proof.
  intros Hv. unfold be16. simpl. rewrite !byte_val_of_Z.
  change 0xFF with (Z.ones 8). rewrite !Z.land_ones by lia.
  rewrite Z.shiftr_div_pow2 by lia. change (2 ^ 8) with 256.
  rewrite (Z.mod_small (v / 256)); [reflexivity|].
  split; [apply Z.div_pos; lia | apply Z.div_lt_upper_bound; lia].
Qed.

Lemma shiftl_land_low (a b n : Z) :
  0 <= n -> 0 <= b < 2 ^ n -> Z.land (Z.shiftl a n) b = 0.
Proof.
  intros Hn Hb. apply Z.bits_inj'. intros i Hi.
  rewrite Z.land_spec, Z.bits_0.
  destruct (Z.ltb_spec i n).
  - rewrite Z.shiftl_spec_low by lia. reflexivity.
  - rewrite <- (Z.mod_small b (2 ^ n)) by lia.
    rewrite Z.mod_pow2_bits_high by lia. apply andb_false_r.
Qed.

(** Or-ing a shifted high part onto a low part that fits is an addition. *)
Lemma lor_shiftl_add (a b n : Z) :
  0 <= n -> 0 <= b < 2 ^ n -> Z.lor (Z.shiftl a n) b = a * 2 ^ n + b.
Proof.
  intros Hn Hb.
  rewrite <- Z.lxor_lor by (apply shiftl_land_low; lia).
  rewrite <- Z.add_nocarry_lxor by (apply shiftl_land_low; lia).
  rewrite Z.shiftl_mul_pow2 by lia. reflexivity.
Qed.

Lemma unpack_H_be_val (hi lo : byte) :
  unpack_H_be hi lo = byte_val hi * 256 + byte_val lo.
Proof.
  unfold unpack_H_be. pose proof (byte_val_range lo).
  rewrite lor_shiftl_add by lia. reflexivity.
Qed.

Lemma be16_unpack (v : Z) :
  0 <= v <= 65535 ->
  unpack_H_be (byte_of_Z (Z.shiftr v 8)) (byte_of_Z v) = v.
Proof.
  intros Hv. pose proof (be16_bytes v Hv) as Hb. unfold be16 in Hb. simpl in Hb.
  injection Hb as Hhi Hlo.
  rewrite unpack_H_be_val, Hhi, Hlo.
  pose proof (Z.div_mod v 256). lia.
Qed.

(** C2. The read request is the six bytes slave id, function code, start
    address (high byte, low byte) and register count (high byte, low byte)
    followed by the CRC16 of those six bytes, low byte first: eight bytes.
    The write-single request has the same layout with function code [0x06],
    the address and the value; the write-multiple request is slave id,
    [0x10], start address, register count, the byte count (twice the number
    of registers), then each value high byte first, and the CRC16 of all of
    it, low byte first. A frame is built exactly when every field fits its
    width; a one-byte field holds its value, [be16 v] holds [v / 256] then
    [v mod 256], and the checksum bytes are the low then the high byte of
    the accumulator. *)
Theorem request_frame_layout
    (slave_id function_code start_addr num_registers value : Z) (values : list Z) :
  let read_body :=
    [byte_of_Z slave_id; byte_of_Z function_code]
      ++ be16 start_addr ++ be16 num_registers in
  let single_body :=
    [byte_of_Z slave_id; x06] ++ be16 start_addr ++ be16 value in
  let n := Z.of_nat (length values) in
  let multiple_body :=
    [byte_of_Z slave_id; x10] ++ be16 start_addr ++ be16 n
      ++ [byte_of_Z (2 * n)] ++ concat (map be16 values) in
  create_modbus_command slave_id function_code start_addr num_registers
  = (if in_range 0 255 slave_id && in_range 0 255 function_code
        && in_range 0 65535 start_addr && in_range 0 65535 num_registers
     then Some (read_body ++ crc16_reference read_body) else None)
  /\ length (read_body ++ crc16_reference read_body) = 8%nat
  /\ write_single_command slave_id start_addr value
     = (if in_range 0 255 slave_id
           && in_range 0 65535 start_addr && in_range 0 65535 value
        then Some (single_body ++ crc16_reference single_body) else None)
  /\ write_multiple_command slave_id start_addr values
     = (if in_range 0 255 slave_id && in_range 0 65535 start_addr
           && in_range 0 127 n && forallb (in_range 0 65535) values
        then Some (multiple_body ++ crc16_reference multiple_body) else None)
  /\ (forall v, 0 <= v <= 255 -> byte_val (byte_of_Z v) = v)
  /\ (forall v, 0 <= v <= 65535 -> map byte_val (be16 v) = [v / 256; v mod 256])
  /\ (forall data,
        map byte_val (crc16_reference data)
        = [crc16_acc data mod 256; crc16_acc data / 256]).
Proof.
  intros read_body single_body n multiple_body.
  split.
  { unfold create_modbus_command. rewrite pack_BBHH_eq.
    destruct (_ && _); [apply with_crc_Some | reflexivity]. }
  split; [reflexivity|].
  split.
  { unfold write_single_command. rewrite pack_BBHH_eq.
    change (in_range 0 255 6) with true. rewrite andb_true_r.
    destruct (_ && _); [apply with_crc_Some | reflexivity]. }
  split.
  { unfold write_multiple_command. fold n.
    rewrite !pack_B_eq, !pack_H_be_eq, pack_values_eq.
    change (in_range 0 255 16) with true. cbv iota.
    assert (Hn : in_range 0 255 (n * 2) && in_range 0 65535 n = in_range 0 127 n).
    { unfold in_range. lia. }
    replace (n * 2) with (2 * n) in * by lia.
    destruct (in_range 0 255 slave_id); simpl; [|reflexivity].
    destruct (in_range 0 65535 start_addr); simpl; [|reflexivity].
    rewrite <- Hn.
    destruct (in_range 0 65535 n); simpl; [|now rewrite andb_false_r].
    destruct (in_range 0 255 (2 * n)); simpl; [|reflexivity].
    destruct (forallb _ values); simpl; [|reflexivity].
    apply with_crc_Some. }
  split.
  { intros v Hv. rewrite byte_val_of_Z. change 0xFF with (Z.ones 8).
    rewrite Z.land_ones by lia. apply Z.mod_small. lia. }
  split; [apply be16_bytes|].
  intros data. unfold crc16_reference. rewrite <- crc16_acc_table.
  pose proof (crc16_acc_range data) as Hr.
  simpl. rewrite !byte_val_of_Z.
  change 0xFF with (Z.ones 8). rewrite !Z.land_ones by lia.
  rewrite Z.shiftr_div_pow2 by lia. change (2 ^ 8) with 256.
  rewrite Z.mod_mod by lia.
  rewrite (Z.mod_small (_ / 256)); [reflexivity|].
  split; [apply Z.div_pos; lia | apply Z.div_lt_upper_bound; lia].
Qed.

(** Reading one input register at [0x3104] from slave 1. *)
Example read_battery_voltage_frame :
  create_modbus_command 1 0x04 0x3104 1
  = Some [x01; x04; x31; x04; x00; x01; x7e; xf7].
Proof. reflexivity. Qed.

(* ---------------------------------------------------------------------- *)
(** ** Response parsing *)

(** Induction over a list two elements at a time. *)
Lemma list_pair_ind {A : Type} (P : list A -> Prop) :
  P [] -> (forall a, P [a]) ->
  (forall a b l, P l -> P (a :: b :: l)) ->
  forall l, P l.
Proof.
  intros Hnil Hone Hstep.
  assert (Hboth : forall l, P l /\ forall a, P (a :: l)).
  { induction l as [|x l [IH1 IH2]]; split; auto. }
  intros l. apply Hboth.
Qed.

Lemma parse_registers_length (data : list byte) :
  length (parse_registers data) = (length data / 2)%nat.
Proof.
  induction data as [| a | a b l IH] using list_pair_ind; try reflexivity.
  cbn [parse_registers length]. rewrite IH.
  replace (S (S (length l))) with (length l + 1 * 2)%nat by lia.
  rewrite Nat.div_add by lia. lia.
Qed.

Lemma parse_registers_nth (data : list byte) (i : nat) :
  (i < length (parse_registers data))%nat ->
  nth i (parse_registers data) 0
  = byte_val (nth (2 * i) data x00) * 256 + byte_val (nth (2 * i + 1) data x00).
Proof.
  revert i. induction data as [| a | a b l IH] using list_pair_ind; intros i Hi.
  - simpl in Hi. lia.
  - simpl in Hi. lia.
  - destruct i as [|i].
    + simpl. apply unpack_H_be_val.
    + cbn [parse_registers length nth] in *.
      rewrite IH by lia.
      replace (2 * S i)%nat with (S (S (2 * i))) by lia.
      replace (S (S (2 * i)) + 1)%nat with (S (S (2 * i + 1))) by lia.
      reflexivity.
Qed.

(** A last byte without a partner changes nothing. *)
Lemma parse_registers_odd (data : list byte) (b : byte) :
  Nat.even (length data) = true ->
  parse_registers (data ++ [b]) = parse_registers data.
Proof.
  induction data as [| a | a c l IH] using list_pair_ind; intros He.
  - reflexivity.
  - discriminate.
  - cbn [app parse_registers]. f_equal. apply IH. exact He.
Qed.

(** C3. A response of at least five bytes whose function code is [0x03] or
    [0x04], high bit clear, parses to a read result: the third byte is the
    byte count, and the registers are the big-endian 16-bit values of the
    successive byte pairs among the next [byte_count] bytes, one register
    per two bytes; a last byte without a partner is dropped. The response
    [01 04 02 09 98 BE CA] yields the registers [[2456]]. *)
Theorem parse_read_response (b0 b1 b2 b3 b4 : byte) (rest : list byte) :
  Z.land (byte_val b1) 0x80 = 0 ->
  byte_val b1 = 0x03 \/ byte_val b1 = 0x04 ->
  let response := b0 :: b1 :: b2 :: b3 :: b4 :: rest in
  let data := firstn (Z.to_nat (byte_val b2)) (b3 :: b4 :: rest) in
  let registers := parse_registers data in
  ModbusRTUClient.parse_modbus_response response
  = Some (ModbusRTUClient.ReadResponse (byte_val b0) (byte_val b1)
                                       (byte_val b2) registers)
  /\ length registers = (length data / 2)%nat
  /\ (forall i, (i < length registers)%nat ->
        nth i registers 0
        = byte_val (nth (2 * i) data x00) * 256
          + byte_val (nth (2 * i + 1) data x00))
  /\ (forall pairs b, Nat.even (length pairs) = true ->
        parse_registers (pairs ++ [b]) = parse_registers pairs)
  /\ ModbusRTUClient.parse_modbus_response [x01; x04; x02; x09; x98; xbe; xca]
     = Some (ModbusRTUClient.ReadResponse 1 4 2 [2456]).
Proof.
  intros Hhigh Hfc response data registers.
  split.
  { unfold response, ModbusRTUClient.parse_modbus_response.
    rewrite Hhigh. cbn [Z.eqb negb].
    assert (E : (byte_val b1 =? 3) || (byte_val b1 =? 4) = true)
      by (destruct Hfc as [-> | ->]; reflexivity).
    rewrite E. reflexivity. }
  split; [apply parse_registers_length|].
  split; [apply parse_registers_nth|].
  split; [apply parse_registers_odd | reflexivity].
Qed.

Lemma parse_read_response_witness :
  ModbusRTUClient.parse_modbus_response [x01; x04; x02; x09; x98; xbe; xca]
  = Some (ModbusRTUClient.ReadResponse 1 4 2 [2456]).
Proof.
  exact (proj1 (parse_read_response x01 x04 x02 x09 x98 [xbe; xca]
                  eq_refl (or_intror eq_refl))).
Defined.

(** The Home Assistant client decodes the registers in the same way. *)
Lemma ha_parse_read_response (b0 b1 b2 b3 b4 : byte) (rest : list byte) :
  byte_val b1 = 0x03 \/ byte_val b1 = 0x04 ->
  TracerModbusClient.parse_modbus_response (b0 :: b1 :: b2 :: b3 :: b4 :: rest)
  = Some (TracerModbusClient.Parsed (byte_val b0) (byte_val b1)
            (parse_registers (firstn (Z.to_nat (byte_val b2)) (b3 :: b4 :: rest)))).
Proof.
  intros Hfc. unfold TracerModbusClient.parse_modbus_response.
  destruct Hfc as [-> | ->]; reflexivity.
Qed.

(** A byte count of three over [09 98 07]: the [07] is dropped. *)
Example parse_odd_byte_count :
  ModbusRTUClient.parse_modbus_response [x01; x04; x03; x09; x98; x07; x00; x00]
  = Some (ModbusRTUClient.ReadResponse 1 4 3 [2456]).
Proof. reflexivity. Qed.

(* ---------------------------------------------------------------------- *)
(** ** Error responses *)

Lemma get_error_message_unknown (code : Z) :
  code <> 1 -> code <> 2 -> code <> 3 -> code <> 4 ->
  code <> 5 -> code <> 6 -> code <> 8 ->
  get_error_message code = ("Unknown Error (" ++ str_of_int code ++ ")")%string.
Proof.
  intros H1 H2 H3 H4 H5 H6 H8.
  unfold get_error_message, error_messages, dict_get.
  repeat match goal with
         | |- context [?k =? code] =>
             destruct (Z.eqb_spec k code); [congruence|]
         end.
  reflexivity.
Qed.

(** C4. A response of at least five bytes whose function code has bit
    [0x80] set parses to an error result, never to a read result or a raw
    one: it carries the third byte as exception code and the message of the
    table (1 Illegal Function, 2 Illegal Data Address, 3 Illegal Data Value,
    4 Slave Device Failure, 5 Acknowledge, 6 Slave Device Busy, 8 Memory
    Parity Error), or "Unknown Error (code)" for any other code. *)
Theorem parse_error_response (b0 b1 b2 b3 b4 : byte) (rest : list byte) :
  Z.land (byte_val b1) 0x80 <> 0 ->
  let code := byte_val b2 in
  ModbusRTUClient.parse_modbus_response (b0 :: b1 :: b2 :: b3 :: b4 :: rest)
  = Some (ModbusRTUClient.ErrorResponse
            (byte_val b0) (Z.land (byte_val b1) 0x7F) code (get_error_message code))
  /\ (code = 1 -> get_error_message code = "Illegal Function"%string)
  /\ (code = 2 -> get_error_message code = "Illegal Data Address"%string)
  /\ (code = 3 -> get_error_message code = "Illegal Data Value"%string)
  /\ (code = 4 -> get_error_message code = "Slave Device Failure"%string)
  /\ (code = 5 -> get_error_message code = "Acknowledge"%string)
  /\ (code = 6 -> get_error_message code = "Slave Device Busy"%string)
  /\ (code = 8 -> get_error_message code = "Memory Parity Error"%string)
  /\ (code <> 1 -> code <> 2 -> code <> 3 -> code <> 4 ->
      code <> 5 -> code <> 6 -> code <> 8 ->
      get_error_message code
      = ("Unknown Error (" ++ str_of_int code ++ ")")%string).
Proof.
  intros Hhigh code.
  split.
  { unfold ModbusRTUClient.parse_modbus_response.
    destruct (Z.eqb_spec (Z.land (byte_val b1) 128) 0); [contradiction|].
    reflexivity. }
  repeat split; try (intros ->; reflexivity).
  apply get_error_message_unknown.
Qed.

(** A device refusing an address: [01 84 02 C2 C1]. *)
Lemma parse_error_response_witness :
  ModbusRTUClient.parse_modbus_response [x01; x84; x02; xc2; xc1]
  = Some (ModbusRTUClient.ErrorResponse 1 4 2 "Illegal Data Address").
Proof.
  assert (Hhigh : Z.land (byte_val x84) 0x80 <> 0) by (vm_compute; discriminate).
  exact (proj1 (parse_error_response x01 x84 x02 xc2 xc1 [] Hhigh)).
Defined.

Example get_error_message_7 : get_error_message 7 = "Unknown Error (7)"%string.
Proof. reflexivity. Qed.

Example get_error_message_255 : get_error_message 255 = "Unknown Error (255)"%string.
Proof. reflexivity. Qed.

(** Through [read_registers] an error response is a failed read, not an
    empty list of registers. *)
Lemma read_registers_error (c : client) (fc start n : Z) (w : world)
    (b0 b1 b2 b3 b4 : byte) (rest more : list (list byte)) (tail : list byte) :
  connected c = true ->
  Z.land (byte_val b1) 0x80 <> 0 ->
  replies w = (b0 :: b1 :: b2 :: b3 :: b4 :: tail) :: more ->
  fst (ModbusRTUClient.read_registers c fc start n w) = Return None.
Proof.
  intros Hc Hhigh Hw. unfold ModbusRTUClient.read_registers. rewrite Hc. cbn [negb].
  destruct (create_modbus_command _ _ _ _); [|reflexivity].
  unfold bind, exchange. rewrite Hw. cbn [hd].
  unfold ModbusRTUClient.parse_modbus_response.
  destruct (Z.eqb_spec (Z.land (byte_val b1) 128) 0); [contradiction|].
  reflexivity.
Qed.

(* ---------------------------------------------------------------------- *)
(** ** Register blocks *)

Lemma block_items_cons (start_addr v : Z) (vs : list Z) :
  block_items start_addr (v :: vs) = (start_addr, v) :: block_items (start_addr + 1) vs.
Proof.
  unfold block_items. rewrite imap_cons. f_equal.
  - f_equal. lia.
  - apply imap_ext. intros i x _. simpl. f_equal. lia.
Qed.

(** Lookups in the dictionary built from a block, over any dictionary the
    fold starts from. *)
Lemma fold_block_lookup (vs : list Z) (start_addr : Z) (acc : gmap Z Z) (k : Z) :
  fold_left (fun d kv => <[kv.1 := kv.2]> d) (block_items start_addr vs) acc !! k
  = if (start_addr <=? k) && (k <? start_addr + Z.of_nat (length vs))
    then vs !! Z.to_nat (k - start_addr)
    else acc !! k.
Proof.
  revert start_addr acc. induction vs as [|v vs IH]; intros start_addr acc.
  - cbn [block_items imap fold_left length].
    destruct (_ && _) eqn:E; [|reflexivity].
    apply andb_true_iff in E as [E1 E2].
    apply Z.leb_le in E1. apply Z.ltb_lt in E2. simpl in E2. lia.
  - rewrite block_items_cons. cbn [fold_left fst snd]. rewrite IH.
    destruct (Z.leb_spec (start_addr + 1) k), (Z.leb_spec start_addr k),
             (Z.ltb_spec k (start_addr + 1 + Z.of_nat (length vs))),
             (Z.ltb_spec k (start_addr + Z.of_nat (length (v :: vs))));
      cbn [andb length] in *; try lia.
    + replace (Z.to_nat (k - start_addr)) with (S (Z.to_nat (k - (start_addr + 1))))
        by lia.
      reflexivity.
    + apply lookup_insert_ne. lia.
    + assert (k = start_addr) as -> by lia.
      rewrite lookup_insert_eq, Z.sub_diag. reflexivity.
    + apply lookup_insert_ne. lia.
Qed.

Lemma dict_of_block_lookup (start_addr : Z) (vs : list Z) (k : Z) :
  dict_of_items (block_items start_addr vs) !! k
  = if (start_addr <=? k) && (k <? start_addr + Z.of_nat (length vs))
    then vs !! Z.to_nat (k - start_addr)
    else None.
Proof. unfold dict_of_items. rewrite fold_block_lookup, lookup_empty. reflexivity. Qed.

Lemma dict_of_block_nonempty (start_addr v : Z) (vs : list Z) :
  dict_of_items (block_items start_addr (v :: vs)) <> ∅.
Proof.
  intros E.
  assert (L : dict_of_items (block_items start_addr (v :: vs)) !! start_addr = Some v).
  { rewrite dict_of_block_lookup. cbn [length].
    destruct (Z.leb_spec start_addr start_addr); [|lia].
    destruct (Z.ltb_spec start_addr (start_addr + Z.of_nat (S (length vs)))); [|lia].
    rewrite Z.sub_diag. reflexivity. }
  rewrite E, lookup_empty in L. discriminate.
Qed.

(** C10. [read_register_block], in both clients, turns the result of the
    underlying register read into a dictionary: a non-empty list of values
    gives exactly the mapping from [start_addr + i] to [values[i]], defined
    on the consecutive addresses from [start_addr] and nowhere else; a
    failed read or an empty list gives [None]. An empty dictionary is never
    returned. *)
Theorem read_register_block_mapping (c : client) (start_addr count : Z)
    (is_holding : bool) (w : world) :
  ModbusRTUClient.read_register_block c start_addr count is_holding w
  = (match (if is_holding then ModbusRTUClient.read_holding_registers c start_addr count w
            else ModbusRTUClient.read_input_registers c start_addr count w) with
     | (Return values, w') => (Return (block_of_values start_addr values), w')
     | (Raise e, w') => (Raise e, w')
     end)
  /\ TracerModbusClient.read_register_block c start_addr count is_holding w
     = (match (if is_holding then TracerModbusClient.read_holding_registers c start_addr count w
               else TracerModbusClient.read_input_registers c start_addr count w) with
        | (Return values, w') => (Return (block_of_values start_addr values), w')
        | (Raise e, w') => (Raise e, w')
        end)
  /\ (forall (v : Z) (vs : list Z),
        exists m : gmap Z Z,
          block_of_values start_addr (Some (v :: vs)) = Some m
          /\ (forall i : nat, m !! (start_addr + Z.of_nat i) = (v :: vs) !! i)
          /\ (forall k : Z,
                is_Some (m !! k)
                <-> start_addr <= k < start_addr + Z.of_nat (length (v :: vs)))
          /\ m <> ∅)
  /\ block_of_values start_addr (Some []) = None
  /\ block_of_values start_addr None = None
  /\ (forall values, block_of_values start_addr values <> Some ∅).
Proof.
  split.
  { unfold ModbusRTUClient.read_register_block, bind, ret.
    destruct is_holding;
      [destruct (ModbusRTUClient.read_holding_registers c start_addr count w) as [[values|e] w']
      |destruct (ModbusRTUClient.read_input_registers c start_addr count w) as [[values|e] w']];
      reflexivity. }
  split.
  { unfold TracerModbusClient.read_register_block, bind, ret.
    destruct is_holding;
      [destruct (TracerModbusClient.read_holding_registers c start_addr count w) as [[values|e] w']
      |destruct (TracerModbusClient.read_input_registers c start_addr count w) as [[values|e] w']];
      reflexivity. }
  split.
  { intros v vs. eexists. split; [reflexivity|].
    split; [|split].
    - intros i. rewrite dict_of_block_lookup.
      destruct (Z.leb_spec start_addr (start_addr + Z.of_nat i)); [|lia].
      destruct (Z.ltb_spec (start_addr + Z.of_nat i)
                           (start_addr + Z.of_nat (length (v :: vs)))); cbn [andb].
      + f_equal. lia.
      + symmetry. apply lookup_ge_None. lia.
    - intros k. rewrite dict_of_block_lookup.
      destruct (Z.leb_spec start_addr k), (Z.ltb_spec k (start_addr + Z.of_nat (length (v :: vs))));
        cbn [andb]; split; intros Hk; try lia;
        try (destruct Hk as [x Hx]; discriminate).
      apply lookup_lt_is_Some. lia.
    - apply dict_of_block_nonempty. }
  split; [reflexivity|]. split; [reflexivity|].
  intros [[|v vs]|]; cbn [block_of_values]; try discriminate.
  intros E. injection E as E. exact (dict_of_block_nonempty _ _ _ E).
Qed.

(** A block of three registers read at [0x3200]. *)
Example block_of_three :
  block_of_values 0x3200 (Some [7; 8; 9])
  = Some (<[0x3202 := 9]> (<[0x3201 := 8]> (<[0x3200 := 7]> ∅))).
Proof. reflexivity. Qed.

(* ---------------------------------------------------------------------- *)
(** ** Bitfields *)

Lemma bit_set_testbit (value bit : Z) :
  0 <= bit -> bit_set value bit = Z.testbit value bit.
Proof.
  intros Hb. unfold bit_set.
  rewrite Z.shiftl_1_l.
  assert (E : Z.land value (2 ^ bit) = if Z.testbit value bit then 2 ^ bit else 0).
  { apply Z.bits_inj'. intros i Hi.
    rewrite Z.land_spec, Z.pow2_bits_eqb by lia.
    destruct (Z.eqb_spec bit i) as [->|Hne].
    - destruct (Z.testbit value i); [|now rewrite Z.bits_0].
      rewrite Z.pow2_bits_true by lia. reflexivity.
    - rewrite andb_false_r.
      destruct (Z.testbit value bit); [|now rewrite Z.bits_0].
      rewrite Z.pow2_bits_false by lia. reflexivity. }
  rewrite E. destruct (Z.testbit value bit); [|reflexivity].
  destruct (Z.eqb_spec (2 ^ bit) 0) as [E0|]; [|reflexivity].
  pose proof (Z.pow_pos_nonneg 2 bit). lia.
Qed.

Lemma active_bits_filter (value : Z) (bit_definitions : list (Z * string)) :
  active_bits value bit_definitions
  = map snd (List.filter (fun entry => bit_set value (fst entry)) bit_definitions).
Proof.
  induction bit_definitions as [|[bit description] rest IH]; simpl; [reflexivity|].
  destruct (bit_set value bit); simpl; now rewrite IH.
Qed.

(** C7. [_format_bitfield] returns the labels of exactly the defined bit
    positions whose bit is set in the raw value, in the order of the table,
    joined with ", ", and the text "Normal" when none is set; each of the
    three status tables lists its bit positions in ascending order, so the
    labels come in ascending bit order. For the battery status, raw 0 gives
    "Normal" and raw 5 (bits 0 and 2) gives the labels of bits 0 and 2. *)
Theorem format_bitfield_labels (raw : Z) (bit_definitions : list (Z * string)) :
  Forall (fun entry => 0 <= fst entry) bit_definitions ->
  let chosen :=
    map snd (List.filter (fun entry => Z.testbit raw (fst entry)) bit_definitions) in
  _format_bitfield raw bit_definitions
  = match chosen with [] => "Normal"%string | _ => join ", " chosen end
  /\ map fst BATTERY_STATUS_BITS = [0; 1; 2; 3; 4; 5; 6; 7; 8]
  /\ map fst CHARGING_STATUS_BITS = [0; 1; 2; 3; 4; 5; 6]
  /\ map fst LOAD_STATUS_BITS = [0; 1; 2; 3; 4; 5; 6; 7]
  /\ _format_status_value "battery_status" raw = _format_bitfield raw BATTERY_STATUS_BITS
  /\ _format_status_value "charging_status" raw = _format_bitfield raw CHARGING_STATUS_BITS
  /\ _format_status_value "load_status" raw = _format_bitfield raw LOAD_STATUS_BITS
  /\ _format_bitfield 0 BATTERY_STATUS_BITS = "Normal"%string
  /\ _format_bitfield 5 BATTERY_STATUS_BITS
     = join ", " [default ""%string (dict_get BATTERY_STATUS_BITS 0);
                  default ""%string (dict_get BATTERY_STATUS_BITS 2)].
Proof.
  intros Hpos chosen. split; [|repeat split].
  unfold _format_bitfield. rewrite active_bits_filter.
  replace (List.filter (fun entry => bit_set raw (fst entry)) bit_definitions)
    with (List.filter (fun entry => Z.testbit raw (fst entry)) bit_definitions).
  - fold chosen. destruct chosen; reflexivity.
  - induction Hpos as [|entry rest Hentry _ IH]; simpl; [reflexivity|].
    rewrite bit_set_testbit, IH by exact Hentry. reflexivity.
Qed.

Lemma format_bitfield_labels_witness :
  _format_bitfield 5 BATTERY_STATUS_BITS = "Normal, Low Temperature"%string.
Proof.
  assert (Hpos : Forall (fun entry : Z * string => 0 <= fst entry) BATTERY_STATUS_BITS).
  { repeat constructor; simpl; lia. }
  exact (proj1 (format_bitfield_labels 5 BATTERY_STATUS_BITS Hpos)).
Defined.

Example load_status_bits_1_7 :
  _format_bitfield 0x82 LOAD_STATUS_BITS = "Load Connected, Input Over Current"%string.
Proof. reflexivity. Qed.

Example charging_status_all_clear :
  _format_bitfield 0x80 CHARGING_STATUS_BITS = "Normal"%string.
Proof. reflexivity. Qed.

(* ---------------------------------------------------------------------- *)
(** ** Sensor values *)

(** In [SENSOR_TYPES] the entries with a [high_address] are those flagged
    [combine_registers]. *)
Lemma high_address_combines (sensor_key : string) (cfg : sensor_config) :
  In (sensor_key, cfg) SENSOR_TYPES ->
  cfg_combine_registers cfg = bool_decide (is_Some (cfg_high_address cfg)).
Proof.
  intros Hin.
  assert (Hall : forallb (fun entry : string * sensor_config =>
                   Bool.eqb (cfg_combine_registers (snd entry))
                            (bool_decide (is_Some (cfg_high_address (snd entry)))))
                   SENSOR_TYPES = true) by (vm_compute; reflexivity).
  rewrite forallb_forall in Hall. specialize (Hall _ Hin).
  apply Bool.eqb_prop in Hall. exact Hall.
Qed.

Lemma combine_add (high low : Z) :
  0 <= low < 65536 -> combine high low = high * 65536 + low.
Proof. intros Hl. unfold combine. rewrite lor_shiftl_add by lia. reflexivity. Qed.

Lemma native_value_decode (sensor_key : string) (cfg : sensor_config)
    (data : gmap Z Z) (raw_value : Z) :
  data !! cfg_address cfg = Some raw_value ->
  native_value sensor_key cfg (Some data)
  = match decode sensor_key cfg (combined_raw cfg data raw_value) with
    | Raise e => Raise e
    | Return v => Return (Some v)
    end.
Proof.
  intros Hraw. unfold native_value.
  destruct (decide (data = ∅)) as [->|_].
  - rewrite lookup_empty in Hraw. discriminate.
  - rewrite Hraw. reflexivity.
Qed.

(** C6. For every sensor definition with a [high_address], the raw value
    that every later decoding step works on is [(high << 16) | low], built
    from the two raw registers before scale or offset are applied (a high
    register missing from the data counts as 0). For 16-bit registers this
    is the 32-bit integer [high * 65536 + low]; low [0x1234] with high
    [0x0001] gives [0x00011234 = 70196]. *)
Theorem combine_registers_32bit (sensor_key : string) (cfg : sensor_config)
    (high_address low : Z) (data : gmap Z Z) :
  In (sensor_key, cfg) SENSOR_TYPES ->
  cfg_high_address cfg = Some high_address ->
  data !! cfg_address cfg = Some low ->
  let high := default 0 (data !! high_address) in
  combined_raw cfg data low = Z.lor (Z.shiftl high 16) low
  /\ native_value sensor_key cfg (Some data)
     = match decode sensor_key cfg (Z.lor (Z.shiftl high 16) low) with
       | Raise e => Raise e
       | Return v => Return (Some v)
       end
  /\ (0 <= low < 65536 -> 0 <= high < 65536 ->
      Z.lor (Z.shiftl high 16) low = high * 65536 + low
      /\ 0 <= Z.lor (Z.shiftl high 16) low < 2 ^ 32)
  /\ combine 0x0001 0x1234 = 70196
  /\ 70196 = 0x00011234.
Proof.
  intros Hin Hhigh Hlow high.
  assert (Hc : combined_raw cfg data low = Z.lor (Z.shiftl high 16) low).
  { unfold combined_raw.
    rewrite (high_address_combines _ _ Hin), Hhigh.
    rewrite bool_decide_eq_true_2 by (eexists; reflexivity). reflexivity. }
  split; [exact Hc|].
  split; [rewrite <- Hc; apply native_value_decode, Hlow|].
  split; [|split; reflexivity].
  intros Hl Hh. fold (combine high low). rewrite combine_add by lia.
  split; [reflexivity | lia].
Qed.

Lemma combine_registers_32bit_witness :
  native_value "pv_power"
    (wide "PV Power" 0x3102 "W" scale_001 (Some "power"%string)
          (Some "measurement"%string) "pv" "mdi:solar-power" 0x3103)
    (Some (<[0x3102 := 0x1234]> (<[0x3103 := 0x0001]> ∅)))
  = Return (Some (Num (Float (float_of_hundredths 70196)))).
Proof.
  pose proof (combine_registers_32bit "pv_power"
    (wide "PV Power" 0x3102 "W" scale_001 (Some "power"%string)
          (Some "measurement"%string) "pv" "mdi:solar-power" 0x3103)
    0x3103 0x1234 (<[0x3102 := 0x1234]> (<[0x3103 := 0x0001]> ∅))) as H.
  assert (Hin : In ("pv_power"%string,
                    wide "PV Power" 0x3102 "W" scale_001 (Some "power"%string)
                         (Some "measurement"%string) "pv" "mdi:solar-power" 0x3103)
                   SENSOR_TYPES)
    by (right; right; left; reflexivity).
  specialize (H Hin eq_refl eq_refl).
  destruct H as [_ [H _]]. rewrite H. vm_compute. reflexivity.
Defined.

(** With the high register missing, only the low word counts. *)
Example pv_power_low_word_only :
  entity_native_value "pv_power" (Some {[ 0x3102 := 2456 ]})
  = Some (Return (Some (Num (Float (float_of_hundredths 2456))))).
Proof. vm_compute. reflexivity. Qed.

(** The two float constants of [SENSOR_TYPES], as binary64 values. *)
Example scale_001_bits :
  float_of_hundredths 1 = S754_finite false 5764607523034235 (-59).
Proof. vm_compute. reflexivity. Qed.

Example kelvin_bits :
  float_of_hundredths (-27315) = S754_finite true 4805305618032230 (-44).
Proof. vm_compute. reflexivity. Qed.

(** The product [2456 * 0.01] is not 24.56 itself: rounding brings it back. *)
Example product_before_rounding :
  py_mul (Int 2456) (Float (float_of_hundredths 1))
  = Return (Float (S754_finite false 6913025428013712 (-48)))
  /\ float_of_hundredths 2456 = S754_finite false 6913025428013711 (-48).
Proof. split; vm_compute; reflexivity. Qed.

Lemma div_half_even_nearest (n d : Z) :
  0 <= n -> 0 < d ->
  0 <= div_half_even n d /\ Z.abs (2 * n - 2 * div_half_even n d * d) <= d.
Proof.
  intros Hn Hd. unfold div_half_even.
  pose proof (Z.div_mod n d ltac:(lia)) as Hdm.
  pose proof (Z.mod_pos_bound n d Hd) as Hr.
  assert (Hq : 0 <= n / d) by (apply Z.div_pos; lia).
  destruct (Z.compare_spec (2 * (n mod d)) d) as [E|E|E];
    [destruct (Z.even (n / d))| |]; split; lia.
Qed.

(** [round2_float] lands on a whole number of hundredths nearest to its
    argument: the result is the float nearest to [k / 100] (a zero when
    [k = 0]) for an integer [k] within one half of [100 * m * 2 ^ e]. *)
Lemma round2_float_nearest (s : bool) (m : positive) (e : Z) :
  exists k : Z,
    0 <= k
    /\ round2_float (S754_finite s m e)
       = match k with
         | Z.pos p => SFdiv prec emax (S754_finite s p 0) (S754_finite false 100 0)
         | _ => S754_zero s
         end
    /\ (0 <= e -> k = Z.pos m * 2 ^ e * 100)
    /\ (e < 0 -> Z.abs (2 * (Z.pos m * 100) - 2 * k * 2 ^ (- e)) <= 2 ^ (- e)).
Proof.
  unfold round2_float. destruct (Z.leb_spec 0 e) as [He|He].
  - exists (Z.pos m * 2 ^ e * 100). split.
    + pose proof (Z.pow_nonneg 2 e). lia.
    + split; [reflexivity|]. split; [reflexivity | lia].
  - assert (Hd : 0 < 2 ^ (- e)) by (apply Z.pow_pos_nonneg; lia).
    destruct (div_half_even_nearest (Z.pos m * 100) (2 ^ (- e)) ltac:(lia) Hd)
      as [Hk Hnear].
    exists (div_half_even (Z.pos m * 100) (2 ^ (- e))).
    split; [exact Hk|]. split; [reflexivity|]. split; [lia | intros _; exact Hnear].
Qed.

Lemma decode_linear (sensor_key : string) (cfg : sensor_config) (raw : Z) :
  has_type cfg "status" = false -> has_type cfg "enum" = false ->
  decode sensor_key cfg raw
  = match linear cfg raw with
    | Raise e => Raise e
    | Return n => Return (Num n)
    end.
Proof. intros Hs He. unfold decode. rewrite Hs, He. reflexivity. Qed.

(** C5 as the code has it. For a sensor whose type is neither status nor
    enum, the decoded value is the raw value times the scale (1 when none is
    declared), plus the offset when one is declared, rounded to two
    decimals; an integer scale without offset leaves an integer. Raw 2456
    at scale 0.01 decodes to 24.56, and raw 30000 at scale 0.01 with offset
    -273.15 decodes to 26.85. *)
Theorem linear_decode (sensor_key : string) (cfg : sensor_config) (raw : Z) :
  has_type cfg "status" = false ->
  has_type cfg "enum" = false ->
  decode sensor_key cfg raw
  = match py_mul (Int raw) (default (Int 1) (cfg_scale cfg)) with
    | Raise e => Raise e
    | Return scaled =>
        match cfg_offset cfg with
        | None => Return (Num (py_round2 scaled))
        | Some offset =>
            match py_add scaled offset with
            | Raise e => Raise e
            | Return shifted => Return (Num (py_round2 shifted))
            end
        end
    end
  /\ (cfg_scale cfg = Some (Int 1) -> cfg_offset cfg = None ->
      decode sensor_key cfg raw = Return (Num (Int raw)))
  /\ entity_native_value "battery_voltage" (Some {[ 0x3104 := 2456 ]})
     = Some (Return (Some (Num (Float (float_of_hundredths 2456)))))
  /\ entity_native_value "battery_temp" (Some {[ 0x3110 := 30000 ]})
     = Some (Return (Some (Num (Float (float_of_hundredths 2685))))).
Proof.
  intros Hs He. rewrite (decode_linear _ _ _ Hs He). unfold linear.
  split.
  { destruct (py_mul _ _) as [scaled|e]; [|reflexivity].
    destruct (cfg_offset cfg) as [offset|]; [|reflexivity].
    destruct (py_add scaled offset); reflexivity. }
  split.
  { intros Hscale Hoffset. rewrite Hscale, Hoffset.
    unfold default, py_mul, py_round2, id. rewrite Z.mul_1_r. reflexivity. }
  split; vm_compute; reflexivity.
Qed.

Lemma linear_decode_witness :
  decode "battery_temp"
    (plain "Battery Temperature" 0x3110 "°C" scale_001 kelvin
           (Some "temperature"%string) (Some "measurement"%string)
           "battery" "mdi:thermometer") 30000
  = Return (Num (Float (float_of_hundredths 2685))).
Proof.
  rewrite (proj1 (linear_decode "battery_temp"
    (plain "Battery Temperature" 0x3110 "°C" scale_001 kelvin
           (Some "temperature"%string) (Some "measurement"%string)
           "battery" "mdi:thermometer") 30000 eq_refl eq_refl)).
  vm_compute. reflexivity.
Defined.

(** The claim's second example fails: raw 30000 at scale 0.01 with offset
    -273.15 does not decode to -253.15. *)
Lemma linear_decode_kelvin_counterexample :
  sensor_type "battery_temp"
  = Some (plain "Battery Temperature" 0x3110 "°C" scale_001 kelvin
                (Some "temperature"%string) (Some "measurement"%string)
                "battery" "mdi:thermometer")
  /\ scale_001 = Some (Float (float_of_hundredths 1))
  /\ kelvin = Some (Float (float_of_hundredths (-27315)))
  /\ entity_native_value "battery_temp" (Some {[ 0x3110 := 30000 ]})
     <> Some (Return (Some (Num (Float (float_of_hundredths (-25315)))))).
Proof.
  split; [reflexivity|]. split; [reflexivity|]. split; [reflexivity|].
  vm_compute. discriminate.
Qed.

(** It is raw 2000 that decodes to -253.15. *)
Example battery_temp_2000 :
  entity_native_value "battery_temp" (Some {[ 0x3110 := 2000 ]})
  = Some (Return (Some (Num (Float (float_of_hundredths (-25315)))))).
Proof. vm_compute. reflexivity. Qed.

Example battery_soc_integer :
  entity_native_value "battery_soc" (Some {[ 0x311A := 87 ]})
  = Some (Return (Some (Num (Int 87)))).
Proof. vm_compute. reflexivity. Qed.

Example battery_type_enum :
  entity_native_value "battery_type" (Some {[ 0x9000 := 4 ]})
  = Some (Return (Some (Str "LiFePO4")))
  /\ entity_native_value "battery_type" (Some {[ 0x9000 := 99 ]})
     = Some (Return (Some (Str "Unknown (99)"))).
Proof. split; vm_compute; reflexivity. Qed.

(* ---------------------------------------------------------------------- *)
(** ** Snapshots *)

Lemma map_seq_offset {A : Type} (f : nat -> A) (a n : nat) :
  map f (seq a n) = map (fun i => f (a + i)%nat) (seq 0 n).
Proof.
  induction n as [|n IH]; [reflexivity|].
  rewrite !seq_S, !map_app, IH. reflexivity.
Qed.

Lemma hd_skipn {A : Type} (d : A) (n : nat) (l : list A) :
  hd d (skipn n l) = nth n l d.
Proof.
  rewrite <- (Nat.add_0_r n) at 2. rewrite <- nth_skipn.
  destruct (skipn n l); reflexivity.
Qed.

Section Snapshots.
Context {V : Type} {PD : ParameterDefinitions V}.
Import DeviceDataManager.

Lemma create_parameter_reading_clock (address raw_value : Z) (is_holding : bool)
    (c : clock) :
  untimed (fst (create_parameter_reading address raw_value is_holding c))
  = reading_fields is_holding (address, raw_value)
  /\ pr_timestamp (fst (create_parameter_reading address raw_value is_holding c))
     = hd 0 c
  /\ snd (create_parameter_reading address raw_value is_holding c) = tl c.
Proof.
  unfold reading_fields, create_parameter_reading, now. cbn [fst snd].
  destruct (format_value address raw_value is_holding); repeat split.
Qed.

Lemma readings_untimed (items : list (Z * Z)) (is_holding : bool) (c : clock) :
  map untimed (fst (readings items is_holding c)) = map (reading_fields is_holding) items.
Proof.
  revert c. induction items as [|[address value] rest IH]; intros c;
    [reflexivity|].
  cbn [readings].
  destruct (create_parameter_reading_clock address value is_holding c)
    as (Hf & _ & _).
  destruct (create_parameter_reading address value is_holding c) as [param c1].
  specialize (IH c1).
  destruct (readings rest is_holding c1) as [params c2].
  cbn [fst map] in *. now rewrite Hf, IH.
Qed.

Lemma readings_clock (items : list (Z * Z)) (is_holding : bool) (c : clock) :
  map pr_timestamp (fst (readings items is_holding c))
  = map (fun i => nth i c 0) (seq 0 (length items))
  /\ snd (readings items is_holding c) = skipn (length items) c.
Proof.
  revert c. induction items as [|[address value] rest IH]; intros c;
    [split; reflexivity|].
  cbn [readings].
  destruct (create_parameter_reading_clock address value is_holding c)
    as (_ & Ht & Hc).
  destruct (create_parameter_reading address value is_holding c) as [param c1].
  destruct (IH c1) as [IHt IHc].
  destruct (readings rest is_holding c1) as [params c2].
  cbn [fst snd map length seq] in *. subst c1. split.
  - rewrite Ht, IHt, <- seq_shift, map_map. f_equal.
    + destruct c; reflexivity.
    + apply map_ext. intros i. destruct c; [destruct i|]; reflexivity.
  - rewrite IHc. destruct c; [now rewrite skipn_nil|reflexivity].
Qed.

Lemma readings_length (items : list (Z * Z)) (is_holding : bool) (c : clock) :
  length (fst (readings items is_holding c)) = length items.
Proof.
  rewrite <- (length_map untimed), readings_untimed. apply length_map.
Qed.

(** C8 as the code has it. Two runs of [create_device_snapshot] on equal
    register data, whatever the clock shows, produce readings that agree
    in every field other than the timestamp (address, name, description,
    raw value, formatted value, unit, category), one reading per entry
    and in the same order, and the same device information; the
    timestamp of each reading is the clock reading at the moment it was
    created. *)
Lemma snapshot_shape (register_data : list (Z * Z))
    (holding_data : option (list (Z * Z))) (c : clock) :
  let s := fst (create_device_snapshot register_data holding_data c) in
  let n := (length register_data + length (default [] holding_data))%nat in
  map untimed (ds_parameters s)
  = map (reading_fields false) register_data ++ map (reading_fields true) (default [] holding_data)
  /\ ds_device_info s = the_device_info
  /\ map pr_timestamp (ds_parameters s) = map (fun i => nth i c 0) (seq 0 n)
  /\ ds_timestamp s = nth n c 0.
Proof.
  unfold create_device_snapshot.
  pose proof (readings_untimed register_data false c) as Hu1.
  destruct (readings_clock register_data false c) as [Ht1 Hc1].
  destruct (readings register_data false c) as [inputs c'].
  pose proof (readings_untimed (default [] holding_data) true c') as Hu2.
  destruct (readings_clock (default [] holding_data) true c') as [Ht2 Hc2].
  destruct (readings (default [] holding_data) true c') as [holdings c''].
  cbn [fst snd now ds_parameters ds_device_info ds_timestamp] in *.
  subst c' c''. rewrite !map_app, Hu1, Hu2, Ht1, Ht2.
  split; [reflexivity|]. split; [reflexivity|]. split.
  - rewrite seq_app, map_app. f_equal. cbn [Nat.add].
    rewrite (map_seq_offset _ (length register_data)).
    apply map_ext. intros i. apply nth_skipn.
  - rewrite skipn_skipn, hd_skipn. f_equal. lia.
Qed.

(** C8 as the code has it. Two runs of [create_device_snapshot] on equal
    register data, whatever the clock shows, produce readings that agree
    in every field other than the timestamp (address, name, description,
    raw value, formatted value, unit, category), one reading per entry
    and in the same order, and the same device information; the
    timestamp of each reading is the clock reading at the moment it was
    created. *)
Theorem snapshot_repeatable (register_data : list (Z * Z))
    (holding_data : option (list (Z * Z))) (c1 c2 : clock) :
  let s1 := fst (create_device_snapshot register_data holding_data c1) in
  let s2 := fst (create_device_snapshot register_data holding_data c2) in
  let n := (length register_data + length (default [] holding_data))%nat in
  map untimed (ds_parameters s1) = map untimed (ds_parameters s2)
  /\ ds_device_info s1 = ds_device_info s2
  /\ length (ds_parameters s1) = n
  /\ map pr_timestamp (ds_parameters s1) = map (fun i => nth i c1 0) (seq 0 n)
  /\ ds_timestamp s1 = nth n c1 0.
Proof.
  intros s1 s2 n.
  destruct (snapshot_shape register_data holding_data c1) as (Hu1 & Hi1 & Ht1 & Hs1).
  destruct (snapshot_shape register_data holding_data c2) as (Hu2 & Hi2 & _ & _).
  fold s1 in Hu1, Hi1, Ht1, Hs1. fold s2 in Hu2, Hi2. fold n in Ht1, Hs1.
  split; [congruence|]. split; [congruence|]. split; [|split; assumption].
  rewrite <- (length_map pr_timestamp), Ht1, length_map, length_seq. reflexivity.
Qed.

(** When the clock has moved between two runs, the readings differ. *)
Lemma moved_clock_readings_differ (address value : Z)
    (rest : list (Z * Z)) (holding_data : option (list (Z * Z))) (c1 c2 : clock) :
  hd 0 c1 <> hd 0 c2 ->
  ds_parameters (fst (create_device_snapshot ((address, value) :: rest) holding_data c1))
  <> ds_parameters (fst (create_device_snapshot ((address, value) :: rest) holding_data c2)).
Proof.
  intros Hclock E. apply (f_equal (map pr_timestamp)) in E.
  destruct (snapshot_shape ((address, value) :: rest) holding_data c1)
    as (_ & _ & Ht1 & _).
  destruct (snapshot_shape ((address, value) :: rest) holding_data c2)
    as (_ & _ & Ht2 & _).
  rewrite Ht1, Ht2 in E. cbn [length Nat.add seq map] in E.
  injection E as E _. apply Hclock.
  destruct c1, c2; exact E.
Qed.

End Snapshots.

(** The claim as stated fails: two successive snapshots of the same register
    data carry different timestamps in their readings. *)
Lemma snapshot_timestamp_counterexample :
  let register_data := [(0x311A, 87)] in
  let (s1, c') := DeviceDataManager.create_device_snapshot (PD := sample_definitions)
                    register_data None [1000; 1001; 1002; 1003] in
  let (s2, _) := DeviceDataManager.create_device_snapshot (PD := sample_definitions)
                   register_data None c' in
  ds_parameters s1 <> ds_parameters s2
  /\ map pr_timestamp (ds_parameters s1) = [1000]
  /\ map pr_timestamp (ds_parameters s2) = [1002].
Proof. vm_compute. repeat split. discriminate. Qed.

Example snapshot_unknown_register :
  map untimed (ds_parameters (fst (DeviceDataManager.create_device_snapshot
                 (PD := sample_definitions) [(0x3104, 2456)] None [7; 8])))
  = [(0x3104, "unknown_0x3104", "Unknown parameter", 2456, RawValue 2456, "", "unknown")]%string.
Proof. reflexivity. Qed.

(* ---------------------------------------------------------------------- *)
(** ** The write command *)

Lemma probe_not_write (sid : Z) (w : world) :
  existsb is_write_frame (probe sid w) = false /\ (length (probe sid w) <= 1)%nat.
Proof.
  unfold probe. destruct (hd false (opens w)); [|split; [reflexivity | simpl; lia]].
  unfold create_modbus_command. rewrite pack_BBHH_eq.
  destruct (_ && _); [|split; [reflexivity | simpl; lia]].
  rewrite with_crc_Some. split; [reflexivity | simpl; lia].
Qed.

Section WriteCommand.
Context {WP : WritableParameters}.
Import SolarChargerCLI.

Lemma connect_device_sent (sid : Z) (w : world) :
  exists c ok w',
    connect_device sid w = (Return (c, ok), w')
    /\ sent w' = sent w ++ probe sid w.
Proof.
  cbv [connect_device probe bind ModbusRTUClient.connect open_port ret
       ModbusRTUClient.test_connection try_except ModbusRTUClient.read_input_registers
       ModbusRTUClient.read_registers exchange connected negb slave_id
       sent replies opens answers].
  destruct w as [s r o a].
  destruct (hd false o).
  - destruct (create_modbus_command sid 4 12548 1) as [cmd|].
    + destruct (hd [] r) as [|b response].
      * do 3 eexists. split; reflexivity.
      * destruct (ModbusRTUClient.parse_modbus_response (b :: response)) as [p|].
        -- destruct (ModbusRTUClient.is_error p);
             do 3 eexists; split; reflexivity.
        -- do 3 eexists. split; reflexivity.
    + do 3 eexists. split; [reflexivity|]. now rewrite app_nil_r.
  - do 3 eexists. split; [reflexivity|]. now rewrite app_nil_r.
Qed.

(** The body of the command sends nothing when validation fails. *)
Lemma cmd_write_body_invalid (c : client) (args : write_args) (w : world)
    (param : WritableParameter) (error_msg : string) (raw_value : Z) :
  get_writable_parameter (arg_parameter args) = Some param ->
  validate_value param (arg_value args) = (false, error_msg, raw_value) ->
  fst (try_except (cmd_write_body c args) 1 w) = Return 1
  /\ sent (snd (try_except (cmd_write_body c args) 1 w)) = sent w.
Proof.
  intros Hparam Hvalid.
  cbv [try_except cmd_write_body bind ModbusRTUClient.connect open_port ret raise
       sent replies opens answers].
  destruct w as [s r o a].
  destruct (hd false o); cbv [negb].
  - rewrite Hparam, Hvalid. split; reflexivity.
  - split; reflexivity.
Qed.

(** C9 as the code has it. When the value given for a writable parameter
    fails validation, [cmd_write] returns the failure status 1 without
    asking the device to write anything: no write request (function code
    [0x06] or [0x10]) is sent. The one frame that can reach the device is
    the read request for register [0x3104] with which [connect_device]
    tests the connection, before the value is validated. *)
Theorem cmd_write_invalid_value (args : write_args) (w : world)
    (param : WritableParameter) (error_msg : string) (raw_value : Z) :
  get_writable_parameter (arg_parameter args) = Some param ->
  validate_value param (arg_value args) = (false, error_msg, raw_value) ->
  fst (cmd_write args w) = Return 1
  /\ sent (snd (cmd_write args w)) = sent w ++ probe (arg_slave_id args) w
  /\ existsb is_write_frame (probe (arg_slave_id args) w) = false
  /\ (length (probe (arg_slave_id args) w) <= 1)%nat.
Proof.
  intros Hparam Hvalid.
  destruct (probe_not_write (arg_slave_id args) w) as [Hnw Hlen].
  destruct (connect_device_sent (arg_slave_id args) w) as (c & ok & w' & Hc & Hs).
  unfold cmd_write, bind. rewrite Hc.
  destruct ok; cbn [negb].
  - destruct (cmd_write_body_invalid c args w' param error_msg raw_value Hparam Hvalid)
      as [Hr Hs'].
    rewrite Hr, Hs', Hs. repeat split; assumption.
  - unfold ret. cbn [fst snd]. rewrite Hs. repeat split; assumption.
Qed.

End WriteCommand.

(** Writing "abc" to [battery_capacity] on a line that answers the probe. *)
Lemma cmd_write_invalid_value_witness :
  fst (SolarChargerCLI.cmd_write (WP := sample_parameters)
         (WriteArgs 1 "battery_capacity" "abc" true false)
         (World [] [[x01; x04; x02; x09; x98; xbe; xca]] [true; true] []))
  = Return 1.
Proof.
  exact (proj1 (cmd_write_invalid_value (WP := sample_parameters)
                  (WriteArgs 1 "battery_capacity" "abc" true false)
                  (World [] [[x01; x04; x02; x09; x98; xbe; xca]] [true; true] [])
                  (MkWritableParameter 0x9001 validate_number)
                  "not a number" 0 eq_refl eq_refl)).
Defined.

(** The claim as stated fails: with an invalid value, eight bytes have gone
    to the device by the time [cmd_write] returns. *)
Lemma cmd_write_sends_probe_counterexample :
  let args := WriteArgs 1 "battery_capacity" "abc" true false in
  let w := World [] [[x01; x04; x02; x09; x98; xbe; xca]] [true; true] [] in
  validate_number "abc" = (false, "not a number"%string, 0)
  /\ SolarChargerCLI.cmd_write (WP := sample_parameters) args w
     = (Return 1,
        World [[x01; x04; x31; x04; x00; x01; x7e; xf7]] [] [] [])
  /\ sent (snd (SolarChargerCLI.cmd_write (WP := sample_parameters) args w)) <> [].
Proof. vm_compute. repeat split. discriminate. Qed.

(** A valid value, for comparison: probe, read-back of the current value,
    the write request, and the verifying read. *)
Example cmd_write_valid_value :
  let args := WriteArgs 1 "battery_capacity" "200" true false in
  let echo := [x01; x06; x90; x01; x00; xc8; xf4; x9c] in
  let reading := [x01; x03; x02; x00; xc8; xb9; xd2] in
  let w := World [] [[x01; x04; x02; x09; x98; xbe; xca]; reading; echo; reading]
                 [true; true] [] in
  fst (SolarChargerCLI.cmd_write (WP := sample_parameters) args w) = Return 0
  /\ map is_write_frame
       (sent (snd (SolarChargerCLI.cmd_write (WP := sample_parameters) args w)))
     = [false; false; true; false].
Proof. vm_compute. split; reflexivity. Qed.

(* ===================================================================== *)
(** * Further properties *)
(* ===================================================================== *)

(* ---------------------------------------------------------------------- *)
(** ** What the checksum guarantees *)

Lemma crc16_rounds_zero (n : nat) : Nat.iter n crc16_shift 0 = 0.
Proof. induction n as [|n IH]; simpl; [reflexivity | now rewrite IH]. Qed.

Lemma ldiff_low_clear (v : Z) : Z.land (Z.ldiff v 0xFF) (Z.ones 8) = 0.
Proof.
  apply Z.bits_inj'. intros i Hi.
  rewrite Z.land_spec, Z.ldiff_spec, Z.bits_0.
  change (Z.ones 8) with 255.
  destruct (Z.testbit v i), (Z.testbit 255 i); reflexivity.
Qed.

(** Feeding the accumulator its own two bytes, low first, clears it. *)
Lemma crc16_own_bytes (acc : Z) :
  0 <= acc < 65536 ->
  crc16_byte (crc16_byte acc (byte_of_Z acc)) (byte_of_Z (Z.shiftr acc 8)) = 0.
Proof.
  intros Hacc.
  assert (Hhi : 0 <= Z.shiftr acc 8 < 256).
  { rewrite Z.shiftr_div_pow2 by lia. change (2 ^ 8) with 256.
    split; [apply Z.div_pos; lia | apply Z.div_lt_upper_bound; lia]. }
  assert (Hfirst : crc16_byte acc (byte_of_Z acc) = Z.shiftr acc 8).
  { unfold crc16_byte. rewrite byte_val_of_Z.
    replace (Z.lxor acc (Z.land acc 0xFF)) with (Z.ldiff acc 0xFF).
    - rewrite (crc16_rounds_high 8) by apply ldiff_low_clear.
      change (Z.of_nat 8) with 8.
      apply Z.bits_inj'. intros i Hi.
      rewrite !Z.shiftr_spec, Z.ldiff_spec by lia.
      replace (Z.testbit 255 (i + 8)) with false; [apply andb_true_r|].
      symmetry. change 255 with (Z.ones 8). apply Z.ones_spec_high. lia.
    - apply Z.bits_inj'. intros i Hi.
      rewrite Z.lxor_spec, Z.ldiff_spec, Z.land_spec.
      destruct (Z.testbit acc i), (Z.testbit 255 i); reflexivity. }
  rewrite Hfirst. unfold crc16_byte. rewrite byte_val_of_Z.
  change 0xFF with (Z.ones 8). rewrite Z.land_ones by lia.
  rewrite Z.mod_small by lia. rewrite Z.lxor_nilpotent.
  apply crc16_rounds_zero.
Qed.

Lemma crc16_acc_app (data more : list byte) :
  crc16_acc (data ++ more) = fold_left crc16_byte more (crc16_acc data).
Proof. unfold crc16_acc. apply fold_left_app. Qed.

Lemma with_crc_residue (data : option (list byte)) (frame : list byte) :
  with_crc data = Some frame -> crc16_acc frame = 0.
Proof.
  destruct data as [d|]; [|discriminate]. cbn [with_crc].
  rewrite calculate_crc16_acc. intros E. injection E as <-.
  rewrite crc16_acc_app. cbn [fold_left].
  apply crc16_own_bytes, crc16_acc_range.
Qed.

(** X1. Every request the clients build checks out: the CRC16 accumulator
    run over a complete frame, checksum included, ends at 0, and so does
    the accumulator over any data followed by its own checksum. *)
Theorem frame_crc_residue (frame : list byte)
    (slave_id function_code start_addr num_registers value : Z) (values : list Z) :
  create_modbus_command slave_id function_code start_addr num_registers = Some frame
  \/ write_single_command slave_id start_addr value = Some frame
  \/ write_multiple_command slave_id start_addr values = Some frame
  \/ (exists data crc, calculate_crc16 data = Some crc /\ frame = data ++ crc) ->
  crc16_acc frame = 0 /\ calculate_crc16 frame = Some [x00; x00].
Proof.
  intros H.
  assert (Hz : crc16_acc frame = 0).
  { destruct H as [H | [H | [H | (data & crc & Hc & ->)]]].
    - exact (with_crc_residue _ _ H).
    - exact (with_crc_residue _ _ H).
    - exact (with_crc_residue _ _ H).
    - apply (with_crc_residue (Some data)). cbn [with_crc]. now rewrite Hc. }
  split; [exact Hz|]. unfold calculate_crc16. rewrite Hz. reflexivity.
Qed.

Lemma frame_crc_residue_witness :
  crc16_acc [x01; x04; x31; x04; x00; x01; x7e; xf7] = 0.
Proof.
  exact (proj1 (frame_crc_residue [x01; x04; x31; x04; x00; x01; x7e; xf7]
                  1 0x04 0x3104 1 0 [] (or_introl eq_refl))).
Defined.

(** A round that ends at 0 started at 0. *)
Lemma crc16_shift_kernel (z : Z) : 0 <= z < 65536 -> crc16_shift z = 0 -> z = 0.
Proof.
  intros Hz E. rewrite crc16_shift_testbit in E.
  apply Z.lxor_eq in E.
  rewrite Z.shiftr_div_pow2 in E by lia. change (2 ^ 1) with 2 in E.
  pose proof (Z.bit0_mod z) as Hb. pose proof (Z.div_mod z 2 ltac:(lia)) as Hdm.
  destruct (Z.testbit z 0); simpl in Hb; lia.
Qed.

Lemma crc16_shift_inj (x y : Z) :
  0 <= x < 65536 -> 0 <= y < 65536 -> crc16_shift x = crc16_shift y -> x = y.
Proof.
  intros Hx Hy E. apply Z.lxor_eq.
  apply crc16_shift_kernel; [apply (lxor_bound 16); lia|].
  rewrite crc16_shift_lxor, E. apply Z.lxor_nilpotent.
Qed.

Lemma crc16_rounds_range (n : nat) (x : Z) :
  0 <= x < 65536 -> 0 <= Nat.iter n crc16_shift x < 65536.
Proof.
  intros Hx. induction n as [|n IH]; [exact Hx|].
  simpl. apply crc16_shift_range, IH.
Qed.

Lemma crc16_rounds_inj (n : nat) (x y : Z) :
  0 <= x < 65536 -> 0 <= y < 65536 ->
  Nat.iter n crc16_shift x = Nat.iter n crc16_shift y -> x = y.
Proof.
  intros Hx Hy. induction n as [|n IH]; intros E; [exact E|].
  simpl in E. apply IH.
  apply crc16_shift_inj; [apply crc16_rounds_range, Hx
                         |apply crc16_rounds_range, Hy | exact E].
Qed.

Lemma byte_val_inj (b b' : byte) : byte_val b = byte_val b' -> b = b'.
Proof.
  intros E. rewrite <- (byte_of_Z_val b), <- (byte_of_Z_val b'). now rewrite E.
Qed.

Lemma crc16_byte_inj (crc crc' : Z) (b b' : byte) :
  0 <= crc < 65536 -> 0 <= crc' < 65536 ->
  crc16_byte crc b = crc16_byte crc' b' ->
  Z.lxor crc (byte_val b) = Z.lxor crc' (byte_val b').
Proof.
  intros Hc Hc' E. unfold crc16_byte in E.
  pose proof (byte_val_range b). pose proof (byte_val_range b').
  apply (crc16_rounds_inj 8); [apply (lxor_bound 16); lia
                              |apply (lxor_bound 16); lia | exact E].
Qed.

Lemma crc16_fold_inj (post : list byte) (crc crc' : Z) :
  0 <= crc < 65536 -> 0 <= crc' < 65536 ->
  fold_left crc16_byte post crc = fold_left crc16_byte post crc' -> crc = crc'.
Proof.
  revert crc crc'. induction post as [|b post IH]; intros crc crc' Hc Hc' E;
    [exact E|].
  cbn [fold_left] in E.
  apply IH in E; [|apply crc16_byte_range, Hc | apply crc16_byte_range, Hc'].
  apply crc16_byte_inj in E; [|exact Hc | exact Hc'].
  apply (f_equal (fun v => Z.lxor v (byte_val b))) in E.
  rewrite !Z.lxor_assoc, !Z.lxor_nilpotent, !Z.lxor_0_r in E. exact E.
Qed.

Lemma calculate_crc16_acc_inj (x y : list byte) :
  calculate_crc16 x = calculate_crc16 y -> crc16_acc x = crc16_acc y.
Proof.
  rewrite !calculate_crc16_acc. intros E. injection E as Hlo Hhi.
  apply (f_equal byte_val) in Hlo, Hhi. rewrite !byte_val_of_Z in Hlo, Hhi.
  pose proof (crc16_acc_range x) as Hx. pose proof (crc16_acc_range y) as Hy.
  change 0xFF with (Z.ones 8) in Hlo, Hhi.
  rewrite !Z.land_ones in Hlo, Hhi by lia.
  rewrite !Z.shiftr_div_pow2 in Hhi by lia. change (2 ^ 8) with 256 in *.
  rewrite !(Z.mod_small (_ / 256)) in Hhi
    by (split; [apply Z.div_pos; lia | apply Z.div_lt_upper_bound; lia]).
  pose proof (Z.div_mod (crc16_acc x) 256 ltac:(lia)).
  pose proof (Z.div_mod (crc16_acc y) 256 ltac:(lia)). lia.
Qed.

(** X2. The checksum catches every corruption of a single byte: two byte
    sequences that differ in exactly one position never have the same
    CRC16. *)
Theorem crc_detects_single_byte (pre post : list byte) (b b' : byte) :
  b <> b' ->
  calculate_crc16 (pre ++ b :: post) <> calculate_crc16 (pre ++ b' :: post).
Proof.
  intros Hne E. apply calculate_crc16_acc_inj in E.
  rewrite !crc16_acc_app in E. cbn [fold_left] in E.
  pose proof (crc16_acc_range pre) as Hpre.
  apply crc16_fold_inj in E; [|apply crc16_byte_range, Hpre
                              |apply crc16_byte_range, Hpre].
  apply crc16_byte_inj in E; [|exact Hpre | exact Hpre].
  apply Hne, byte_val_inj.
  apply (f_equal (Z.lxor (crc16_acc pre))) in E.
  rewrite <- !Z.lxor_assoc, !Z.lxor_nilpotent, !Z.lxor_0_l in E. exact E.
Qed.

Lemma crc_detects_single_byte_witness :
  calculate_crc16 [x01; x04; x31; x04; x00; x01]
  <> calculate_crc16 [x01; x04; x31; x05; x00; x01].
Proof.
  assert (Hne : x04 <> x05) by discriminate.
  exact (crc_detects_single_byte [x01; x04; x31] [x00; x01] x04 x05 Hne).
Defined.

(* ---------------------------------------------------------------------- *)
(** ** Packing and parsing registers *)

Lemma in_range_spec (lo hi v : Z) : in_range lo hi v = true <-> lo <= v <= hi.
Proof. unfold in_range. rewrite andb_true_iff, Z.leb_le, Z.leb_le. tauto. Qed.

Lemma parse_be16_values (values : list Z) :
  forallb (in_range 0 65535) values = true ->
  parse_registers (concat (map be16 values)) = values.
Proof.
  induction values as [|v values IH]; intros Hall; [reflexivity|].
  cbn [forallb] in Hall. apply andb_true_iff in Hall as [Hv Hall].
  apply in_range_spec in Hv.
  cbn [map concat be16 app parse_registers].
  rewrite be16_unpack by lia. now rewrite IH.
Qed.

Lemma unpack_H_be_range (hi lo : byte) : 0 <= unpack_H_be hi lo <= 65535.
Proof.
  rewrite unpack_H_be_val.
  pose proof (byte_val_range hi). pose proof (byte_val_range lo). lia.
Qed.

Lemma be16_of_unpack (hi lo : byte) : be16 (unpack_H_be hi lo) = [hi; lo].
Proof.
  pose proof (byte_val_range hi). pose proof (byte_val_range lo).
  unfold be16. f_equal; [|f_equal]; apply byte_val_inj;
    rewrite byte_val_of_Z, unpack_H_be_val;
    change 0xFF with (Z.ones 8); rewrite Z.land_ones by lia;
    change (2 ^ 8) with 256.
  - rewrite Z.shiftr_div_pow2 by lia. change (2 ^ 8) with 256.
    rewrite Z.div_add_l, Z.div_small, Z.add_0_r by lia.
    apply Z.mod_small. lia.
  - rewrite Z.add_comm, Z.mod_add by lia. apply Z.mod_small. lia.
Qed.

Lemma parse_registers_range (data : list byte) :
  Forall (fun r => 0 <= r <= 65535) (parse_registers data).
Proof.
  induction data as [| a | a b l IH] using list_pair_ind; cbn [parse_registers];
    constructor; [apply unpack_H_be_range | exact IH].
Qed.

Lemma pack_parse_registers (data : list byte) :
  pack_values (parse_registers data)
  = Some (firstn (2 * (length data / 2)) data).
Proof.
  induction data as [| a | a b l IH] using list_pair_ind; try reflexivity.
  cbn [parse_registers pack_values]. rewrite IH, pack_H_be_eq.
  pose proof (unpack_H_be_range a b) as Hr.
  rewrite (proj2 (in_range_spec 0 65535 _)) by lia.
  rewrite be16_of_unpack. cbn [pack_cat app length].
  replace (S (S (length l))) with (length l + 1 * 2)%nat by lia.
  rewrite Nat.div_add by lia.
  replace (2 * (length l / 2 + 1))%nat with (S (S (2 * (length l / 2)))) by lia.
  reflexivity.
Qed.

Lemma registers_pack_parse (values : list Z) (packed : list byte) :
  pack_values values = Some packed ->
  parse_registers packed = values /\ length packed = (2 * length values)%nat.
Proof.
  intros Hp. rewrite pack_values_eq in Hp.
  destruct (forallb (in_range 0 65535) values) eqn:Hall; [|discriminate].
  injection Hp as <-.
  split; [apply parse_be16_values, Hall|].
  clear Hall. induction values as [|v values IH]; [reflexivity|].
  cbn [map concat be16 app length]. rewrite IH. lia.
Qed.

(** X3. Packing and parsing registers are inverse to each other: the
    bytes [write_multiple_registers] packs for a list of 16-bit values parse
    back to that list, two bytes per value; and the registers parsed from
    any bytes pack back to those bytes, less a last unpaired byte. *)
Theorem registers_round_trip (values : list Z) (data packed : list byte) :
  pack_values values = Some packed ->
  parse_registers packed = values
  /\ length packed = (2 * length values)%nat
  /\ pack_values (parse_registers data)
     = Some (firstn (2 * (length data / 2)) data).
Proof.
  intros Hp. destruct (registers_pack_parse values packed Hp) as [H1 H2].
  split; [exact H1|]. split; [exact H2 | apply pack_parse_registers].
Qed.

Lemma registers_round_trip_witness :
  parse_registers [x09; x98; x00; xc8] = [2456; 200].
Proof.
  exact (proj1 (registers_round_trip [2456; 200] [] [x09; x98; x00; xc8] eq_refl)).
Defined.

(* ---------------------------------------------------------------------- *)
(** ** The shape of parsed responses *)

Lemma register_bytes_length (byte_count : Z) (response : list byte) :
  (length (register_bytes byte_count response)
   <= Nat.min (Z.to_nat byte_count) (length response - 3))%nat.
Proof.
  unfold register_bytes. rewrite length_firstn, length_skipn. lia.
Qed.

Lemma byte_high_bit (b : byte) :
  (Z.land (byte_val b) 0x80 =? 0) = (byte_val b <? 128)
  /\ Z.land (byte_val b) 0x7F = byte_val b mod 128.
Proof. destruct b; vm_compute; split; reflexivity. Qed.

(** X4. What a read response can carry. When the command-line parser
    returns a read result, the function code is 3 or 4, the byte count is
    the third byte, and the registers are 16-bit values, exactly one per two
    bytes of whichever is shorter, the announced byte count or what follows
    the three header bytes: never more than 127 registers. *)
Theorem parsed_registers_bounds (response : list byte)
    (slave_id function_code byte_count : Z) (registers : list Z) :
  ModbusRTUClient.parse_modbus_response response
  = Some (ModbusRTUClient.ReadResponse slave_id function_code byte_count registers) ->
  Forall (fun r => 0 <= r <= 65535) registers
  /\ length registers
     = (Nat.min (Z.to_nat byte_count) (length response - 3) / 2)%nat
  /\ (length registers <= 127)%nat
  /\ (function_code = 0x03 \/ function_code = 0x04)
  /\ option_map byte_val (nth_error response 2) = Some byte_count
  /\ (5 <= length response)%nat.
Proof.
  destruct response as [|b0 [|b1 [|b2 [|b3 [|b4 rest]]]]]; try discriminate.
  unfold ModbusRTUClient.parse_modbus_response.
  destruct (negb _); [discriminate|].
  destruct (_ || _) eqn:Hfc; [|discriminate].
  intros E. injection E as <- <- <- <-.
  pose proof (byte_val_range b2) as Hbc.
  assert (Hlen : length (parse_registers
                   (register_bytes (byte_val b2) (b0 :: b1 :: b2 :: b3 :: b4 :: rest)))
                 = (Nat.min (Z.to_nat (byte_val b2))
                            (length (b0 :: b1 :: b2 :: b3 :: b4 :: rest) - 3) / 2)%nat).
  { rewrite parse_registers_length. unfold register_bytes.
    rewrite length_firstn, length_skipn. reflexivity. }
  split; [apply parse_registers_range|].
  split; [exact Hlen|].
  split.
  { rewrite Hlen.
    apply Nat.le_trans with (Z.to_nat (byte_val b2) / 2)%nat.
    - apply Nat.Div0.div_le_mono. lia.
    - apply Nat.le_trans with (255 / 2)%nat;
        [apply Nat.Div0.div_le_mono; lia | reflexivity]. }
  split.
  { apply orb_true_iff in Hfc as [H | H]; apply Z.eqb_eq in H; auto. }
  split; [reflexivity | simpl; lia].
Qed.

Lemma parsed_registers_bounds_witness :
  Forall (fun r => 0 <= r <= 65535) [2456].
Proof.
  exact (proj1 (parsed_registers_bounds [x01; x04; x02; x09; x98; xbe; xca]
                  1 4 2 [2456] eq_refl)).
Defined.

(** X5. How the command-line parser sorts responses. Fewer than five
    bytes: nothing is parsed. Otherwise a function code of 128 or more is a
    device error, reported with the function code less 128 and the third
    byte as exception code; and a function code below 128 other than 3 and
    4, such as the echo of a write, is handed back unparsed. *)
Theorem parse_response_classes (response : list byte) :
  let function_code := byte_val (nth 1 response x00) in
  ((length response < 5)%nat ->
   ModbusRTUClient.parse_modbus_response response = None)
  /\ ((5 <= length response)%nat -> 128 <= function_code ->
      ModbusRTUClient.parse_modbus_response response
      = Some (ModbusRTUClient.ErrorResponse
                (byte_val (nth 0 response x00)) (function_code - 128)
                (byte_val (nth 2 response x00))
                (get_error_message (byte_val (nth 2 response x00)))))
  /\ ((5 <= length response)%nat -> function_code < 128 ->
      function_code <> 0x03 -> function_code <> 0x04 ->
      ModbusRTUClient.parse_modbus_response response
      = Some (ModbusRTUClient.RawResponse response))
  /\ (ModbusRTUClient.parse_modbus_response response = None ->
      (length response < 5)%nat).
Proof.
  destruct response as [|b0 [|b1 [|b2 [|b3 [|b4 rest]]]]];
    try (cbn [length nth]; repeat split; intros; try reflexivity; simpl in *; lia).
  cbn [nth]. unfold ModbusRTUClient.parse_modbus_response.
  destruct (byte_high_bit b1) as [Hbit Hlow].
  pose proof (byte_val_range b1) as Hr.
  rewrite Hbit, Hlow.
  split; [simpl; lia|]. split; [|split].
  - intros _ Hfc. destruct (Z.ltb_spec (byte_val b1) 128); [lia|]. cbn [negb].
    replace (byte_val b1 mod 128) with (byte_val b1 - 128); [reflexivity|].
    apply Z.mod_unique with 1; lia.
  - intros _ Hfc H3 H4. destruct (Z.ltb_spec (byte_val b1) 128); [|lia]. cbn [negb].
    destruct (Z.eqb_spec (byte_val b1) 3); [contradiction|].
    destruct (Z.eqb_spec (byte_val b1) 4); [contradiction|]. reflexivity.
  - destruct (negb _); [discriminate|]. destruct (_ || _); discriminate.
Qed.

(** The echo of a write of 200 to register [0x9001] comes back unparsed. *)
Lemma parse_response_classes_witness :
  ModbusRTUClient.parse_modbus_response [x01; x06; x90; x01; x00; xc8; xf4; x9c]
  = Some (ModbusRTUClient.RawResponse [x01; x06; x90; x01; x00; xc8; xf4; x9c]).
Proof.
  assert (Hlen : (5 <= length [x01; x06; x90; x01; x00; xc8; xf4; x9c])%nat)
    by (simpl; lia).
  assert (Hfc : byte_val x06 < 128) by (vm_compute; reflexivity).
  assert (H3 : byte_val x06 <> 3) by (vm_compute; discriminate).
  assert (H4 : byte_val x06 <> 4) by (vm_compute; discriminate).
  exact (proj1 (proj2 (proj2
           (parse_response_classes [x01; x06; x90; x01; x00; xc8; xf4; x9c])))
         Hlen Hfc H3 H4).
Defined.

Lemma parse_read_shape (b0 b1 b2 b3 b4 : byte) (rest : list byte) :
  byte_val b1 = 0x03 \/ byte_val b1 = 0x04 ->
  ModbusRTUClient.parse_modbus_response (b0 :: b1 :: b2 :: b3 :: b4 :: rest)
  = Some (ModbusRTUClient.ReadResponse (byte_val b0) (byte_val b1) (byte_val b2)
            (parse_registers
               (firstn (Z.to_nat (byte_val b2)) (skipn 3 (b0 :: b1 :: b2 :: b3 :: b4 :: rest))))).
Proof.
  intros Hfc. unfold ModbusRTUClient.parse_modbus_response.
  destruct Hfc as [-> | ->]; reflexivity.
Qed.

(** X6. The two parsers side by side: the Home Assistant parser returns a
    result exactly when the command-line parser returns a read result, and
    then with the same slave id, function code and registers; device errors
    and every other response, which the command-line parser reports, it
    turns into [None]. *)
Theorem parsers_agree (response : list byte) :
  TracerModbusClient.parse_modbus_response response
  = match ModbusRTUClient.parse_modbus_response response with
    | Some (ModbusRTUClient.ReadResponse slave_id function_code _ registers) =>
        Some (TracerModbusClient.Parsed slave_id function_code registers)
    | _ => None
    end.
Proof.
  destruct response as [|b0 [|b1 [|b2 [|b3 [|b4 rest]]]]]; try reflexivity.
  unfold TracerModbusClient.parse_modbus_response,
    ModbusRTUClient.parse_modbus_response.
  destruct (negb _); [reflexivity|]. destruct (_ || _); reflexivity.
Qed.

(* ---------------------------------------------------------------------- *)
(** ** One request, one reply *)

Lemma acknowledged_parse (reply : list byte) :
  match reply with
  | [] => false
  | _ => match ModbusRTUClient.parse_modbus_response reply with
         | Some p => negb (ModbusRTUClient.is_error p)
         | None => false
         end
  end = acknowledged reply.
Proof.
  destruct reply as [|b0 [|b1 [|b2 [|b3 [|b4 rest]]]]]; try reflexivity.
  unfold acknowledged, ModbusRTUClient.parse_modbus_response. cbn [nth length].
  destruct (byte_high_bit b1) as [-> _].
  destruct (byte_val b1 <? 128); cbn [negb]; [|reflexivity].
  destruct (_ || _); reflexivity.
Qed.

Lemma is_read_reply_parse (reply : list byte) :
  match reply with
  | [] => false
  | _ => match TracerModbusClient.parse_modbus_response reply with
         | Some _ => true
         | None => false
         end
  end = is_read_reply reply.
Proof.
  destruct reply as [|b0 [|b1 [|b2 [|b3 [|b4 rest]]]]]; try reflexivity.
  unfold is_read_reply, TracerModbusClient.parse_modbus_response. cbn [nth length].
  destruct (byte_high_bit b1) as [-> _].
  pose proof (byte_val_range b1).
  destruct (Z.ltb_spec (byte_val b1) 128); cbn [negb].
  - destruct (_ || _); reflexivity.
  - destruct (Z.eqb_spec (byte_val b1) 3); [lia|].
    destruct (Z.eqb_spec (byte_val b1) 4); [lia|]. reflexivity.
Qed.

(** X7. Nothing goes on the wire when a read cannot start. With no open
    connection the command-line client raises [ConnectionError] and the
    Home Assistant client returns [None]; with a slave id or function code
    that does not fit a byte, or an address or count that does not fit 16
    bits, both return [None]. The world is left as it was. *)
Theorem read_registers_not_started (c : client)
    (function_code start_addr num_registers : Z) (w : world) :
  connected c = false
  \/ create_modbus_command (slave_id c) function_code start_addr num_registers = None ->
  ModbusRTUClient.read_registers c function_code start_addr num_registers w
  = (if connected c then Return None else Raise ConnectionError, w)
  /\ TracerModbusClient.read_registers c function_code start_addr num_registers w
     = (Return None, w).
Proof.
  unfold ModbusRTUClient.read_registers, TracerModbusClient.read_registers.
  intros [Hc | Hcmd].
  - rewrite Hc. split; reflexivity.
  - rewrite Hcmd. destruct (connected c); split; reflexivity.
Qed.

Lemma read_registers_not_started_witness :
  ModbusRTUClient.read_registers (Client 300 true) 0x04 0x3104 1
    (World [] [[x01; x04; x02; x09; x98; xbe; xca]] [] [])
  = (Return None, World [] [[x01; x04; x02; x09; x98; xbe; xca]] [] []).
Proof.
  exact (proj1 (read_registers_not_started (Client 300 true) 0x04 0x3104 1
                  (World [] [[x01; x04; x02; x09; x98; xbe; xca]] [] [])
                  (or_intror eq_refl))).
Defined.

(** X8. A read is one exchange and no more: with an open connection and a
    request that packs, either client sends exactly that one request and
    consumes exactly one reply, whatever the reply is (no retry), and the
    command-line client does not raise. *)
Theorem read_registers_single_exchange (c : client)
    (function_code start_addr num_registers : Z) (cmd : list byte) (w : world) :
  connected c = true ->
  create_modbus_command (slave_id c) function_code start_addr num_registers = Some cmd ->
  let w' := snd (ModbusRTUClient.read_registers c function_code start_addr num_registers w) in
  sent w' = sent w ++ [cmd]
  /\ replies w' = tl (replies w)
  /\ opens w' = opens w
  /\ snd (TracerModbusClient.read_registers c function_code start_addr num_registers w)
     = w'
  /\ exists result,
       fst (ModbusRTUClient.read_registers c function_code start_addr num_registers w)
       = Return result.
Proof.
  intros Hc Hcmd.
  unfold ModbusRTUClient.read_registers, TracerModbusClient.read_registers.
  rewrite Hc, Hcmd. cbv [negb bind exchange ret].
  destruct (hd [] (replies w)) as [|b reply]; cbn [fst snd sent replies opens].
  - repeat split. eauto.
  - destruct (ModbusRTUClient.parse_modbus_response (b :: reply)) as [p|];
      destruct (TracerModbusClient.parse_modbus_response (b :: reply));
      try destruct (ModbusRTUClient.is_error p);
      cbn [fst snd sent replies opens]; repeat split; eauto.
Qed.

Lemma read_registers_single_exchange_witness :
  sent (snd (ModbusRTUClient.read_registers (Client 1 true) 0x04 0x3104 1
               (World [] [[x01; x84; x02; xc2; xc1]; [x01]] [] [])))
  = [[x01; x04; x31; x04; x00; x01; x7e; xf7]].
Proof.
  exact (proj1 (read_registers_single_exchange (Client 1 true) 0x04 0x3104 1
                  [x01; x04; x31; x04; x00; x01; x7e; xf7]
                  (World [] [[x01; x84; x02; xc2; xc1]; [x01]] [] [])
                  eq_refl eq_refl)).
Defined.

(** What either client answers once the exchange is done. *)
Lemma rtu_read_registers_reply (c : client)
    (function_code start_addr num_registers : Z) (cmd : list byte) (w : world) :
  connected c = true ->
  create_modbus_command (slave_id c) function_code start_addr num_registers = Some cmd ->
  fst (ModbusRTUClient.read_registers c function_code start_addr num_registers w)
  = Return (match hd [] (replies w) with
            | [] => None
            | reply =>
                match ModbusRTUClient.parse_modbus_response reply with
                | Some p => if ModbusRTUClient.is_error p then None
                            else Some (ModbusRTUClient.get_registers p)
                | None => None
                end
            end).
Proof.
  intros Hc Hcmd. unfold ModbusRTUClient.read_registers.
  rewrite Hc, Hcmd. cbv [negb bind exchange ret].
  destruct (hd [] (replies w)) as [|b reply]; [reflexivity|].
  destruct (ModbusRTUClient.parse_modbus_response (b :: reply)) as [p|];
    [destruct (ModbusRTUClient.is_error p)|]; reflexivity.
Qed.

Lemma ha_read_registers_reply (c : client)
    (function_code start_addr num_registers : Z) (cmd : list byte) (w : world) :
  connected c = true ->
  create_modbus_command (slave_id c) function_code start_addr num_registers = Some cmd ->
  fst (TracerModbusClient.read_registers c function_code start_addr num_registers w)
  = Return (match hd [] (replies w) with
            | [] => None
            | reply =>
                match TracerModbusClient.parse_modbus_response reply with
                | Some p => Some (TracerModbusClient.p_registers p)
                | None => None
                end
            end).
Proof.
  intros Hc Hcmd. unfold TracerModbusClient.read_registers.
  rewrite Hc, Hcmd. cbv [negb bind exchange ret].
  destruct (hd [] (replies w)) as [|b reply]; [reflexivity|].
  destruct (TracerModbusClient.parse_modbus_response (b :: reply)); reflexivity.
Qed.

Lemma parse_read_tail (b0 b1 b2 : byte) (tail : list byte) :
  (2 <= length tail)%nat ->
  byte_val b1 = 0x03 \/ byte_val b1 = 0x04 ->
  ModbusRTUClient.parse_modbus_response (b0 :: b1 :: b2 :: tail)
  = Some (ModbusRTUClient.ReadResponse (byte_val b0) (byte_val b1) (byte_val b2)
            (parse_registers (firstn (Z.to_nat (byte_val b2)) tail)))
  /\ TracerModbusClient.parse_modbus_response (b0 :: b1 :: b2 :: tail)
     = Some (TracerModbusClient.Parsed (byte_val b0) (byte_val b1)
               (parse_registers (firstn (Z.to_nat (byte_val b2)) tail))).
Proof.
  intros Hlen Hfc.
  destruct tail as [|b3 [|b4 rest]]; [simpl in Hlen; lia | simpl in Hlen; lia |].
  split; [apply (parse_read_shape b0 b1 b2 b3 b4 rest Hfc)
         |apply (ha_parse_read_response b0 b1 b2 b3 b4 rest Hfc)].
Qed.

(** X9. A read hands back what the response carries and checks nothing
    else. When the reply to a packable request on an open connection is a
    header (any slave id, function code 3 or 4, byte count [2 * n]) followed
    by [n <= 127] packed 16-bit values and at least two more bytes, both
    clients return exactly those values: the slave id, which of the two
    function codes, the number of registers asked for and the checksum of
    the reply are not compared with anything. *)
Theorem read_registers_round_trip (c : client)
    (function_code start_addr num_registers : Z) (cmd : list byte) (w : world)
    (values : list Z) (payload trailer : list byte) (b0 bfc : byte)
    (more : list (list byte)) :
  connected c = true ->
  create_modbus_command (slave_id c) function_code start_addr num_registers = Some cmd ->
  byte_val bfc = 0x03 \/ byte_val bfc = 0x04 ->
  pack_values values = Some payload ->
  (length values <= 127)%nat ->
  (2 <= length trailer)%nat ->
  replies w
  = (b0 :: bfc :: byte_of_Z (2 * Z.of_nat (length values)) :: payload ++ trailer)
      :: more ->
  fst (ModbusRTUClient.read_registers c function_code start_addr num_registers w)
  = Return (Some values)
  /\ fst (TracerModbusClient.read_registers c function_code start_addr num_registers w)
     = Return (Some values).
Proof.
  intros Hc Hcmd Hfc Hpack Hn Htr Hrep.
  destruct (registers_pack_parse values payload Hpack) as [Hparse Hlen].
  assert (Hdata : firstn (Z.to_nat (byte_val (byte_of_Z (2 * Z.of_nat (length values)))))
                         (payload ++ trailer) = payload).
  { rewrite byte_val_of_Z.
    change 0xFF with (Z.ones 8). rewrite Z.land_ones by lia.
    rewrite Z.mod_small by lia.
    replace (Z.to_nat (2 * Z.of_nat (length values))) with (length payload) by lia.
    rewrite firstn_app, Nat.sub_diag, firstn_all. cbn [firstn]. apply app_nil_r. }
  destruct (parse_read_tail b0 bfc (byte_of_Z (2 * Z.of_nat (length values)))
              (payload ++ trailer)) as [Hcli Hha];
    [rewrite length_app; lia | exact Hfc |].
  rewrite Hdata, Hparse in Hcli, Hha.
  split.
  - rewrite (rtu_read_registers_reply _ _ _ _ cmd) by assumption.
    rewrite Hrep. cbn [hd]. rewrite Hcli. reflexivity.
  - rewrite (ha_read_registers_reply _ _ _ _ cmd) by assumption.
    rewrite Hrep. cbn [hd]. rewrite Hha. reflexivity.
Qed.

(** Slave 1 is asked for one register; the reply names slave 9, has a
    wrong checksum and carries two registers: both are returned. *)
Lemma read_registers_round_trip_witness :
  fst (ModbusRTUClient.read_registers (Client 1 true) 0x04 0x3104 1
         (World [] [[x09; x03; x04; x09; x98; x00; xc8; x00; x00]] [] []))
  = Return (Some [2456; 200]).
Proof.
  exact (proj1 (read_registers_round_trip (Client 1 true) 0x04 0x3104 1
                  [x01; x04; x31; x04; x00; x01; x7e; xf7]
                  (World [] [[x09; x03; x04; x09; x98; x00; xc8; x00; x00]] [] [])
                  [2456; 200] [x09; x98; x00; xc8] [x00; x00] x09 x03 []
                  eq_refl eq_refl (or_introl eq_refl) eq_refl
                  ltac:(simpl; lia) ltac:(simpl; lia) eq_refl)).
Defined.

(* ---------------------------------------------------------------------- *)
(** ** Connection tests and writes *)

Lemma probe_command_packs (sid : Z) :
  create_modbus_command sid 0x04 0x3104 1
  = if in_range 0 255 sid
    then Some (([byte_of_Z sid; x04] ++ be16 0x3104 ++ be16 1)
                 ++ crc16_reference ([byte_of_Z sid; x04] ++ be16 0x3104 ++ be16 1))
    else None.
Proof.
  unfold create_modbus_command. rewrite pack_BBHH_eq.
  change (in_range 0 255 4) with true. change (in_range 0 65535 12548) with true.
  change (in_range 0 65535 1) with true. rewrite !andb_true_r.
  destruct (in_range 0 255 sid); [apply with_crc_Some | reflexivity].
Qed.

(** X10. When the connection tests pass. Neither test ever raises. The
    command-line test succeeds exactly when the connection is open, the
    slave id fits a byte, and the reply has at least five bytes with a
    function code below 128: any such reply will do, registers or not. The
    Home Assistant test asks for more: the reply must be a read response
    (function code 3 or 4). *)
Theorem test_connection_criterion (c : client) (w : world) :
  fst (ModbusRTUClient.test_connection c w)
  = Return (connected c && in_range 0 255 (slave_id c)
            && acknowledged (hd [] (replies w)))
  /\ fst (TracerIntegration.test_connection c w)
     = Return (connected c && in_range 0 255 (slave_id c)
               && is_read_reply (hd [] (replies w)))
  /\ (is_read_reply (hd [] (replies w)) = true ->
      acknowledged (hd [] (replies w)) = true).
Proof.
  split; [|split].
  - unfold ModbusRTUClient.test_connection, ModbusRTUClient.read_input_registers,
      ModbusRTUClient.read_registers.
    rewrite probe_command_packs.
    destruct (connected c); [|reflexivity].
    destruct (in_range 0 255 (slave_id c)); [|reflexivity].
    cbv [negb try_except bind exchange ret andb]. cbn [fst].
    rewrite <- acknowledged_parse.
    destruct (hd [] (replies w)) as [|b reply]; [reflexivity|].
    destruct (ModbusRTUClient.parse_modbus_response (b :: reply)) as [p|];
      [destruct (ModbusRTUClient.is_error p)|]; reflexivity.
  - unfold TracerIntegration.test_connection, TracerModbusClient.read_input_registers,
      TracerModbusClient.read_registers.
    rewrite probe_command_packs.
    destruct (connected c); [|reflexivity].
    destruct (in_range 0 255 (slave_id c)); [|reflexivity].
    cbv [negb try_except bind exchange ret andb]. cbn [fst].
    rewrite <- is_read_reply_parse.
    destruct (hd [] (replies w)) as [|b reply]; [reflexivity|].
    destruct (TracerModbusClient.parse_modbus_response (b :: reply)); reflexivity.
  - unfold is_read_reply, acknowledged.
    intros H. apply andb_true_iff in H as [Hlen Hfc]. rewrite Hlen. cbn [andb].
    apply orb_true_iff in Hfc as [Hfc | Hfc]; apply Z.eqb_eq in Hfc;
      rewrite Hfc; reflexivity.
Qed.

(** The echo of a write satisfies the command-line test, not the other. *)
Example test_connection_on_echo :
  let w := World [] [[x01; x06; x90; x01; x00; xc8; xf4; x9c]] [] [] in
  fst (ModbusRTUClient.test_connection (Client 1 true) w) = Return true
  /\ fst (TracerIntegration.test_connection (Client 1 true) w) = Return false.
Proof. split; reflexivity. Qed.

Lemma write_exchange_result (cmd : list byte) (w : world) :
  ModbusRTUClient.write_exchange (Some cmd) w
  = (Return (acknowledged (hd [] (replies w))), snd (exchange cmd w)).
Proof.
  unfold ModbusRTUClient.write_exchange. cbv [bind exchange ret]. cbn [snd].
  rewrite <- acknowledged_parse.
  destruct (hd [] (replies w)) as [|b reply]; [reflexivity|].
  destruct (ModbusRTUClient.parse_modbus_response (b :: reply)); reflexivity.
Qed.

(** X11. When a write counts as done. With an open connection and a
    request that packs, [write_single_register] and
    [write_multiple_registers] send that one request, consume one reply, and
    report success exactly when the reply has at least five bytes and a
    function code below 128. The reply is not compared with the request:
    an echo of another address or value is a success just the same. *)
Theorem write_acknowledged (c : client) (address value : Z) (values : list Z)
    (w : world) :
  connected c = true ->
  (forall cmd, write_single_command (slave_id c) address value = Some cmd ->
     ModbusRTUClient.write_single_register c address value w
     = (Return (acknowledged (hd [] (replies w))),
        World (sent w ++ [cmd]) (tl (replies w)) (opens w) (answers w)))
  /\ (forall cmd, write_multiple_command (slave_id c) address values = Some cmd ->
        ModbusRTUClient.write_multiple_registers c address values w
        = (Return (acknowledged (hd [] (replies w))),
           World (sent w ++ [cmd]) (tl (replies w)) (opens w) (answers w))).
Proof.
  intros Hc.
  unfold ModbusRTUClient.write_single_register,
    ModbusRTUClient.write_multiple_registers. rewrite Hc. cbn [negb].
  split; intros cmd ->; apply write_exchange_result.
Qed.

(** A write of 200 to [0x9001] answered by the echo of some other write. *)
Lemma write_acknowledged_witness :
  fst (ModbusRTUClient.write_single_register (Client 1 true) 0x9001 200
         (World [] [[x01; x06; x90; x0d; x04; x4c; x00; x00]] [] []))
  = Return true.
Proof.
  exact (f_equal fst
           (proj1 (write_acknowledged (Client 1 true) 0x9001 200 []
                     (World [] [[x01; x06; x90; x0d; x04; x4c; x00; x00]] [] [])
                     eq_refl)
                  [x01; x06; x90; x01; x00; xc8; xf4; x9c] eq_refl)).
Defined.

Lemma write_single_command_packs (sid address value : Z) :
  in_range 0 255 sid && in_range 0 65535 address && in_range 0 65535 value = false ->
  write_single_command sid address value = None.
Proof.
  intros Hbad. unfold write_single_command. rewrite pack_BBHH_eq.
  change (in_range 0 255 6) with true. rewrite andb_true_r, Hbad. reflexivity.
Qed.

Lemma write_multiple_command_packs (sid address : Z) (values : list Z) :
  in_range 0 255 sid && in_range 0 65535 address
    && in_range 0 127 (Z.of_nat (length values))
    && forallb (in_range 0 65535) values = false ->
  write_multiple_command sid address values = None.
Proof.
  intros Hbad. unfold write_multiple_command.
  rewrite !pack_B_eq, !pack_H_be_eq, pack_values_eq.
  set (n := Z.of_nat (length values)) in *.
  assert (Hn : in_range 0 255 (n * 2) && in_range 0 65535 n = in_range 0 127 n).
  { unfold in_range. lia. }
  rewrite <- Hn in Hbad.
  destruct (in_range 0 255 sid); [|reflexivity].
  destruct (in_range 0 65535 address); [|reflexivity].
  destruct (in_range 0 65535 n); [|reflexivity].
  destruct (in_range 0 255 (n * 2));
    [|destruct (forallb _ values); reflexivity].
  destruct (forallb _ values); [discriminate Hbad | reflexivity].
Qed.

(** X12. What cannot be written is not sent. On an open connection, a
    single write whose slave id does not fit a byte, or whose address or
    value does not fit 16 bits, and a multiple write with more than 127
    values or with a value that does not fit 16 bits, report failure and
    leave the line untouched: no frame is sent and no reply consumed. *)
Theorem write_unpackable (c : client) (address value : Z) (values : list Z)
    (w : world) :
  connected c = true ->
  (in_range 0 255 (slave_id c) && in_range 0 65535 address
     && in_range 0 65535 value = false ->
   ModbusRTUClient.write_single_register c address value w = (Return false, w))
  /\ (in_range 0 255 (slave_id c) && in_range 0 65535 address
        && in_range 0 127 (Z.of_nat (length values))
        && forallb (in_range 0 65535) values = false ->
      ModbusRTUClient.write_multiple_registers c address values w
      = (Return false, w)).
Proof.
  intros Hc.
  unfold ModbusRTUClient.write_single_register,
    ModbusRTUClient.write_multiple_registers. rewrite Hc. cbn [negb].
  split; intros Hbad.
  - rewrite (write_single_command_packs _ _ _ Hbad). reflexivity.
  - rewrite (write_multiple_command_packs _ _ _ Hbad). reflexivity.
Qed.

Lemma write_unpackable_witness :
  ModbusRTUClient.write_single_register (Client 1 true) 0x9001 70000
    (World [] [[x01; x06; x90; x01; x00; xc8; xf4; x9c]] [] [])
  = (Return false, World [] [[x01; x06; x90; x01; x00; xc8; xf4; x9c]] [] []).
Proof.
  exact (proj1 (write_unpackable (Client 1 true) 0x9001 70000 []
                  (World [] [[x01; x06; x90; x01; x00; xc8; xf4; x9c]] [] [])
                  eq_refl) eq_refl).
Defined.

(* ---------------------------------------------------------------------- *)
(** ** Sensor state *)

(** X13. The two words can be read back out of a combined value: for a
    16-bit low word and any high word, shifting [(high << 16) | low] right
    by 16 gives the high word and masking with [0xFFFF] gives the low word,
    so different register pairs never combine to the same value. *)
Theorem combine_split (high low high' low' : Z) :
  0 <= low < 65536 ->
  0 <= low' < 65536 ->
  Z.shiftr (combine high low) 16 = high
  /\ Z.land (combine high low) 0xFFFF = low
  /\ (combine high low = combine high' low' -> high = high' /\ low = low').
Proof.
  intros Hl Hl'.
  assert (Hsplit : forall h l, 0 <= l < 65536 ->
            Z.shiftr (combine h l) 16 = h /\ Z.land (combine h l) 0xFFFF = l).
  { intros h l Hr. rewrite combine_add by lia. split.
    - rewrite Z.shiftr_div_pow2 by lia. change (2 ^ 16) with 65536.
      rewrite Z.div_add_l, Z.div_small by lia. lia.
    - change 0xFFFF with (Z.ones 16). rewrite Z.land_ones by lia.
      change (2 ^ 16) with 65536.
      rewrite Z.add_comm, Z.mod_add by lia. apply Z.mod_small. lia. }
  destruct (Hsplit high low Hl) as [Hh Hlo].
  destruct (Hsplit high' low' Hl') as [Hh' Hlo'].
  split; [exact Hh|]. split; [exact Hlo|].
  intros E. rewrite E in Hh, Hlo. split; congruence.
Qed.

Lemma combine_split_witness :
  Z.shiftr (combine 0x0001 0x1234) 16 = 0x0001.
Proof.
  exact (proj1 (combine_split 0x0001 0x1234 0 0 ltac:(lia) ltac:(lia))).
Defined.

Lemma bit_set_low_bits (n raw bit : Z) :
  0 <= bit < n -> bit_set (low_bits n raw) bit = bit_set raw bit.
Proof.
  intros Hb. rewrite !bit_set_testbit by lia. unfold low_bits.
  rewrite Z.land_spec, Z.ones_spec_low by lia. apply andb_true_r.
Qed.

Lemma active_bits_low_bits (n raw : Z) (bit_definitions : list (Z * string)) :
  Forall (fun entry => 0 <= fst entry < n) bit_definitions ->
  active_bits (low_bits n raw) bit_definitions = active_bits raw bit_definitions.
Proof.
  induction 1 as [|[bit description] rest Hbit _ IH]; [reflexivity|].
  cbn [active_bits fst] in *. rewrite bit_set_low_bits, IH by exact Hbit.
  reflexivity.
Qed.

Lemma format_bitfield_low_bits (n raw : Z) (bit_definitions : list (Z * string)) :
  Forall (fun entry => 0 <= fst entry < n) bit_definitions ->
  _format_bitfield (low_bits n raw) bit_definitions
  = _format_bitfield raw bit_definitions.
Proof.
  intros H. unfold _format_bitfield. now rewrite active_bits_low_bits.
Qed.

Lemma forall_below (n : nat) (P : Z -> bool) :
  forallb P (map Z.of_nat (seq 0 n)) = true ->
  forall r, 0 <= r < Z.of_nat n -> P r = true.
Proof.
  intros Hall r Hr. rewrite forallb_forall in Hall. apply Hall.
  apply in_map_iff. exists (Z.to_nat r). split; [lia|].
  apply in_seq. lia.
Qed.

Lemma low_bits_range (n raw : Z) : 0 <= n -> 0 <= low_bits n raw < 2 ^ n.
Proof.
  intros Hn. unfold low_bits. rewrite Z.land_ones by lia.
  apply Z.mod_pos_bound. apply Z.pow_pos_nonneg; lia.
Qed.

(** The text is "Normal" exactly when the bits of [mask] are clear, for a
    table of [n] bits, by running through the [2 ^ n] words. *)
Lemma normal_by_cases (n : nat) (mask : Z) (table : list (Z * string)) :
  Forall (fun entry => 0 <= fst entry < Z.of_nat n) table ->
  Z.land (Z.ones (Z.of_nat n)) mask = mask ->
  forallb (fun r => Bool.eqb (String.eqb (_format_bitfield r table) "Normal")
                             (Z.land r mask =? 0))
          (map Z.of_nat (seq 0 (2 ^ n))) = true ->
  forall raw,
    _format_bitfield raw table = "Normal"%string <-> Z.land raw mask = 0.
Proof.
  intros Htable Hmask Hall raw.
  rewrite <- (format_bitfield_low_bits (Z.of_nat n) raw table Htable).
  assert (Hm : Z.land raw mask = Z.land (low_bits (Z.of_nat n) raw) mask).
  { unfold low_bits. rewrite <- Z.land_assoc, Hmask. reflexivity. }
  rewrite Hm.
  pose proof (low_bits_range (Z.of_nat n) raw ltac:(lia)) as Hr.
  assert (Hr' : 0 <= low_bits (Z.of_nat n) raw < Z.of_nat (2 ^ n)).
  { rewrite Nat2Z.inj_pow. exact Hr. }
  pose proof (forall_below _ _ Hall _ Hr') as Hcase. cbv beta in Hcase.
  apply Bool.eqb_prop in Hcase.
  rewrite <- String.eqb_eq, <- Z.eqb_eq, Hcase. reflexivity.
Qed.

(** X14. Which status words read "Normal". Bits above a status table are
    ignored. The charging and load status read "Normal" exactly when every
    bit of the table (bits 0 to 6, bits 0 to 7) is clear. The battery
    status reads "Normal" exactly when bits 1 to 8 are clear: bit 0 is
    itself labelled "Normal", so the words 0 and 1 give the same text. *)
Theorem status_normal (raw : Z) :
  (_format_bitfield raw BATTERY_STATUS_BITS = "Normal"%string
   <-> Z.land raw 0x1FE = 0)
  /\ (_format_bitfield raw CHARGING_STATUS_BITS = "Normal"%string
      <-> Z.land raw 0x7F = 0)
  /\ (_format_bitfield raw LOAD_STATUS_BITS = "Normal"%string
      <-> Z.land raw 0xFF = 0)
  /\ _format_bitfield (Z.land raw 0x1FF) BATTERY_STATUS_BITS
     = _format_bitfield raw BATTERY_STATUS_BITS
  /\ _format_bitfield (Z.land raw 0x7F) CHARGING_STATUS_BITS
     = _format_bitfield raw CHARGING_STATUS_BITS
  /\ _format_bitfield (Z.land raw 0xFF) LOAD_STATUS_BITS
     = _format_bitfield raw LOAD_STATUS_BITS.
Proof.
  assert (Hb : Forall (fun entry : Z * string => 0 <= fst entry < Z.of_nat 9)
                      BATTERY_STATUS_BITS)
    by (repeat constructor; simpl; lia).
  assert (Hc : Forall (fun entry : Z * string => 0 <= fst entry < Z.of_nat 7)
                      CHARGING_STATUS_BITS)
    by (repeat constructor; simpl; lia).
  assert (Hl : Forall (fun entry : Z * string => 0 <= fst entry < Z.of_nat 8)
                      LOAD_STATUS_BITS)
    by (repeat constructor; simpl; lia).
  split; [apply (normal_by_cases 9); [exact Hb | reflexivity | vm_compute; reflexivity]|].
  split; [apply (normal_by_cases 7); [exact Hc | reflexivity | vm_compute; reflexivity]|].
  split; [apply (normal_by_cases 8); [exact Hl | reflexivity | vm_compute; reflexivity]|].
  split; [exact (format_bitfield_low_bits 9 raw _ Hb)|].
  split; [exact (format_bitfield_low_bits 7 raw _ Hc)
         |exact (format_bitfield_low_bits 8 raw _ Hl)].
Qed.

(** X15. A sensor that is available has a state. [native_value] is [None]
    exactly when the coordinator has no data or the data lacks the sensor's
    address (an empty dictionary included); so an available entity never
    reports [None], and after a successful update an unavailable one
    always does. *)
Theorem available_has_state (last_update_success : bool) (sensor_key : string)
    (cfg : sensor_config) (data : option (gmap Z Z)) :
  (native_value sensor_key cfg data = Return None
   <-> match data with
       | Some d => d !! cfg_address cfg = None
       | None => True
       end)
  /\ (available last_update_success cfg data = true ->
      native_value sensor_key cfg data <> Return None)
  /\ (last_update_success = true ->
      available last_update_success cfg data = false ->
      native_value sensor_key cfg data = Return None)
  /\ native_value sensor_key cfg (Some ∅) = Return None.
Proof.
  assert (Hiff : native_value sensor_key cfg data = Return None
                 <-> match data with
                     | Some d => d !! cfg_address cfg = None
                     | None => True
                     end).
  { destruct data as [d|]; [|split; reflexivity].
    destruct (d !! cfg_address cfg) as [raw|] eqn:Hraw.
    - rewrite (native_value_decode _ _ _ _ Hraw).
      destruct (decode _ _ _); split; discriminate.
    - split; [reflexivity|]. intros _. unfold native_value.
      destruct (decide (d = ∅)); [reflexivity|]. rewrite Hraw. reflexivity. }
  split; [exact Hiff|]. split; [|split].
  - intros Hav Hnone. apply Hiff in Hnone. unfold available in Hav.
    apply andb_true_iff in Hav as [_ Hav].
    destruct data as [d|]; [|discriminate].
    apply bool_decide_eq_true in Hav. rewrite Hnone in Hav.
    destruct Hav as [x Hx]. discriminate.
  - intros -> Hav. apply Hiff. unfold available in Hav. cbn [andb] in Hav.
    destruct data as [d|]; [|exact I].
    apply bool_decide_eq_false in Hav.
    destruct (d !! cfg_address cfg) eqn:E; [|reflexivity].
    exfalso. apply Hav. eauto.
  - reflexivity.
Qed.

(* ---------------------------------------------------------------------- *)
(** ** The Home Assistant poll *)

Lemma ha_read_registers_world (c : client) (fc start_addr count : Z) (w : world) :
  connected c = true ->
  exists result,
    TracerModbusClient.read_registers c fc start_addr count w
    = (Return result,
       match create_modbus_command (slave_id c) fc start_addr count with
       | Some cmd => World (sent w ++ [cmd]) (tl (replies w)) (opens w) (answers w)
       | None => w
       end).
Proof.
  intros Hc. unfold TracerModbusClient.read_registers. rewrite Hc. cbn [negb].
  destruct (create_modbus_command _ _ _ _) as [cmd|]; [|eexists; reflexivity].
  cbv [bind exchange ret].
  destruct (hd [] (replies w)) as [|b reply]; [eexists; reflexivity|].
  destruct (TracerModbusClient.parse_modbus_response (b :: reply));
    eexists; reflexivity.
Qed.

Lemma ha_read_blocks_world (c : client) (is_holding : bool)
    (blocks : list (Z * Z)) (data : gmap Z Z) (w : world) :
  connected c = true ->
  let frames :=
    omap (fun block => create_modbus_command (slave_id c)
                         (if is_holding then 0x03 else 0x04)
                         (fst block) (snd block)) blocks in
  exists result,
    TracerIntegration.read_blocks c blocks is_holding data w
    = (Return result,
       World (sent w ++ frames) (skipn (length frames) (replies w))
             (opens w) (answers w)).
Proof.
  intros Hc. revert data w.
  induction blocks as [|[start_addr count] rest IH]; intros data w.
  - cbn. rewrite app_nil_r. destruct w. eexists. reflexivity.
  - cbn [TracerIntegration.read_blocks omap list_omap fst snd].
    unfold TracerModbusClient.read_register_block,
      TracerModbusClient.read_holding_registers,
      TracerModbusClient.read_input_registers.
    assert (Hrd : exists result,
              (if is_holding
               then TracerModbusClient.read_registers c 3 start_addr count
               else TracerModbusClient.read_registers c 4 start_addr count) w
              = (Return result,
                 match create_modbus_command (slave_id c)
                         (if is_holding then 3 else 4) start_addr count with
                 | Some cmd => World (sent w ++ [cmd]) (tl (replies w))
                                     (opens w) (answers w)
                 | None => w
                 end)).
    { destruct is_holding; apply ha_read_registers_world, Hc. }
    destruct Hrd as [values Hrd].
    unfold bind at 1. unfold bind at 1. rewrite Hrd. unfold ret at 1.
    destruct (create_modbus_command (slave_id c) (if is_holding then 3 else 4)
                start_addr count) as [cmd|].
    + match goal with
      | |- context [TracerIntegration.read_blocks c rest is_holding ?d ?w'] =>
          destruct (IH d w') as [result Hres]; rewrite Hres
      end.
      exists result. cbn [sent replies opens answers length].
      rewrite <- app_assoc. cbn [app]. f_equal. f_equal.
      destruct (replies w); [now rewrite skipn_nil | reflexivity].
    + match goal with
      | |- context [TracerIntegration.read_blocks c rest is_holding ?d ?w'] =>
          destruct (IH d w') as [result Hres]; rewrite Hres
      end.
      exists result. reflexivity.
Qed.

Lemma create_modbus_command_read_frame (sid fc start_addr count : Z) (cmd : list byte) :
  fc = 0x03 \/ fc = 0x04 ->
  create_modbus_command sid fc start_addr count = Some cmd ->
  is_read_frame cmd = true /\ is_write_frame cmd = false.
Proof.
  intros Hfc. unfold create_modbus_command. rewrite pack_BBHH_eq.
  destruct (_ && _); [|discriminate]. rewrite with_crc_Some.
  intros E. injection E as <-.
  destruct Hfc as [-> | ->]; split; reflexivity.
Qed.

Lemma create_modbus_command_fits (sid fc start_addr count : Z) :
  in_range 0 255 fc = true ->
  in_range 0 65535 start_addr = true ->
  in_range 0 65535 count = true ->
  create_modbus_command sid fc start_addr count
  = if in_range 0 255 sid
    then Some (([byte_of_Z sid; byte_of_Z fc] ++ be16 start_addr ++ be16 count)
                 ++ crc16_reference
                      ([byte_of_Z sid; byte_of_Z fc] ++ be16 start_addr ++ be16 count))
    else None.
Proof.
  intros Hfc Ha Hn. unfold create_modbus_command.
  rewrite pack_BBHH_eq, Hfc, Ha, Hn, !andb_true_r.
  destruct (in_range 0 255 sid); [apply with_crc_Some | reflexivity].
Qed.

Lemma fetch_requests_shape (sid : Z) :
  Forall (fun frame => is_read_frame frame = true /\ is_write_frame frame = false)
         (fetch_requests sid)
  /\ length (fetch_requests sid) = if in_range 0 255 sid then 6%nat else 0%nat.
Proof.
  unfold fetch_requests, TracerIntegration.realtime_blocks,
    TracerIntegration.config_blocks.
  cbn [omap list_omap fst snd].
  split.
  - apply Forall_app. split.
    + repeat match goal with
             | |- context [create_modbus_command ?s ?f ?a ?n] =>
                 let E := fresh "E" in
                 destruct (create_modbus_command s f a n) eqn:E;
                 [apply create_modbus_command_read_frame in E; [|auto]|]
             end; repeat constructor; tauto.
    + repeat match goal with
             | |- context [create_modbus_command ?s ?f ?a ?n] =>
                 let E := fresh "E" in
                 destruct (create_modbus_command s f a n) eqn:E;
                 [apply create_modbus_command_read_frame in E; [|auto]|]
             end; repeat constructor; tauto.
  - rewrite !create_modbus_command_fits by reflexivity.
    destruct (in_range 0 255 sid); reflexivity.
Qed.

(** X16. A port that does not open gives an empty reading, not a failure:
    when the client is not connected and [serial.Serial] fails,
    [_fetch_data] returns the empty dictionary without raising and without
    sending a single byte. *)
Theorem fetch_data_port_closed (c : client) (w : world) :
  connected c = false ->
  hd false (opens w) = false ->
  fst (TracerIntegration._fetch_data c w) = Return ∅
  /\ sent (snd (TracerIntegration._fetch_data c w)) = sent w
  /\ replies (snd (TracerIntegration._fetch_data c w)) = replies w.
Proof.
  intros Hc Hport.
  unfold TracerIntegration._fetch_data, TracerIntegration.connect.
  cbv [bind open_port ret]. rewrite Hport. cbn [fst].
  unfold TracerIntegration.realtime_blocks, TracerIntegration.config_blocks,
    TracerIntegration.read_blocks, TracerModbusClient.read_register_block,
    TracerModbusClient.read_input_registers,
    TracerModbusClient.read_holding_registers,
    TracerModbusClient.read_registers.
  rewrite Hc. cbv [negb bind ret block_of_values]. cbn [fst snd sent replies].
  repeat split.
Qed.

Lemma fetch_data_port_closed_witness :
  fst (TracerIntegration._fetch_data (Client 1 false)
         (World [] [[x01; x04; x02; x09; x98; xbe; xca]] [false] []))
  = Return ∅.
Proof.
  exact (proj1 (fetch_data_port_closed (Client 1 false)
                  (World [] [[x01; x04; x02; x09; x98; xbe; xca]] [false] [])
                  eq_refl eq_refl)).
Defined.

(** X17. A poll only reads, and reads each block once. When the port
    opens, [_fetch_data] does not raise and sends exactly the read requests
    of its blocks in order, input blocks first, consuming one reply per
    request whatever the replies are: six requests when the slave id fits a
    byte, none otherwise. Every frame sent is a read request (function code
    3 or 4); no write request is ever among them. *)
Theorem fetch_data_requests (c : client) (w : world) :
  hd false (opens w) = true ->
  let w' := snd (TracerIntegration._fetch_data c w) in
  let frames := fetch_requests (slave_id c) in
  (exists data, fst (TracerIntegration._fetch_data c w) = Return data)
  /\ sent w' = sent w ++ frames
  /\ replies w' = skipn (length frames) (replies w)
  /\ length frames = (if in_range 0 255 (slave_id c) then 6%nat else 0%nat)
  /\ Forall (fun frame => is_read_frame frame = true /\ is_write_frame frame = false)
            frames.
Proof.
  intros Hport w' frames.
  destruct (fetch_requests_shape (slave_id c)) as [Hshape Hlen].
  assert (Hrun : exists data,
            TracerIntegration._fetch_data c w
            = (Return data,
               World (sent w ++ frames) (skipn (length frames) (replies w))
                     (tl (opens w)) (answers w))).
  { unfold TracerIntegration._fetch_data, TracerIntegration.connect.
    cbv [bind open_port ret]. rewrite Hport. cbn [fst].
    destruct (ha_read_blocks_world (Client (slave_id c) true) false
                TracerIntegration.realtime_blocks ∅
                (World (sent w) (replies w) (tl (opens w)) (answers w)) eq_refl)
      as [data1 H1].
    rewrite H1.
    match goal with
    | |- context [TracerIntegration.read_blocks _ _ true data1 ?w1] =>
        destruct (ha_read_blocks_world (Client (slave_id c) true) true
                    TracerIntegration.config_blocks data1 w1 eq_refl)
          as [data2 H2]; rewrite H2
    end.
    exists data2. cbn [sent replies opens answers slave_id].
    unfold frames, fetch_requests.
    rewrite <- app_assoc, length_app, skipn_skipn, (Nat.add_comm (length _)).
    reflexivity. }
  destruct Hrun as [data Hrun]. unfold w'. rewrite Hrun. cbn [fst snd sent replies].
  split; [eauto|]. repeat split; assumption.
Qed.

Lemma fetch_data_requests_witness :
  map is_read_frame
    (sent (snd (TracerIntegration._fetch_data (Client 1 false)
                  (World [] [] [true] []))))
  = [true; true; true; true; true; true].
Proof.
  rewrite (proj1 (proj2 (fetch_data_requests (Client 1 false)
                           (World [] [] [true] []) eq_refl))).
  vm_compute. reflexivity.
Defined.

(* ---------------------------------------------------------------------- *)
(** ** The configuration flow *)

(** X18. What the configuration flow accepts. The connection check of
    [validate_input] never raises; it succeeds exactly when the port opens,
    the slave id fits a byte, and the reply to its one request, a read of
    input register [0x3104], is a read response of at least five bytes.
    Nothing is sent when the port does not open. *)
Theorem validate_connection_criterion (sid : Z) (w : world) :
  fst (TracerIntegration.validate_connection sid w)
  = Return (hd false (opens w) && in_range 0 255 sid
            && is_read_reply (hd [] (replies w)))
  /\ sent (snd (TracerIntegration.validate_connection sid w))
     = sent w ++ probe sid w.
Proof.
  unfold TracerIntegration.validate_connection, TracerIntegration.connect,
    TracerIntegration.test_connection, TracerModbusClient.read_input_registers,
    TracerModbusClient.read_registers, probe.
  cbv [try_except bind open_port ret]. cbn [fst snd].
  destruct (hd false (opens w)); cbn [fst snd connected negb slave_id andb].
  - rewrite probe_command_packs.
    destruct (in_range 0 255 sid); cbn [andb].
    + cbv [exchange]. cbn [replies sent fst snd].
      rewrite <- is_read_reply_parse.
      destruct (hd [] (replies w)) as [|b reply]; [split; reflexivity|].
      destruct (TracerModbusClient.parse_modbus_response (b :: reply));
        split; reflexivity.
    + cbn [sent]. rewrite app_nil_r. split; reflexivity.
  - cbn [sent]. rewrite app_nil_r. split; reflexivity.
Qed.

(* ---------------------------------------------------------------------- *)
(** ** Snapshot summaries *)

(** X19. What a summary holds. [get_summary] lists, in this order, an
    entry (value and unit) for each of the eight key parameters that has a
    reading, then [battery_status], then [charging_status]; a name without a
    reading is skipped, and no entry overwrites another. The
    [charging_status] entry is taken from the reading named
    [charging_equipment_status]: a reading named [charging_status] never
    appears in the summary. Each entry comes from the first reading of its
    name. *)
Theorem get_summary_entries {V : Type} (s : DeviceSnapshot V) :
  Snapshot.get_summary s
  = summary_key_entry s "pv_voltage" ++ summary_key_entry s "pv_current"
    ++ summary_key_entry s "battery_voltage" ++ summary_key_entry s "battery_current"
    ++ summary_key_entry s "load_voltage" ++ summary_key_entry s "load_current"
    ++ summary_key_entry s "battery_soc" ++ summary_key_entry s "battery_temp"
    ++ summary_status_entry s "battery_status" "battery_status"
    ++ summary_status_entry s "charging_status" "charging_equipment_status".
Proof.
  unfold Snapshot.get_summary, Snapshot.key_params, summary_key_entry,
    summary_status_entry.
  cbn [fold_left].
  destruct (Snapshot.get_by_name s "pv_voltage");
  destruct (Snapshot.get_by_name s "pv_current");
  destruct (Snapshot.get_by_name s "battery_voltage");
  destruct (Snapshot.get_by_name s "battery_current");
  destruct (Snapshot.get_by_name s "load_voltage");
  destruct (Snapshot.get_by_name s "load_current");
  destruct (Snapshot.get_by_name s "battery_soc");
  destruct (Snapshot.get_by_name s "battery_temp");
  destruct (Snapshot.get_by_name s "battery_status");
  destruct (Snapshot.get_by_name s "charging_equipment_status");
  reflexivity.
Qed.

(* ---------------------------------------------------------------------- *)
(** ** Reading everything in blocks *)

Lemma rtu_read_registers_world (c : client) (fc start_addr count : Z) (w : world) :
  connected c = true ->
  exists result,
    ModbusRTUClient.read_registers c fc start_addr count w
    = (Return result,
       match create_modbus_command (slave_id c) fc start_addr count with
       | Some cmd => World (sent w ++ [cmd]) (tl (replies w)) (opens w) (answers w)
       | None => w
       end).
Proof.
  intros Hc. unfold ModbusRTUClient.read_registers. rewrite Hc. cbn [negb].
  destruct (create_modbus_command _ _ _ _) as [cmd|]; [|eexists; reflexivity].
  cbv [bind exchange ret].
  destruct (hd [] (replies w)) as [|b reply]; [eexists; reflexivity|].
  destruct (ModbusRTUClient.parse_modbus_response (b :: reply)) as [p|];
    [destruct (ModbusRTUClient.is_error p)|]; eexists; reflexivity.
Qed.

Section ReadAllFacts.
Context {V : Type} {PD : ParameterDefinitions V}.

Lemma read_block_items_world (c : client) (start_addr count : Z)
    (is_holding : bool) (w : world) :
  connected c = true ->
  exists result,
    ReadAll.read_register_block_items c start_addr count is_holding w
    = (Return result,
       match create_modbus_command (slave_id c)
               (if is_holding then 0x03 else 0x04) start_addr count with
       | Some cmd => World (sent w ++ [cmd]) (tl (replies w)) (opens w) (answers w)
       | None => w
       end)
    /\ result <> Some [].
Proof.
  intros Hc. unfold ReadAll.read_register_block_items,
    ModbusRTUClient.read_holding_registers, ModbusRTUClient.read_input_registers.
  destruct is_holding;
    [destruct (rtu_read_registers_world c 3 start_addr count w Hc) as [values Hrd]
    |destruct (rtu_read_registers_world c 4 start_addr count w Hc) as [values Hrd]];
    unfold bind; rewrite Hrd; unfold ret;
    eexists; (split; [reflexivity|]);
    destruct values as [[|v vs]|]; discriminate.
Qed.

Lemma read_all_blocks_world (c : client) (category_filter : option string)
    (blocks : list (string * read_block)) (regs holds : list (Z * Z)) (w : world) :
  connected c = true ->
  exists rd' hd',
    ReadAll.read_all_blocks c category_filter blocks regs holds w
    = (Return (rd', hd'),
       World (sent w ++ block_requests (slave_id c) category_filter blocks)
             (skipn (length (block_requests (slave_id c) category_filter blocks))
                    (replies w))
             (opens w) (answers w)).
Proof.
  intros Hc. revert regs holds w.
  induction blocks as [|[name block] rest IH]; intros regs holds w.
  - cbn. rewrite app_nil_r. destruct w. eauto.
  - cbn [ReadAll.read_all_blocks block_requests omap list_omap snd].
    fold (block_requests (slave_id c) category_filter rest).
    destruct (ReadAll.block_selected category_filter block); cbn [negb].
    + destruct (rb_function_code block =? 4).
      * destruct (read_block_items_world c (rb_start_address block)
                    (rb_count block) false w Hc) as (result & Hrd & _).
        unfold bind at 1. rewrite Hrd.
        match goal with
        | |- context [ReadAll.read_all_blocks c category_filter rest ?d ?h ?w'] =>
            destruct (IH d h w') as (rd' & hd' & Hres); rewrite Hres
        end.
        exists rd', hd'.
        destruct (create_modbus_command _ _ _ _) as [cmd|];
          cbn [sent replies opens answers length]; [|reflexivity].
        rewrite <- app_assoc. cbn [app]. f_equal. f_equal.
        destruct (replies w); [now rewrite skipn_nil | reflexivity].
      * destruct (read_block_items_world c (rb_start_address block)
                    (rb_count block) true w Hc) as (result & Hrd & _).
        unfold bind at 1. rewrite Hrd.
        match goal with
        | |- context [ReadAll.read_all_blocks c category_filter rest ?d ?h ?w'] =>
            destruct (IH d h w') as (rd' & hd' & Hres); rewrite Hres
        end.
        exists rd', hd'.
        destruct (create_modbus_command _ _ _ _) as [cmd|];
          cbn [sent replies opens answers length]; [|reflexivity].
        rewrite <- app_assoc. cbn [app]. f_equal. f_equal.
        destruct (replies w); [now rewrite skipn_nil | reflexivity].
    + apply IH.
Qed.

Lemma block_requests_read_frames (sid : Z) (category_filter : option string)
    (blocks : list (string * read_block)) :
  Forall (fun frame => is_read_frame frame = true /\ is_write_frame frame = false)
         (block_requests sid category_filter blocks).
Proof.
  induction blocks as [|[name block] rest IH]; [constructor|].
  cbn [block_requests omap list_omap snd].
  fold (block_requests sid category_filter rest).
  destruct (ReadAll.block_selected category_filter block); [|exact IH].
  destruct (create_modbus_command _ _ _ _) as [cmd|] eqn:E; [|exact IH].
  constructor; [|exact IH].
  apply (create_modbus_command_read_frame _ _ _ _ _) in E; [exact E|].
  destruct (rb_function_code block =? 4); auto.
Qed.

(** X20. What [_read_all_efficient] sends. On an open connection it does
    not raise and sends exactly one read request per selected block, in the
    order of the table, consuming one reply each, whatever the replies:
    never a write request. The category filter only tells [config] from
    everything else: with [config] the two holding blocks are read, with
    any other non-empty filter all five input blocks, the same for [pv]
    as for [battery], and with no filter all seven. *)
Theorem read_all_efficient_requests (c : client) (category_filter : option string)
    (w : world) (clk : clock) :
  connected c = true ->
  let '(result, w', _) := ReadAll._read_all_efficient c category_filter w clk in
  let frames := efficient_requests (slave_id c) category_filter in
  (exists r, result = Return r)
  /\ sent w' = sent w ++ frames
  /\ replies w' = skipn (length frames) (replies w)
  /\ Forall (fun frame => is_read_frame frame = true /\ is_write_frame frame = false)
            frames
  /\ (forall filter : string,
        filter <> EmptyString -> filter <> "config"%string ->
        efficient_requests (slave_id c) (Some filter)
        = efficient_requests (slave_id c) (Some "pv"%string))
  /\ efficient_requests (slave_id c) None
     = efficient_requests (slave_id c) (Some "pv"%string)
       ++ efficient_requests (slave_id c) (Some "config"%string)
  /\ efficient_requests (slave_id c) (Some EmptyString)
     = efficient_requests (slave_id c) None
  /\ map frame_function_code (efficient_requests (slave_id c) (Some "pv"%string))
     = (if in_range 0 255 (slave_id c)
        then [Some 4; Some 4; Some 4; Some 4; Some 4] else [])
  /\ map frame_function_code (efficient_requests (slave_id c) (Some "config"%string))
     = (if in_range 0 255 (slave_id c) then [Some 3; Some 3] else []).
Proof.
  intros Hc. unfold ReadAll._read_all_efficient.
  destruct (read_all_blocks_world c category_filter get_efficient_read_blocks
              [] [] w Hc) as (rd & hd & Hrun).
  rewrite Hrun. fold (efficient_requests (slave_id c) category_filter).
  assert (Hrest :
    Forall (fun frame => is_read_frame frame = true /\ is_write_frame frame = false)
           (efficient_requests (slave_id c) category_filter)
    /\ (forall filter : string,
          filter <> EmptyString -> filter <> "config"%string ->
          efficient_requests (slave_id c) (Some filter)
          = efficient_requests (slave_id c) (Some "pv"%string))
    /\ efficient_requests (slave_id c) None
       = efficient_requests (slave_id c) (Some "pv"%string)
         ++ efficient_requests (slave_id c) (Some "config"%string)
    /\ efficient_requests (slave_id c) (Some EmptyString)
       = efficient_requests (slave_id c) None
    /\ map frame_function_code (efficient_requests (slave_id c) (Some "pv"%string))
       = (if in_range 0 255 (slave_id c)
          then [Some 4; Some 4; Some 4; Some 4; Some 4] else [])
    /\ map frame_function_code
         (efficient_requests (slave_id c) (Some "config"%string))
       = (if in_range 0 255 (slave_id c) then [Some 3; Some 3] else [])).
  { split; [apply block_requests_read_frames|].
    split.
    { intros filter Hne Hnc.
      unfold efficient_requests, block_requests, ReadAll.block_selected.
      destruct filter as [|a rest]; [contradiction|].
      apply String.eqb_neq in Hnc. rewrite Hnc. reflexivity. }
    unfold efficient_requests, block_requests, get_efficient_read_blocks,
      ReadAll.block_selected.
    cbn [omap list_omap snd rb_function_code rb_start_address rb_count
         String.eqb Ascii.eqb Bool.eqb Z.eqb Pos.eqb negb].
    rewrite !create_modbus_command_fits by reflexivity.
    destruct (in_range 0 255 (slave_id c)); repeat split. }
  destruct rd as [|r rd]; [destruct hd as [|h hd]|];
    try destruct (DeviceDataManager.create_device_snapshot _ _ clk);
    cbn [sent replies]; (split; [eauto|]); (split; [reflexivity|]);
    (split; [reflexivity | exact Hrest]).
Qed.

End ReadAllFacts.

Section ReadAllOutcome.
Context {V : Type} {PD : ParameterDefinitions V}.

Lemma read_all_blocks_silent (c : client) (category_filter : option string)
    (blocks : list (string * read_block)) (regs holds : list (Z * Z)) (w : world) :
  connected c = true ->
  replies w = [] ->
  exists w',
    ReadAll.read_all_blocks c category_filter blocks regs holds w = (Return (regs, holds), w')
    /\ replies w' = [].
Proof.
  intros Hc. revert w.
  induction blocks as [|[name block] rest IH]; intros w Hw.
  - eexists. split; [reflexivity | exact Hw].
  - cbn [ReadAll.read_all_blocks].
    destruct (ReadAll.block_selected category_filter block); cbn [negb];
      [|apply IH, Hw].
    assert (Hread : forall is_holding, exists w1,
              ReadAll.read_register_block_items c (rb_start_address block)
                (rb_count block) is_holding w = (Return None, w1)
              /\ replies w1 = []).
    { intros is_holding.
      unfold ReadAll.read_register_block_items,
        ModbusRTUClient.read_holding_registers,
        ModbusRTUClient.read_input_registers, ModbusRTUClient.read_registers.
      rewrite Hc. cbn [negb].
      destruct is_holding;
        destruct (create_modbus_command _ _ _ _) as [cmd|];
        cbv [bind exchange ret]; rewrite ?Hw; cbn [hd tl];
        eexists; (split; [reflexivity|]); first [exact Hw | reflexivity]. }
    destruct (rb_function_code block =? 4).
    + destruct (Hread false) as (w1 & Hrd & Hw1).
      unfold bind at 1. rewrite Hrd. apply IH, Hw1.
    + destruct (Hread true) as (w1 & Hrd & Hw1).
      unfold bind at 1. rewrite Hrd. apply IH, Hw1.
Qed.

(** X21. What [_read_all_efficient] returns. A snapshot it returns always
    holds at least one reading: when no block yields a register the result
    is [None]. That is what a silent device gives, with the clock left
    untouched. On a closed connection the first read raises
    [ConnectionError] before anything is sent, whatever the filter. *)
Theorem read_all_efficient_outcome (c : client) (category_filter : option string)
    (w : world) (clk : clock) :
  (forall s,
     fst (fst (ReadAll._read_all_efficient c category_filter w clk))
     = Return (Some s) ->
     ds_parameters s <> [])
  /\ (connected c = true -> replies w = [] ->
      fst (fst (ReadAll._read_all_efficient c category_filter w clk)) = Return None
      /\ snd (ReadAll._read_all_efficient c category_filter w clk) = clk)
  /\ (connected c = false ->
      ReadAll._read_all_efficient c category_filter w clk
      = (Raise ConnectionError, w, clk)).
Proof.
  split; [|split].
  - intros s. unfold ReadAll._read_all_efficient.
    destruct (ReadAll.read_all_blocks _ _ _ _ _ _) as [[[rd hd]|e] w'];
      [|discriminate].
    assert (Hlen : forall rd hd, (0 < length rd + length hd)%nat ->
              forall s',
                fst (DeviceDataManager.create_device_snapshot rd (Some hd) clk) = s' ->
                ds_parameters s' <> []).
    { intros rd0 hd0 Hpos s' <-.
      destruct (snapshot_shape rd0 (Some hd0) clk) as (Hu & _).
      intros E. apply (f_equal (@length _)) in Hu.
      rewrite E, length_map, length_app, !length_map in Hu.
      cbn [default] in Hu. simpl in Hu. lia. }
    destruct rd as [|r rd]; [destruct hd as [|h hd]; [discriminate|]|];
      destruct (DeviceDataManager.create_device_snapshot _ _ clk) as [s' clk'] eqn:Es;
      cbn [fst]; intros E; injection E as <-;
      (eapply Hlen; [|rewrite Es; reflexivity]); simpl; lia.
  - intros Hc Hw. unfold ReadAll._read_all_efficient.
    destruct (read_all_blocks_silent c category_filter get_efficient_read_blocks
                [] [] w Hc Hw) as (w' & Hrun & _).
    rewrite Hrun. split; reflexivity.
  - intros Hc. unfold ReadAll._read_all_efficient, get_efficient_read_blocks.
    assert (Hraise : forall start_addr count is_holding,
              ReadAll.read_register_block_items c start_addr count is_holding w
              = (Raise ConnectionError, w)).
    { intros start_addr count is_holding.
      unfold ReadAll.read_register_block_items,
        ModbusRTUClient.read_holding_registers,
        ModbusRTUClient.read_input_registers, ModbusRTUClient.read_registers.
      rewrite Hc. destruct is_holding; reflexivity. }
    destruct category_filter as [[|a filter]|];
      cbn [ReadAll.read_all_blocks ReadAll.block_selected rb_function_code
           rb_start_address rb_count Z.eqb Pos.eqb negb];
      try (unfold bind at 1; rewrite Hraise; reflexivity).
    destruct (String.eqb (String a filter) "config");
      cbn [Z.eqb Pos.eqb negb];
      unfold bind at 1; rewrite Hraise; reflexivity.
Qed.

End ReadAllOutcome.

Lemma read_all_efficient_requests_witness :
  map frame_function_code
    (sent (snd (fst (ReadAll._read_all_efficient (PD := sample_definitions)
                       (Client 1 true) (Some "config"%string)
                       (World [] [] [] []) []))))
  = [Some 3; Some 3].
Proof.
  pose proof (read_all_efficient_requests (PD := sample_definitions)
                (Client 1 true) (Some "config"%string) (World [] [] [] []) []
                eq_refl) as H.
  destruct (ReadAll._read_all_efficient (Client 1 true) (Some "config"%string)
              (World [] [] [] []) []) as [[result w'] clk'].
  destruct H as (_ & Hsent & _). cbn [fst snd]. rewrite Hsent.
  vm_compute. reflexivity.
Defined.

(* ---------------------------------------------------------------------- *)
(** ** The write command, continued *)

Lemma count_writes_app (a b : list (list byte)) :
  count_writes (a ++ b) = (count_writes a + count_writes b)%nat.
Proof. unfold count_writes. now rewrite List.filter_app, length_app. Qed.

Lemma count_writes_read (sid fc start_addr count : Z) :
  fc = 0x03 \/ fc = 0x04 ->
  count_writes (match create_modbus_command sid fc start_addr count with
                | Some cmd => [cmd]
                | None => []
                end) = 0%nat.
Proof.
  intros Hfc. destruct (create_modbus_command _ _ _ _) as [cmd|] eqn:E;
    [|reflexivity].
  apply create_modbus_command_read_frame in E as [_ E]; [|exact Hfc].
  unfold count_writes. cbn [List.filter]. rewrite E. reflexivity.
Qed.

Lemma count_writes_probe (sid : Z) (w : world) : count_writes (probe sid w) = 0%nat.
Proof.
  unfold probe. destruct (hd false (opens w)); [|reflexivity].
  apply count_writes_read. auto.
Qed.

(** A single read adds at most one frame, never a write request. *)
Lemma read_single_register_frames (c : client) (address : Z) (is_holding : bool)
    (w : world) :
  exists r w' frames,
    ModbusRTUClient.read_single_register c address is_holding w = (r, w')
    /\ sent w' = sent w ++ frames
    /\ count_writes frames = 0%nat
    /\ answers w' = answers w.
Proof.
  unfold ModbusRTUClient.read_single_register,
    ModbusRTUClient.read_holding_registers, ModbusRTUClient.read_input_registers.
  destruct (connected c) eqn:Hc.
  - assert (Hrd : exists result,
              (if is_holding then ModbusRTUClient.read_registers c 3 address 1
               else ModbusRTUClient.read_registers c 4 address 1) w
              = (Return result,
                 match create_modbus_command (slave_id c)
                         (if is_holding then 3 else 4) address 1 with
                 | Some cmd => World (sent w ++ [cmd]) (tl (replies w))
                                     (opens w) (answers w)
                 | None => w
                 end)).
    { destruct is_holding; apply rtu_read_registers_world, Hc. }
    destruct Hrd as [result Hrd]. unfold bind. rewrite Hrd.
    exists (Return (match result with Some (v :: _) => Some v | _ => None end)).
    eexists.
    exists (match create_modbus_command (slave_id c)
                    (if is_holding then 3 else 4) address 1 with
            | Some cmd => [cmd]
            | None => []
            end).
    split; [destruct result as [[|v vs]|]; reflexivity|].
    split; [|split].
    + destruct (create_modbus_command _ _ _ _); cbn [sent];
        [reflexivity | now rewrite app_nil_r].
    + apply count_writes_read. destruct is_holding; auto.
    + destruct (create_modbus_command _ _ _ _); reflexivity.
  - exists (Raise ConnectionError), w, [].
    split; [|rewrite app_nil_r; repeat split].
    unfold bind, ModbusRTUClient.read_registers. rewrite Hc.
    destruct is_holding; reflexivity.
Qed.

Lemma write_single_register_frames (c : client) (address value : Z) (w : world) :
  exists r w' frames,
    ModbusRTUClient.write_single_register c address value w = (r, w')
    /\ sent w' = sent w ++ frames
    /\ (count_writes frames <= 1)%nat
    /\ answers w' = answers w.
Proof.
  unfold ModbusRTUClient.write_single_register.
  destruct (connected c); cbn [negb].
  - destruct (write_single_command (slave_id c) address value) as [cmd|].
    + rewrite write_exchange_result. do 2 eexists. exists [cmd].
      split; [reflexivity|]. cbn [snd exchange sent answers].
      split; [reflexivity|]. split; [|reflexivity].
      unfold count_writes. cbn [List.filter].
      destruct (is_write_frame cmd); simpl; lia.
    + do 2 eexists. exists []. split; [reflexivity|].
      rewrite app_nil_r. repeat split. unfold count_writes. simpl. lia.
  - do 2 eexists. exists []. split; [reflexivity|].
    rewrite app_nil_r. repeat split. unfold count_writes. simpl. lia.
Qed.

Section WriteCommandMore.
Context {WP : WritableParameters}.
Import SolarChargerCLI.

Lemma connect_device_world (sid : Z) (w : world) :
  exists c ok w',
    connect_device sid w = (Return (c, ok), w')
    /\ sent w' = sent w ++ probe sid w
    /\ answers w' = answers w
    /\ (ok = true -> c = Client sid true).
Proof.
  cbv [connect_device probe bind ModbusRTUClient.connect open_port ret
       ModbusRTUClient.test_connection try_except
       ModbusRTUClient.read_input_registers
       ModbusRTUClient.read_registers exchange connected negb slave_id
       sent replies opens answers].
  destruct w as [s r o a].
  destruct (hd false o).
  - destruct (create_modbus_command sid 4 12548 1) as [cmd|].
    + destruct (hd [] r) as [|b response].
      * do 3 eexists. repeat split.
      * destruct (ModbusRTUClient.parse_modbus_response (b :: response)) as [p|].
        -- destruct (ModbusRTUClient.is_error p); do 3 eexists; repeat split.
        -- do 3 eexists. repeat split.
    + do 3 eexists. split; [reflexivity|]. rewrite app_nil_r. repeat split.
  - do 3 eexists. split; [reflexivity|]. rewrite app_nil_r.
    repeat split. discriminate.
Qed.

Lemma write_and_verify_frames (c : client) (param : WritableParameter)
    (raw_value : Z) (w : world) :
  exists r w' frames,
    write_and_verify c param raw_value w = (r, w')
    /\ sent w' = sent w ++ frames
    /\ (count_writes frames <= 1)%nat.
Proof.
  unfold write_and_verify.
  destruct (read_single_register_frames c (wp_address param) true w)
    as (r1 & w1 & f1 & H1 & Hs1 & Hc1 & _).
  unfold bind at 1. rewrite H1.
  destruct r1 as [current_raw|e];
    [|exists (Raise e), w1, f1; repeat split; [exact Hs1 | lia]].
  destruct (write_single_register_frames c (wp_address param) raw_value w1)
    as (r2 & w2 & f2 & H2 & Hs2 & Hc2 & _).
  unfold bind at 1. rewrite H2.
  destruct r2 as [success|e].
  - destruct success.
    + destruct (read_single_register_frames c (wp_address param) true w2)
        as (r3 & w3 & f3 & H3 & Hs3 & Hc3 & _).
      unfold bind at 1. rewrite H3.
      exists (match r3 with Return _ => Return 0 | Raise e => Raise e end), w3,
             (f1 ++ f2 ++ f3).
      split; [destruct r3; reflexivity|].
      split; [rewrite Hs3, Hs2, Hs1, <- !app_assoc; reflexivity|].
      rewrite !count_writes_app. lia.
    + exists (Return 1), w2, (f1 ++ f2).
      split; [reflexivity|].
      split; [rewrite Hs2, Hs1, <- !app_assoc; reflexivity|].
      rewrite count_writes_app. lia.
  - exists (Raise e), w2, (f1 ++ f2).
    split; [reflexivity|].
    split; [rewrite Hs2, Hs1, <- !app_assoc; reflexivity|].
    rewrite count_writes_app. lia.
Qed.

(** X22. When [cmd_write] writes. Whatever the arguments, the device and
    the user do, [cmd_write] sends at most one write request. It sends none
    unless the parameter is writable, its value passes validation,
    [--dry-run] is off, and either [--force] is given or the answer to the
    prompt is "yes" or "y" in any letter case. *)
Theorem cmd_write_writes_once (args : write_args) (w : world) :
  exists frames,
    sent (snd (cmd_write args w)) = sent w ++ frames
    /\ (count_writes frames <= 1)%nat
    /\ (count_writes frames = 1%nat ->
        exists param error_msg raw_value,
          get_writable_parameter (arg_parameter args) = Some param
          /\ validate_value param (arg_value args) = (true, error_msg, raw_value)
          /\ arg_dry_run args = false
          /\ (arg_force args = true
              \/ lower (hd EmptyString (answers w)) = "yes"%string
              \/ lower (hd EmptyString (answers w)) = "y"%string)).
Proof.
  destruct (connect_device_world (arg_slave_id args) w)
    as (c & ok & w1 & Hc & Hs1 & Ha1 & _).
  pose proof (count_writes_probe (arg_slave_id args) w) as Hp.
  unfold cmd_write, bind at 1. rewrite Hc.
  destruct ok; cbn [negb];
    [|exists (probe (arg_slave_id args) w); cbn [snd ret];
      split; [exact Hs1|]; split; lia].
  unfold try_except, cmd_write_body, bind at 1, ModbusRTUClient.connect,
    bind at 1, open_port, ret at 1.
  set (w2 := World (sent w1) (replies w1) (tl (opens w1)) (answers w1)).
  assert (Hnone : exists frames,
            sent w2 = sent w ++ frames /\ (count_writes frames <= 1)%nat
            /\ (count_writes frames = 1%nat -> False)).
  { exists (probe (arg_slave_id args) w). split; [exact Hs1|]. split; lia. }
  assert (Hdone : forall (r : outcome Z) ,
            exists frames,
              sent (snd (match r with
                         | Return a => (Return a, w2)
                         | Raise _ => (Return 1, w2)
                         end)) = sent w ++ frames
              /\ (count_writes frames <= 1)%nat
              /\ (count_writes frames = 1%nat -> False)).
  { intros r. destruct r; exact Hnone. }
  destruct (hd false (opens w1)); cbn [negb];
    [|destruct Hnone as (f & H1 & H2 & H3); exists f; cbn [snd raise];
      split; [exact H1|]; split; [exact H2 | intros H; destruct (H3 H)]].
  destruct (get_writable_parameter (arg_parameter args)) as [param|] eqn:Hparam;
    [|destruct Hnone as (f & H1 & H2 & H3); exists f; cbn [snd ret];
      split; [exact H1|]; split; [exact H2 | intros H; destruct (H3 H)]].
  destruct (validate_value param (arg_value args)) as [[is_valid error_msg] raw_value]
    eqn:Hvalid.
  destruct is_valid; cbn [negb];
    [|destruct Hnone as (f & H1 & H2 & H3); exists f; cbn [snd ret];
      split; [exact H1|]; split; [exact H2 | intros H; destruct (H3 H)]].
  destruct (arg_dry_run args) eqn:Hdry;
    [destruct Hnone as (f & H1 & H2 & H3); exists f; cbn [snd ret];
      split; [exact H1|]; split; [exact H2 | intros H; destruct (H3 H)]|].
  assert (Hwrite : forall w3, sent w3 = sent w2 ->
            arg_force args = true
            \/ lower (hd EmptyString (answers w)) = "yes"%string
            \/ lower (hd EmptyString (answers w)) = "y"%string ->
            exists frames,
              sent (snd (match write_and_verify
                                 (Client (slave_id c) true) param raw_value w3 with
                         | (Return a, w') => (Return a, w')
                         | (Raise _, w') => (Return 1, w')
                         end)) = sent w ++ frames
              /\ (count_writes frames <= 1)%nat
              /\ (count_writes frames = 1%nat ->
                  exists param0 error_msg0 raw_value0,
                    Some param = Some param0
                    /\ validate_value param0 (arg_value args)
                       = (true, error_msg0, raw_value0)
                    /\ false = false
                    /\ (arg_force args = true
                        \/ lower (hd EmptyString (answers w)) = "yes"%string
                        \/ lower (hd EmptyString (answers w)) = "y"%string))).
  { intros w3 Hs3 Hconf.
    destruct (write_and_verify_frames (Client (slave_id c) true) param raw_value w3)
      as (r & w' & f & Hwv & Hsw & Hcw).
    rewrite Hwv. exists (probe (arg_slave_id args) w ++ f).
    split.
    - assert (Hsnd : sent (snd (match r with
                                 | Return a => (Return a, w')
                                 | Raise _ => (Return 1, w')
                                 end)) = sent w') by (destruct r; reflexivity).
      destruct r; cbn [snd]; rewrite Hsw, Hs3; unfold w2; cbn [sent];
        rewrite Hs1, <- app_assoc; reflexivity.
    - rewrite count_writes_app. split; [lia|].
      intros _. exists param, error_msg, raw_value.
      split; [reflexivity|]. split; [exact Hvalid|]. split; [reflexivity|].
      exact Hconf. }
  destruct (arg_force args) eqn:Hforce; cbn [negb].
  - apply (Hwrite w2 eq_refl). auto.
  - unfold bind at 1, input.
    set (w3 := World (sent w2) (replies w2) (opens w2) (tl (answers w2))).
    assert (Hans : hd EmptyString (answers w2) = hd EmptyString (answers w)).
    { unfold w2. cbn [answers]. now rewrite Ha1. }
    rewrite Hans.
    destruct (String.eqb_spec (lower (hd EmptyString (answers w))) "yes") as [Hy|Hy].
    + cbn [orb negb]. apply (Hwrite w3 eq_refl). auto.
    + destruct (String.eqb_spec (lower (hd EmptyString (answers w))) "y") as [Hy'|Hy'].
      * cbn [orb negb]. apply (Hwrite w3 eq_refl). auto.
      * cbn [orb negb ret snd].
        destruct Hnone as (f & H1 & H2 & H3). exists f.
        split; [exact H1|]. split; [exact H2 | intros H; destruct (H3 H)].
Qed.

End WriteCommandMore.

(* ---------------------------------------------------------------------- *)
(** ** The exit status of a confirmed write *)

Lemma write_single_command_fits (sid address value : Z) :
  in_range 0 255 sid = true ->
  in_range 0 65535 address = true ->
  in_range 0 65535 value = true ->
  exists cmd, write_single_command sid address value = Some cmd.
Proof.
  intros Hs Ha Hv. unfold write_single_command.
  rewrite pack_BBHH_eq, Hs, Ha, Hv. change (in_range 0 255 6) with true.
  cbn [andb]. rewrite with_crc_Some. eexists. reflexivity.
Qed.

Lemma read_single_register_world (c : client) (address : Z) (w : world) :
  connected c = true ->
  in_range 0 255 (slave_id c) = true ->
  in_range 0 65535 address = true ->
  exists result cmd,
    ModbusRTUClient.read_single_register c address true w
    = (Return result,
       World (sent w ++ [cmd]) (tl (replies w)) (opens w) (answers w)).
Proof.
  intros Hc Hs Ha.
  unfold ModbusRTUClient.read_single_register,
    ModbusRTUClient.read_holding_registers.
  destruct (rtu_read_registers_world c 3 address 1 w Hc) as [result Hrd].
  rewrite (create_modbus_command_fits (slave_id c) 3 address 1
             eq_refl Ha eq_refl), Hs in Hrd.
  unfold bind. rewrite Hrd.
  destruct result as [[|v vs]|]; do 2 eexists; reflexivity.
Qed.

Lemma test_connection_alive (c : client) (w : world) :
  connected c = true ->
  in_range 0 255 (slave_id c) = true ->
  exists cmd,
    ModbusRTUClient.test_connection c w
    = (Return (acknowledged (hd [] (replies w))),
       World (sent w ++ [cmd]) (tl (replies w)) (opens w) (answers w)).
Proof.
  intros Hc Hs.
  unfold ModbusRTUClient.test_connection, ModbusRTUClient.read_input_registers,
    ModbusRTUClient.read_registers.
  rewrite probe_command_packs, Hc, Hs.
  cbv [negb try_except bind exchange ret].
  rewrite <- acknowledged_parse. eexists.
  destruct (hd [] (replies w)) as [|b reply]; [reflexivity|].
  destruct (ModbusRTUClient.parse_modbus_response (b :: reply)) as [p|];
    [destruct (ModbusRTUClient.is_error p)|]; reflexivity.
Qed.

Section WriteCommandStatus.
Context {WP : WritableParameters}.
Import SolarChargerCLI.

Lemma write_and_verify_status (c : client) (param : WritableParameter)
    (raw_value : Z) (w : world) :
  connected c = true ->
  in_range 0 255 (slave_id c) = true ->
  in_range 0 65535 (wp_address param) = true ->
  in_range 0 65535 raw_value = true ->
  fst (write_and_verify c param raw_value w)
  = Return (if acknowledged (hd [] (tl (replies w))) then 0 else 1).
Proof.
  intros Hc Hs Ha Hv. unfold write_and_verify.
  destruct (read_single_register_world c (wp_address param) w Hc Hs Ha)
    as (r1 & cmd1 & H1).
  unfold bind at 1. rewrite H1.
  destruct (write_single_command_fits _ _ _ Hs Ha Hv) as [cmd2 Hcmd].
  unfold bind at 1, ModbusRTUClient.write_single_register.
  rewrite Hc, Hcmd. cbn [negb]. rewrite write_exchange_result.
  cbn [replies]. destruct (acknowledged (hd [] (tl (replies w)))); [|reflexivity].
  unfold bind.
  match goal with
  | |- context [ModbusRTUClient.read_single_register c (wp_address param) true ?w'] =>
      destruct (read_single_register_world c (wp_address param) w' Hc Hs Ha)
        as (r3 & cmd3 & H3)
  end.
  rewrite H3. reflexivity.
Qed.

(** X23. The exit status of a confirmed write. Take a writable parameter,
    a value that validates, [--force] without [--dry-run], a port that
    opens, a device that answers the connection test, and a slave id,
    address and raw value that fit their fields. Then [cmd_write] exits
    with 0 exactly when the reply to the write request has at least five
    bytes and a function code below 128. The replies to the read before the
    write and to the verifying read after it have no part in the status: a
    failed verification still exits with 0. *)
Theorem cmd_write_exit_status (args : write_args) (param : WritableParameter)
    (error_msg : string) (raw_value : Z)
    (frames : list (list byte)) (probe_reply before_reply write_reply : list byte)
    (later_replies : list (list byte)) (later_opens : list bool)
    (typed : list string) :
  get_writable_parameter (arg_parameter args) = Some param ->
  validate_value param (arg_value args) = (true, error_msg, raw_value) ->
  arg_dry_run args = false ->
  arg_force args = true ->
  acknowledged probe_reply = true ->
  in_range 0 255 (arg_slave_id args) = true ->
  in_range 0 65535 (wp_address param) = true ->
  in_range 0 65535 raw_value = true ->
  fst (cmd_write args
         (World frames
                (probe_reply :: before_reply :: write_reply :: later_replies)
                (true :: true :: later_opens) typed))
  = Return (if acknowledged write_reply then 0 else 1).
Proof.
  intros Hparam Hvalid Hdry Hforce Hack Hs Ha Hv.
  unfold cmd_write, connect_device, ModbusRTUClient.connect.
  cbv [bind open_port ret]. cbn [hd tl opens sent replies answers slave_id].
  pose proof (test_connection_alive (Client (arg_slave_id args) true)) as Halive.
  match goal with
  | |- context [ModbusRTUClient.test_connection ?c ?w] =>
      destruct (Halive w eq_refl Hs) as (cmd0 & Ht); cbn [replies hd] in Ht;
      rewrite Hack in Ht; rewrite Ht
  end.
  cbn [negb sent replies opens answers tl].
  unfold try_except, cmd_write_body, ModbusRTUClient.connect.
  cbv [bind open_port ret]. cbn [hd tl opens sent replies answers slave_id negb].
  rewrite Hparam, Hvalid, Hdry, Hforce. cbn [negb].
  match goal with
  | |- context [write_and_verify ?c param raw_value ?w] =>
      pose proof (write_and_verify_status c param raw_value w eq_refl Hs Ha Hv)
        as Hst;
      destruct (write_and_verify c param raw_value w) as [o w'] eqn:E
  end.
  cbn [fst replies tl hd] in Hst. rewrite Hst.
  destruct (acknowledged write_reply); reflexivity.
Qed.

End WriteCommandStatus.

(** A write of 200 Ah answered by an echo; the verifying read gets no
    reply at all, and the status is 0. *)
Lemma cmd_write_exit_status_witness :
  fst (SolarChargerCLI.cmd_write (WP := sample_parameters)
         (WriteArgs 1 "battery_capacity" "200" true false)
         (World [] [[x01; x04; x02; x09; x98; xbe; xca];
                    [x01; x03; x02; x00; x64; xb9; xaf];
                    [x01; x06; x90; x01; x00; xc8; xf4; x9c]]
                [true; true] []))
  = Return 0.
Proof.
  exact (cmd_write_exit_status (WP := sample_parameters)
           (WriteArgs 1 "battery_capacity" "200" true false)
           (MkWritableParameter 0x9001 validate_number) EmptyString 200
           [] [x01; x04; x02; x09; x98; xbe; xca]
           [x01; x03; x02; x00; x64; xb9; xaf]
           [x01; x06; x90; x01; x00; xc8; xf4; x9c] [] [] []
           eq_refl eq_refl eq_refl eq_refl eq_refl eq_refl eq_refl eq_refl).
Defined.

(* ---------------------------------------------------------------------- *)
(** ** The batch write commands *)




Section BatchWrites.
Context {WP : WritableParameters}.
Import ConfigCommands.



Section Validation.
Context {value : Type}.
Variable validate_config_value : WritableParameter -> value -> bool * string * Z.




End Validation.


End BatchWrites.




